(** * Control and Status Registers of the RISC-V target (target/riscv/csr.c)

    A shallow embedding of the CSR access engine: the hart state of
    cpu.h, every accessor of csr.c, the accessor table [csr_ops] and the
    entry point [riscv_csrrw].  The system-emulation build is modelled
    (CONFIG_USER_ONLY undefined), for both TARGET_RISCV32 and
    TARGET_RISCV64.

    A [target_ulong] is a [Z]; the C operators [&], [|], [^], [~], [<<]
    and [>>] are [Z.land], [Z.lor], [Z.lxor], [Z.lnot], [Z.shiftl] and
    [Z.shiftr].  Casts that shorten a value are written out ([to_ulong],
    [to_uint32]). *)

From Stdlib Require Import ZArith List Bool Lia.
Import ListNotations.
Local Open Scope Z_scope.

(** ** Build configuration *)

(** TARGET_RISCV32 or TARGET_RISCV64, fixed when the emulator is built.  The
    target is found by instance resolution, like a macro is by the
    preprocessor. *)
Inductive target : Type := RV32 | RV64.
Existing Class target.

Definition TARGET_LONG_BITS (t : target) : Z :=
  match t with RV32 => 32 | RV64 => 64 end.

Definition TARGET_PHYS_ADDR_SPACE_BITS (t : target) : Z :=
  match t with RV32 => 34 | RV64 => 50 end.

(** Cast to [target_ulong]. *)
Definition to_ulong (t : target) (x : Z) : Z := x mod 2 ^ TARGET_LONG_BITS t.

(** Cast to [uint32_t]. *)
Definition to_uint32 (x : Z) : Z := x mod 2 ^ 32.

(** A value that fits a [target_ulong]. *)
Definition is_ulong (t : target) (x : Z) : Prop :=
  0 <= x < 2 ^ TARGET_LONG_BITS t.

(** ** Bit fields (cpu_bits.h) *)

Module Bits.

(** Modelled from the spec: cpu_bits.h is not part of the sources at hand.
    [get_field] and [set_field] are its field macros: the field selected by
    a mask of contiguous bits, moved down to (or up from) bit 0 with the
    lowest set bit of the mask, [mask & ~(mask << 1)]. *)
Definition lowest_bit (mask : Z) : Z := Z.land mask (Z.lnot (Z.shiftl mask 1)).

Definition get_field (reg mask : Z) : Z := Z.land reg mask / lowest_bit mask.

Definition set_field (reg mask val : Z) : Z :=
  Z.lor (Z.land reg (Z.lnot mask)) (Z.land (val * lowest_bit mask) mask).

(** Modelled from the spec: the constants of cpu_bits.h, which the spec fixes
    to the layouts of the RISC-V privileged architecture 1.9.1 and 1.10. *)
Definition PGSHIFT : Z := 12.

Definition FSR_RD_SHIFT : Z := 5.
Definition FSR_RD : Z := Z.shiftl 0x7 FSR_RD_SHIFT.
Definition FSR_AEXC_SHIFT : Z := 0.
Definition FSR_AEXC : Z := 0x1F.

Definition MSTATUS_UIE  : Z := 0x00000001.
Definition MSTATUS_SIE  : Z := 0x00000002.
Definition MSTATUS_MIE  : Z := 0x00000008.
Definition MSTATUS_UPIE : Z := 0x00000010.
Definition MSTATUS_SPIE : Z := 0x00000020.
Definition MSTATUS_MPIE : Z := 0x00000080.
Definition MSTATUS_SPP  : Z := 0x00000100.
Definition MSTATUS_MPP  : Z := 0x00001800.
Definition MSTATUS_FS   : Z := 0x00006000.
Definition MSTATUS_XS   : Z := 0x00018000.
Definition MSTATUS_MPRV : Z := 0x00020000.
Definition MSTATUS_SUM  : Z := 0x00040000.
Definition MSTATUS_MXR  : Z := 0x00080000.
Definition MSTATUS_VM   : Z := 0x1F000000.
Definition MSTATUS_SD (t : target) : Z :=
  match t with RV32 => 0x80000000 | RV64 => 0x8000000000000000 end.

Definition SSTATUS_UIE  : Z := 0x00000001.
Definition SSTATUS_SIE  : Z := 0x00000002.
Definition SSTATUS_UPIE : Z := 0x00000010.
Definition SSTATUS_SPIE : Z := 0x00000020.
Definition SSTATUS_SPP  : Z := 0x00000100.
Definition SSTATUS_FS   : Z := 0x00006000.
Definition SSTATUS_XS   : Z := 0x00018000.
Definition SSTATUS_SUM  : Z := 0x00040000.
Definition SSTATUS_MXR  : Z := 0x00080000.
Definition SSTATUS_SD (t : target) : Z :=
  match t with RV32 => 0x80000000 | RV64 => 0x8000000000000000 end.

Definition MIP_SSIP : Z := Z.shiftl 1 1.
Definition MIP_MSIP : Z := Z.shiftl 1 3.
Definition MIP_STIP : Z := Z.shiftl 1 5.
Definition MIP_MTIP : Z := Z.shiftl 1 7.
Definition MIP_SEIP : Z := Z.shiftl 1 9.
Definition MIP_MEIP : Z := Z.shiftl 1 11.

Definition PRV_U : Z := 0.
Definition PRV_S : Z := 1.
Definition PRV_H : Z := 2.
Definition PRV_M : Z := 3.

Definition SATP_MODE (t : target) : Z :=
  match t with RV32 => 0x80000000 | RV64 => 0xF000000000000000 end.
Definition SATP_ASID (t : target) : Z :=
  match t with RV32 => 0x7fc00000 | RV64 => 0x0FFFF00000000000 end.
Definition SATP_PPN (t : target) : Z :=
  match t with RV32 => 0x003fffff | RV64 => 0x00000FFFFFFFFFFF end.

Definition VM_1_09_MBARE : Z := 0.
Definition VM_1_09_SV32  : Z := 8.
Definition VM_1_09_SV39  : Z := 9.
Definition VM_1_09_SV48  : Z := 10.

Definition VM_1_10_MBARE : Z := 0.
Definition VM_1_10_SV32  : Z := 1.
Definition VM_1_10_SV39  : Z := 8.
Definition VM_1_10_SV48  : Z := 9.
Definition VM_1_10_SV57  : Z := 10.

Definition RISCV_EXCP_INST_ADDR_MIS          : Z := 0x0.
Definition RISCV_EXCP_INST_ACCESS_FAULT      : Z := 0x1.
Definition RISCV_EXCP_ILLEGAL_INST           : Z := 0x2.
Definition RISCV_EXCP_BREAKPOINT             : Z := 0x3.
Definition RISCV_EXCP_LOAD_ADDR_MIS          : Z := 0x4.
Definition RISCV_EXCP_LOAD_ACCESS_FAULT      : Z := 0x5.
Definition RISCV_EXCP_STORE_AMO_ADDR_MIS     : Z := 0x6.
Definition RISCV_EXCP_STORE_AMO_ACCESS_FAULT : Z := 0x7.
Definition RISCV_EXCP_U_ECALL                : Z := 0x8.
Definition RISCV_EXCP_S_ECALL                : Z := 0x9.
Definition RISCV_EXCP_H_ECALL                : Z := 0xa.
Definition RISCV_EXCP_M_ECALL                : Z := 0xb.
Definition RISCV_EXCP_INST_PAGE_FAULT        : Z := 0xc.
Definition RISCV_EXCP_LOAD_PAGE_FAULT        : Z := 0xd.
Definition RISCV_EXCP_STORE_PAGE_FAULT       : Z := 0xf.

(** Modelled from the spec: the CSR numbers of cpu_bits.h, those of the
    privileged architecture (1.9.1 for the legacy counter-enable registers). *)
Definition CSR_FFLAGS        : Z := 0x001.
Definition CSR_FRM           : Z := 0x002.
Definition CSR_FCSR          : Z := 0x003.
Definition CSR_CYCLE         : Z := 0xc00.
Definition CSR_TIME          : Z := 0xc01.
Definition CSR_INSTRET       : Z := 0xc02.
Definition CSR_HPMCOUNTER3   : Z := 0xc03.
Definition CSR_HPMCOUNTER31  : Z := 0xc1f.
Definition CSR_CYCLEH        : Z := 0xc80.
Definition CSR_TIMEH         : Z := 0xc81.
Definition CSR_INSTRETH      : Z := 0xc82.
Definition CSR_HPMCOUNTER3H  : Z := 0xc83.
Definition CSR_HPMCOUNTER31H : Z := 0xc9f.
Definition CSR_SSTATUS       : Z := 0x100.
Definition CSR_SIE           : Z := 0x104.
Definition CSR_STVEC         : Z := 0x105.
Definition CSR_SCOUNTEREN    : Z := 0x106.
Definition CSR_SSCRATCH      : Z := 0x140.
Definition CSR_SEPC          : Z := 0x141.
Definition CSR_SCAUSE        : Z := 0x142.
Definition CSR_SBADADDR      : Z := 0x143.
Definition CSR_SIP           : Z := 0x144.
Definition CSR_SATP          : Z := 0x180.
Definition CSR_MSTATUS       : Z := 0x300.
Definition CSR_MISA          : Z := 0x301.
Definition CSR_MEDELEG       : Z := 0x302.
Definition CSR_MIDELEG       : Z := 0x303.
Definition CSR_MIE           : Z := 0x304.
Definition CSR_MTVEC         : Z := 0x305.
Definition CSR_MCOUNTEREN    : Z := 0x306.
Definition CSR_MUCOUNTEREN   : Z := 0x320.
Definition CSR_MSCOUNTEREN   : Z := 0x321.
Definition CSR_MHPMEVENT3    : Z := 0x323.
Definition CSR_MHPMEVENT31   : Z := 0x33f.
Definition CSR_MSCRATCH      : Z := 0x340.
Definition CSR_MEPC          : Z := 0x341.
Definition CSR_MCAUSE        : Z := 0x342.
Definition CSR_MBADADDR      : Z := 0x343.
Definition CSR_MIP           : Z := 0x344.
Definition CSR_PMPCFG0       : Z := 0x3a0.
Definition CSR_PMPADDR0      : Z := 0x3b0.
Definition CSR_PMPADDR9      : Z := 0x3b9.
Definition CSR_PMPADDR15     : Z := 0x3bf.
Definition CSR_MCYCLE        : Z := 0xb00.
Definition CSR_MINSTRET      : Z := 0xb02.
Definition CSR_MHPMCOUNTER3  : Z := 0xb03.
Definition CSR_MHPMCOUNTER31 : Z := 0xb1f.
Definition CSR_MCYCLEH       : Z := 0xb80.
Definition CSR_MINSTRETH     : Z := 0xb82.
Definition CSR_MHPMCOUNTER3H : Z := 0xb83.
Definition CSR_MHPMCOUNTER31H : Z := 0xb9f.
Definition CSR_MVENDORID     : Z := 0xf11.
Definition CSR_MARCHID       : Z := 0xf12.
Definition CSR_MIMPID        : Z := 0xf13.
Definition CSR_MHARTID       : Z := 0xf14.

End Bits.
Export Bits.

(** ** cpu.h *)

(** [RV(x)] is [(target_ulong)1 << (x - 'A')]; 'S' is letter 18, 'U' is 20. *)
Definition RV (letter : Z) : Z := Z.shiftl 1 letter.
Definition RVS : Z := RV 18.
Definition RVU : Z := RV 20.

Definition PRIV_VERSION_1_09_1 : Z := 0x00010901.
Definition PRIV_VERSION_1_10_0 : Z := 0x00011000.

(** Modelled from the spec: the feature test [riscv_feature] and the feature
    number RISCV_FEATURE_MMU are not declared in the cpu.h at hand; the spec
    only says whether "the hart has an MMU".  A feature is a bit of the
    hart's [features] word. *)
Definition RISCV_FEATURE_MMU : Z := 0.

(** ** The hart and its collaborators *)

(** The PMP module (pmp.c) is a collaborator: its table type and its four CSR
    entry points, as pmp.h declares them, acting on the [pmp_state] of the
    hart; the register index is a [uint32_t]. *)
Class PmpModule : Type := {
  pmp_table_t : Type;
  pmpcfg_csr_read : pmp_table_t -> Z -> Z;
  pmpcfg_csr_write : pmp_table_t -> Z -> Z -> pmp_table_t;
  pmpaddr_csr_read : pmp_table_t -> Z -> Z;
  pmpaddr_csr_write : pmp_table_t -> Z -> Z -> pmp_table_t
}.

Section Csr.

Context {tgt : target} {pmp : PmpModule}.

(** [struct CPURISCVState], the fields the CSR file reads or writes.
    [fp_status] stands for the accrued exception flags held in the softfloat
    status; [features] is the feature word tested by [riscv_feature]. *)
Record CPURISCVState : Type := mkEnv {
  frm : Z;
  fp_status : Z;
  mucounteren : Z;
  priv_ver : Z;
  misa : Z;
  priv : Z;
  mhartid : Z;
  mstatus : Z;
  mip : Z;
  mie : Z;
  mideleg : Z;
  sptbr : Z;
  satp : Z;
  sbadaddr : Z;
  mbadaddr : Z;
  medeleg : Z;
  stvec : Z;
  sepc : Z;
  scause : Z;
  mtvec : Z;
  mepc : Z;
  mcause : Z;
  mscounteren : Z;
  scounteren : Z;
  mcounteren : Z;
  sscratch : Z;
  mscratch : Z;
  features : Z;
  pmp_state : pmp_table_t
}.

Definition set_frm (v : Z) (e : CPURISCVState) : CPURISCVState :=
  {| frm := v; fp_status := fp_status e; mucounteren := mucounteren e;
     priv_ver := priv_ver e; misa := misa e; priv := priv e;
     mhartid := mhartid e; mstatus := mstatus e; mip := mip e; mie := mie e;
     mideleg := mideleg e; sptbr := sptbr e; satp := satp e;
     sbadaddr := sbadaddr e; mbadaddr := mbadaddr e; medeleg := medeleg e;
     stvec := stvec e; sepc := sepc e; scause := scause e; mtvec := mtvec e;
     mepc := mepc e; mcause := mcause e; mscounteren := mscounteren e;
     scounteren := scounteren e; mcounteren := mcounteren e;
     sscratch := sscratch e; mscratch := mscratch e; features := features e;
     pmp_state := pmp_state e |}.

Definition set_fp_status (v : Z) (e : CPURISCVState) : CPURISCVState :=
  {| frm := frm e; fp_status := v; mucounteren := mucounteren e;
     priv_ver := priv_ver e; misa := misa e; priv := priv e;
     mhartid := mhartid e; mstatus := mstatus e; mip := mip e; mie := mie e;
     mideleg := mideleg e; sptbr := sptbr e; satp := satp e;
     sbadaddr := sbadaddr e; mbadaddr := mbadaddr e; medeleg := medeleg e;
     stvec := stvec e; sepc := sepc e; scause := scause e; mtvec := mtvec e;
     mepc := mepc e; mcause := mcause e; mscounteren := mscounteren e;
     scounteren := scounteren e; mcounteren := mcounteren e;
     sscratch := sscratch e; mscratch := mscratch e; features := features e;
     pmp_state := pmp_state e |}.

Definition set_priv (v : Z) (e : CPURISCVState) : CPURISCVState :=
  {| frm := frm e; fp_status := fp_status e; mucounteren := mucounteren e;
     priv_ver := priv_ver e; misa := misa e; priv := v; mhartid := mhartid e;
     mstatus := mstatus e; mip := mip e; mie := mie e; mideleg := mideleg e;
     sptbr := sptbr e; satp := satp e; sbadaddr := sbadaddr e;
     mbadaddr := mbadaddr e; medeleg := medeleg e; stvec := stvec e;
     sepc := sepc e; scause := scause e; mtvec := mtvec e; mepc := mepc e;
     mcause := mcause e; mscounteren := mscounteren e;
     scounteren := scounteren e; mcounteren := mcounteren e;
     sscratch := sscratch e; mscratch := mscratch e; features := features e;
     pmp_state := pmp_state e |}.

Definition set_mstatus (v : Z) (e : CPURISCVState) : CPURISCVState :=
  {| frm := frm e; fp_status := fp_status e; mucounteren := mucounteren e;
     priv_ver := priv_ver e; misa := misa e; priv := priv e;
     mhartid := mhartid e; mstatus := v; mip := mip e; mie := mie e;
     mideleg := mideleg e; sptbr := sptbr e; satp := satp e;
     sbadaddr := sbadaddr e; mbadaddr := mbadaddr e; medeleg := medeleg e;
     stvec := stvec e; sepc := sepc e; scause := scause e; mtvec := mtvec e;
     mepc := mepc e; mcause := mcause e; mscounteren := mscounteren e;
     scounteren := scounteren e; mcounteren := mcounteren e;
     sscratch := sscratch e; mscratch := mscratch e; features := features e;
     pmp_state := pmp_state e |}.

Definition set_mip (v : Z) (e : CPURISCVState) : CPURISCVState :=
  {| frm := frm e; fp_status := fp_status e; mucounteren := mucounteren e;
     priv_ver := priv_ver e; misa := misa e; priv := priv e;
     mhartid := mhartid e; mstatus := mstatus e; mip := v; mie := mie e;
     mideleg := mideleg e; sptbr := sptbr e; satp := satp e;
     sbadaddr := sbadaddr e; mbadaddr := mbadaddr e; medeleg := medeleg e;
     stvec := stvec e; sepc := sepc e; scause := scause e; mtvec := mtvec e;
     mepc := mepc e; mcause := mcause e; mscounteren := mscounteren e;
     scounteren := scounteren e; mcounteren := mcounteren e;
     sscratch := sscratch e; mscratch := mscratch e; features := features e;
     pmp_state := pmp_state e |}.

Definition set_mie (v : Z) (e : CPURISCVState) : CPURISCVState :=
  {| frm := frm e; fp_status := fp_status e; mucounteren := mucounteren e;
     priv_ver := priv_ver e; misa := misa e; priv := priv e;
     mhartid := mhartid e; mstatus := mstatus e; mip := mip e; mie := v;
     mideleg := mideleg e; sptbr := sptbr e; satp := satp e;
     sbadaddr := sbadaddr e; mbadaddr := mbadaddr e; medeleg := medeleg e;
     stvec := stvec e; sepc := sepc e; scause := scause e; mtvec := mtvec e;
     mepc := mepc e; mcause := mcause e; mscounteren := mscounteren e;
     scounteren := scounteren e; mcounteren := mcounteren e;
     sscratch := sscratch e; mscratch := mscratch e; features := features e;
     pmp_state := pmp_state e |}.

Definition set_mideleg (v : Z) (e : CPURISCVState) : CPURISCVState :=
  {| frm := frm e; fp_status := fp_status e; mucounteren := mucounteren e;
     priv_ver := priv_ver e; misa := misa e; priv := priv e;
     mhartid := mhartid e; mstatus := mstatus e; mip := mip e; mie := mie e;
     mideleg := v; sptbr := sptbr e; satp := satp e; sbadaddr := sbadaddr e;
     mbadaddr := mbadaddr e; medeleg := medeleg e; stvec := stvec e;
     sepc := sepc e; scause := scause e; mtvec := mtvec e; mepc := mepc e;
     mcause := mcause e; mscounteren := mscounteren e;
     scounteren := scounteren e; mcounteren := mcounteren e;
     sscratch := sscratch e; mscratch := mscratch e; features := features e;
     pmp_state := pmp_state e |}.

Definition set_sptbr (v : Z) (e : CPURISCVState) : CPURISCVState :=
  {| frm := frm e; fp_status := fp_status e; mucounteren := mucounteren e;
     priv_ver := priv_ver e; misa := misa e; priv := priv e;
     mhartid := mhartid e; mstatus := mstatus e; mip := mip e; mie := mie e;
     mideleg := mideleg e; sptbr := v; satp := satp e;
     sbadaddr := sbadaddr e; mbadaddr := mbadaddr e; medeleg := medeleg e;
     stvec := stvec e; sepc := sepc e; scause := scause e; mtvec := mtvec e;
     mepc := mepc e; mcause := mcause e; mscounteren := mscounteren e;
     scounteren := scounteren e; mcounteren := mcounteren e;
     sscratch := sscratch e; mscratch := mscratch e; features := features e;
     pmp_state := pmp_state e |}.

Definition set_satp (v : Z) (e : CPURISCVState) : CPURISCVState :=
  {| frm := frm e; fp_status := fp_status e; mucounteren := mucounteren e;
     priv_ver := priv_ver e; misa := misa e; priv := priv e;
     mhartid := mhartid e; mstatus := mstatus e; mip := mip e; mie := mie e;
     mideleg := mideleg e; sptbr := sptbr e; satp := v;
     sbadaddr := sbadaddr e; mbadaddr := mbadaddr e; medeleg := medeleg e;
     stvec := stvec e; sepc := sepc e; scause := scause e; mtvec := mtvec e;
     mepc := mepc e; mcause := mcause e; mscounteren := mscounteren e;
     scounteren := scounteren e; mcounteren := mcounteren e;
     sscratch := sscratch e; mscratch := mscratch e; features := features e;
     pmp_state := pmp_state e |}.

Definition set_sbadaddr (v : Z) (e : CPURISCVState) : CPURISCVState :=
  {| frm := frm e; fp_status := fp_status e; mucounteren := mucounteren e;
     priv_ver := priv_ver e; misa := misa e; priv := priv e;
     mhartid := mhartid e; mstatus := mstatus e; mip := mip e; mie := mie e;
     mideleg := mideleg e; sptbr := sptbr e; satp := satp e; sbadaddr := v;
     mbadaddr := mbadaddr e; medeleg := medeleg e; stvec := stvec e;
     sepc := sepc e; scause := scause e; mtvec := mtvec e; mepc := mepc e;
     mcause := mcause e; mscounteren := mscounteren e;
     scounteren := scounteren e; mcounteren := mcounteren e;
     sscratch := sscratch e; mscratch := mscratch e; features := features e;
     pmp_state := pmp_state e |}.

Definition set_mbadaddr (v : Z) (e : CPURISCVState) : CPURISCVState :=
  {| frm := frm e; fp_status := fp_status e; mucounteren := mucounteren e;
     priv_ver := priv_ver e; misa := misa e; priv := priv e;
     mhartid := mhartid e; mstatus := mstatus e; mip := mip e; mie := mie e;
     mideleg := mideleg e; sptbr := sptbr e; satp := satp e;
     sbadaddr := sbadaddr e; mbadaddr := v; medeleg := medeleg e;
     stvec := stvec e; sepc := sepc e; scause := scause e; mtvec := mtvec e;
     mepc := mepc e; mcause := mcause e; mscounteren := mscounteren e;
     scounteren := scounteren e; mcounteren := mcounteren e;
     sscratch := sscratch e; mscratch := mscratch e; features := features e;
     pmp_state := pmp_state e |}.

Definition set_medeleg (v : Z) (e : CPURISCVState) : CPURISCVState :=
  {| frm := frm e; fp_status := fp_status e; mucounteren := mucounteren e;
     priv_ver := priv_ver e; misa := misa e; priv := priv e;
     mhartid := mhartid e; mstatus := mstatus e; mip := mip e; mie := mie e;
     mideleg := mideleg e; sptbr := sptbr e; satp := satp e;
     sbadaddr := sbadaddr e; mbadaddr := mbadaddr e; medeleg := v;
     stvec := stvec e; sepc := sepc e; scause := scause e; mtvec := mtvec e;
     mepc := mepc e; mcause := mcause e; mscounteren := mscounteren e;
     scounteren := scounteren e; mcounteren := mcounteren e;
     sscratch := sscratch e; mscratch := mscratch e; features := features e;
     pmp_state := pmp_state e |}.

Definition set_stvec (v : Z) (e : CPURISCVState) : CPURISCVState :=
  {| frm := frm e; fp_status := fp_status e; mucounteren := mucounteren e;
     priv_ver := priv_ver e; misa := misa e; priv := priv e;
     mhartid := mhartid e; mstatus := mstatus e; mip := mip e; mie := mie e;
     mideleg := mideleg e; sptbr := sptbr e; satp := satp e;
     sbadaddr := sbadaddr e; mbadaddr := mbadaddr e; medeleg := medeleg e;
     stvec := v; sepc := sepc e; scause := scause e; mtvec := mtvec e;
     mepc := mepc e; mcause := mcause e; mscounteren := mscounteren e;
     scounteren := scounteren e; mcounteren := mcounteren e;
     sscratch := sscratch e; mscratch := mscratch e; features := features e;
     pmp_state := pmp_state e |}.

Definition set_sepc (v : Z) (e : CPURISCVState) : CPURISCVState :=
  {| frm := frm e; fp_status := fp_status e; mucounteren := mucounteren e;
     priv_ver := priv_ver e; misa := misa e; priv := priv e;
     mhartid := mhartid e; mstatus := mstatus e; mip := mip e; mie := mie e;
     mideleg := mideleg e; sptbr := sptbr e; satp := satp e;
     sbadaddr := sbadaddr e; mbadaddr := mbadaddr e; medeleg := medeleg e;
     stvec := stvec e; sepc := v; scause := scause e; mtvec := mtvec e;
     mepc := mepc e; mcause := mcause e; mscounteren := mscounteren e;
     scounteren := scounteren e; mcounteren := mcounteren e;
     sscratch := sscratch e; mscratch := mscratch e; features := features e;
     pmp_state := pmp_state e |}.

Definition set_scause (v : Z) (e : CPURISCVState) : CPURISCVState :=
  {| frm := frm e; fp_status := fp_status e; mucounteren := mucounteren e;
     priv_ver := priv_ver e; misa := misa e; priv := priv e;
     mhartid := mhartid e; mstatus := mstatus e; mip := mip e; mie := mie e;
     mideleg := mideleg e; sptbr := sptbr e; satp := satp e;
     sbadaddr := sbadaddr e; mbadaddr := mbadaddr e; medeleg := medeleg e;
     stvec := stvec e; sepc := sepc e; scause := v; mtvec := mtvec e;
     mepc := mepc e; mcause := mcause e; mscounteren := mscounteren e;
     scounteren := scounteren e; mcounteren := mcounteren e;
     sscratch := sscratch e; mscratch := mscratch e; features := features e;
     pmp_state := pmp_state e |}.

Definition set_mtvec (v : Z) (e : CPURISCVState) : CPURISCVState :=
  {| frm := frm e; fp_status := fp_status e; mucounteren := mucounteren e;
     priv_ver := priv_ver e; misa := misa e; priv := priv e;
     mhartid := mhartid e; mstatus := mstatus e; mip := mip e; mie := mie e;
     mideleg := mideleg e; sptbr := sptbr e; satp := satp e;
     sbadaddr := sbadaddr e; mbadaddr := mbadaddr e; medeleg := medeleg e;
     stvec := stvec e; sepc := sepc e; scause := scause e; mtvec := v;
     mepc := mepc e; mcause := mcause e; mscounteren := mscounteren e;
     scounteren := scounteren e; mcounteren := mcounteren e;
     sscratch := sscratch e; mscratch := mscratch e; features := features e;
     pmp_state := pmp_state e |}.

Definition set_mepc (v : Z) (e : CPURISCVState) : CPURISCVState :=
  {| frm := frm e; fp_status := fp_status e; mucounteren := mucounteren e;
     priv_ver := priv_ver e; misa := misa e; priv := priv e;
     mhartid := mhartid e; mstatus := mstatus e; mip := mip e; mie := mie e;
     mideleg := mideleg e; sptbr := sptbr e; satp := satp e;
     sbadaddr := sbadaddr e; mbadaddr := mbadaddr e; medeleg := medeleg e;
     stvec := stvec e; sepc := sepc e; scause := scause e; mtvec := mtvec e;
     mepc := v; mcause := mcause e; mscounteren := mscounteren e;
     scounteren := scounteren e; mcounteren := mcounteren e;
     sscratch := sscratch e; mscratch := mscratch e; features := features e;
     pmp_state := pmp_state e |}.

Definition set_mcause (v : Z) (e : CPURISCVState) : CPURISCVState :=
  {| frm := frm e; fp_status := fp_status e; mucounteren := mucounteren e;
     priv_ver := priv_ver e; misa := misa e; priv := priv e;
     mhartid := mhartid e; mstatus := mstatus e; mip := mip e; mie := mie e;
     mideleg := mideleg e; sptbr := sptbr e; satp := satp e;
     sbadaddr := sbadaddr e; mbadaddr := mbadaddr e; medeleg := medeleg e;
     stvec := stvec e; sepc := sepc e; scause := scause e; mtvec := mtvec e;
     mepc := mepc e; mcause := v; mscounteren := mscounteren e;
     scounteren := scounteren e; mcounteren := mcounteren e;
     sscratch := sscratch e; mscratch := mscratch e; features := features e;
     pmp_state := pmp_state e |}.

Definition set_scounteren (v : Z) (e : CPURISCVState) : CPURISCVState :=
  {| frm := frm e; fp_status := fp_status e; mucounteren := mucounteren e;
     priv_ver := priv_ver e; misa := misa e; priv := priv e;
     mhartid := mhartid e; mstatus := mstatus e; mip := mip e; mie := mie e;
     mideleg := mideleg e; sptbr := sptbr e; satp := satp e;
     sbadaddr := sbadaddr e; mbadaddr := mbadaddr e; medeleg := medeleg e;
     stvec := stvec e; sepc := sepc e; scause := scause e; mtvec := mtvec e;
     mepc := mepc e; mcause := mcause e; mscounteren := mscounteren e;
     scounteren := v; mcounteren := mcounteren e; sscratch := sscratch e;
     mscratch := mscratch e; features := features e;
     pmp_state := pmp_state e |}.

Definition set_mcounteren (v : Z) (e : CPURISCVState) : CPURISCVState :=
  {| frm := frm e; fp_status := fp_status e; mucounteren := mucounteren e;
     priv_ver := priv_ver e; misa := misa e; priv := priv e;
     mhartid := mhartid e; mstatus := mstatus e; mip := mip e; mie := mie e;
     mideleg := mideleg e; sptbr := sptbr e; satp := satp e;
     sbadaddr := sbadaddr e; mbadaddr := mbadaddr e; medeleg := medeleg e;
     stvec := stvec e; sepc := sepc e; scause := scause e; mtvec := mtvec e;
     mepc := mepc e; mcause := mcause e; mscounteren := mscounteren e;
     scounteren := scounteren e; mcounteren := v; sscratch := sscratch e;
     mscratch := mscratch e; features := features e;
     pmp_state := pmp_state e |}.

Definition set_sscratch (v : Z) (e : CPURISCVState) : CPURISCVState :=
  {| frm := frm e; fp_status := fp_status e; mucounteren := mucounteren e;
     priv_ver := priv_ver e; misa := misa e; priv := priv e;
     mhartid := mhartid e; mstatus := mstatus e; mip := mip e; mie := mie e;
     mideleg := mideleg e; sptbr := sptbr e; satp := satp e;
     sbadaddr := sbadaddr e; mbadaddr := mbadaddr e; medeleg := medeleg e;
     stvec := stvec e; sepc := sepc e; scause := scause e; mtvec := mtvec e;
     mepc := mepc e; mcause := mcause e; mscounteren := mscounteren e;
     scounteren := scounteren e; mcounteren := mcounteren e; sscratch := v;
     mscratch := mscratch e; features := features e;
     pmp_state := pmp_state e |}.

Definition set_mscratch (v : Z) (e : CPURISCVState) : CPURISCVState :=
  {| frm := frm e; fp_status := fp_status e; mucounteren := mucounteren e;
     priv_ver := priv_ver e; misa := misa e; priv := priv e;
     mhartid := mhartid e; mstatus := mstatus e; mip := mip e; mie := mie e;
     mideleg := mideleg e; sptbr := sptbr e; satp := satp e;
     sbadaddr := sbadaddr e; mbadaddr := mbadaddr e; medeleg := medeleg e;
     stvec := stvec e; sepc := sepc e; scause := scause e; mtvec := mtvec e;
     mepc := mepc e; mcause := mcause e; mscounteren := mscounteren e;
     scounteren := scounteren e; mcounteren := mcounteren e;
     sscratch := sscratch e; mscratch := v; features := features e;
     pmp_state := pmp_state e |}.

Definition set_pmp_state (v : pmp_table_t) (e : CPURISCVState)
  : CPURISCVState :=
  {| frm := frm e; fp_status := fp_status e; mucounteren := mucounteren e;
     priv_ver := priv_ver e; misa := misa e; priv := priv e;
     mhartid := mhartid e; mstatus := mstatus e; mip := mip e; mie := mie e;
     mideleg := mideleg e; sptbr := sptbr e; satp := satp e;
     sbadaddr := sbadaddr e; mbadaddr := mbadaddr e; medeleg := medeleg e;
     stvec := stvec e; sepc := sepc e; scause := scause e; mtvec := mtvec e;
     mepc := mepc e; mcause := mcause e; mscounteren := mscounteren e;
     scounteren := scounteren e; mcounteren := mcounteren e;
     sscratch := sscratch e; mscratch := mscratch e; features := features e;
     pmp_state := v |}.

(** What the CSR file asks of the rest of the emulator, in program order.
    A TLB flush records the hart as it was when the flush was requested, so
    that a flush issued before a store shows the value from before the
    store. *)
Inductive event : Type :=
| EvTlbFlush (seen : CPURISCVState)
| EvIothreadLock
| EvIothreadUnlock
| EvSetLocalInterrupt (mask value : Z).

(** The hart, the host clock sources read by the counters and the requests
    issued so far (latest last). *)
Record machine : Type := mkMachine {
  env : CPURISCVState;
  use_icount : bool;
  icount : Z;
  host_ticks : Z;
  events : list event
}.

Definition with_env (f : CPURISCVState -> CPURISCVState) (m : machine)
  : machine :=
  {| env := f (env m); use_icount := use_icount m; icount := icount m;
     host_ticks := host_ticks m; events := events m |}.

Definition emit (ev : event) (m : machine) : machine :=
  {| env := env m; use_icount := use_icount m; icount := icount m;
     host_ticks := host_ticks m; events := events m ++ [ev] |}.

(** A C condition: non-zero is true. *)
Definition truthy (x : Z) : bool := negb (x =? 0).

Definition riscv_has_ext (e : CPURISCVState) (ext : Z) : bool :=
  truthy (Z.land (misa e) ext).

Definition riscv_feature (e : CPURISCVState) (feature : Z) : bool :=
  Z.testbit (features e) feature.

(** [tlb_flush(CPU(riscv_env_get_cpu(env)))]. *)
Definition tlb_flush (m : machine) : machine := emit (EvTlbFlush (env m)) m.

Definition qemu_mutex_lock_iothread (m : machine) : machine :=
  emit EvIothreadLock m.

Definition qemu_mutex_unlock_iothread (m : machine) : machine :=
  emit EvIothreadUnlock m.

(** Modelled from the spec: [riscv_set_local_interrupt] lives outside csr.c.
    "atomically updates the pending bitmap and re-evaluates delivery", that
    is [old = mip; mip = (mip & ~mask) | (new & mask)], and returns the prior
    value. *)
Definition riscv_set_local_interrupt (m : machine) (mask value : Z)
  : Z * machine :=
  let old := mip (env m) in
  (old,
   emit (EvSetLocalInterrupt mask value)
     (with_env
        (set_mip (Z.lor (Z.land old (Z.lnot mask)) (Z.land value mask))) m)).

(** Modelled from the spec: the accessors of the floating-point flags live in
    the FP helper; "get_fflags(env) -> u5, set_fflags(env, u5)". *)
Definition cpu_riscv_get_fflags (e : CPURISCVState) : Z := fp_status e.

Definition cpu_riscv_set_fflags (v : Z) (e : CPURISCVState) : CPURISCVState :=
  set_fp_status v e.

(** [cpu_get_icount()] and [cpu_get_host_ticks()]. *)
Definition cpu_get_icount (m : machine) : Z := icount m.
Definition cpu_get_host_ticks (m : machine) : Z := host_ticks m.

(** ** csr.c *)

(** A read accessor returns its [int] status and what it stored in [*val]
    ([None] when it stored nothing); a write accessor returns its status and
    the machine it leaves. *)
Definition riscv_csr_read_fn : Type := machine -> Z -> Z * option Z.
Definition riscv_csr_write_fn : Type := machine -> Z -> Z -> Z * machine.

(** What a call of [riscv_csrrw] or of a combined accessor yields: the [int]
    it returns, what it stored through [ret_value] (taken non-null; [None]
    when nothing was stored) and the machine it leaves. *)
Record csr_result : Type := mkResult {
  ret : Z;
  ret_value : option Z;
  post : machine
}.

Definition riscv_csr_op_fn : Type := machine -> Z -> Z -> Z -> csr_result.

Record riscv_csr_operations : Type := mkOps {
  read : option riscv_csr_read_fn;
  write : option riscv_csr_write_fn;
  op : option riscv_csr_op_fn
}.

(** *** User Floating-Point CSRs *)

Definition read_fflags (m : machine) (csrno : Z) : Z * option Z :=
  if negb (truthy (Z.land (mstatus (env m)) MSTATUS_FS)) then (-1, None)
  else (0, Some (cpu_riscv_get_fflags (env m))).

Definition write_fflags (m : machine) (csrno val : Z) : Z * machine :=
  if negb (truthy (Z.land (mstatus (env m)) MSTATUS_FS)) then (-1, m)
  else
    let m :=
      with_env (fun e => set_mstatus (Z.lor (mstatus e) MSTATUS_FS) e) m in
    let m :=
      with_env
        (cpu_riscv_set_fflags (Z.land val (Z.shiftr FSR_AEXC FSR_AEXC_SHIFT)))
        m in
    (0, m).

Definition read_frm (m : machine) (csrno : Z) : Z * option Z :=
  if negb (truthy (Z.land (mstatus (env m)) MSTATUS_FS)) then (-1, None)
  else (0, Some (frm (env m))).

Definition write_frm (m : machine) (csrno val : Z) : Z * machine :=
  if negb (truthy (Z.land (mstatus (env m)) MSTATUS_FS)) then (-1, m)
  else
    let m :=
      with_env (fun e => set_mstatus (Z.lor (mstatus e) MSTATUS_FS) e) m in
    let m :=
      with_env (set_frm (Z.land val (Z.shiftr FSR_RD FSR_RD_SHIFT))) m in
    (0, m).

Definition read_fcsr (m : machine) (csrno : Z) : Z * option Z :=
  if negb (truthy (Z.land (mstatus (env m)) MSTATUS_FS)) then (-1, None)
  else
    (0, Some (Z.lor (Z.shiftl (cpu_riscv_get_fflags (env m)) FSR_AEXC_SHIFT)
                    (Z.shiftl (frm (env m)) FSR_RD_SHIFT))).

Definition write_fcsr (m : machine) (csrno val : Z) : Z * machine :=
  if negb (truthy (Z.land (mstatus (env m)) MSTATUS_FS)) then (-1, m)
  else
    let m :=
      with_env (fun e => set_mstatus (Z.lor (mstatus e) MSTATUS_FS) e) m in
    let m :=
      with_env (set_frm (Z.shiftr (Z.land val FSR_RD) FSR_RD_SHIFT)) m in
    let m :=
      with_env
        (cpu_riscv_set_fflags (Z.shiftr (Z.land val FSR_AEXC) FSR_AEXC_SHIFT))
        m in
    (0, m).

(** *** User Timers and Counters *)

(** [-1U], an [unsigned int]. *)
Definition minus_1U : Z := Z.ones 32.

Definition counter_enabled (e : CPURISCVState) (csrno : Z) : Z :=
  let ctr_en :=
    if priv e =? PRV_U then mucounteren e
    else if priv e =? PRV_S then mscounteren e
    else minus_1U in
  Z.land (Z.shiftr ctr_en (Z.land csrno 31)) 1.

Definition read_zero_counter (m : machine) (csrno : Z) : Z * option Z :=
  if negb (truthy (counter_enabled (env m) csrno)) then (-1, None)
  else (0, Some 0).

Definition read_instret (m : machine) (csrno : Z) : Z * option Z :=
  if negb (truthy (counter_enabled (env m) csrno)) then (-1, None)
  else if use_icount m then (0, Some (to_ulong tgt (cpu_get_icount m)))
  else (0, Some (to_ulong tgt (cpu_get_host_ticks m))).

(** TARGET_RISCV32 only. *)
Definition read_instreth (m : machine) (csrno : Z) : Z * option Z :=
  if negb (truthy (counter_enabled (env m) csrno)) then (-1, None)
  else if use_icount m
  then (0, Some (to_ulong tgt (Z.shiftr (cpu_get_icount m) 32)))
  else (0, Some (to_ulong tgt (Z.shiftr (cpu_get_host_ticks m) 32))).

(** *** Machine constants *)

Definition delegable_ints : Z := Z.lor (Z.lor MIP_SSIP MIP_STIP) MIP_SEIP.

Definition all_ints : Z :=
  Z.lor (Z.lor (Z.lor (Z.lor MIP_SSIP MIP_STIP) MIP_SEIP) MIP_MSIP) MIP_MTIP.

Definition delegable_excps : Z :=
  fold_left (fun acc excp => Z.lor acc (Z.shiftl 1 excp))
    [ RISCV_EXCP_INST_ADDR_MIS; RISCV_EXCP_INST_ACCESS_FAULT;
      RISCV_EXCP_ILLEGAL_INST; RISCV_EXCP_BREAKPOINT;
      RISCV_EXCP_LOAD_ADDR_MIS; RISCV_EXCP_LOAD_ACCESS_FAULT;
      RISCV_EXCP_STORE_AMO_ADDR_MIS; RISCV_EXCP_STORE_AMO_ACCESS_FAULT;
      RISCV_EXCP_U_ECALL; RISCV_EXCP_S_ECALL; RISCV_EXCP_H_ECALL;
      RISCV_EXCP_M_ECALL; RISCV_EXCP_INST_PAGE_FAULT;
      RISCV_EXCP_LOAD_PAGE_FAULT; RISCV_EXCP_STORE_PAGE_FAULT ] 0.

Definition lor_all (masks : list Z) : Z := fold_left Z.lor masks 0.

Definition sstatus_v1_9_mask : Z :=
  lor_all [ SSTATUS_SIE; SSTATUS_SPIE; SSTATUS_UIE; SSTATUS_UPIE; SSTATUS_SPP;
            SSTATUS_FS; SSTATUS_XS; SSTATUS_SUM; SSTATUS_SD tgt ].

Definition sstatus_v1_10_mask : Z :=
  lor_all [ SSTATUS_SIE; SSTATUS_SPIE; SSTATUS_UIE; SSTATUS_UPIE; SSTATUS_SPP;
            SSTATUS_FS; SSTATUS_XS; SSTATUS_SUM; SSTATUS_MXR; SSTATUS_SD tgt ].

(** A [char[16]] table with the listed indices set to 1. *)
Definition char16_table (ones : list Z) (i : Z) : Z :=
  if existsb (Z.eqb i) ones then 1 else 0.

Definition valid_vm_1_09 : Z -> Z :=
  match tgt with
  | RV32 => char16_table [VM_1_09_MBARE; VM_1_09_SV32]
  | RV64 => char16_table [VM_1_09_MBARE; VM_1_09_SV39; VM_1_09_SV48]
  end.

Definition valid_vm_1_10 : Z -> Z :=
  match tgt with
  | RV32 => char16_table [VM_1_10_MBARE; VM_1_10_SV32]
  | RV64 =>
      char16_table [VM_1_10_MBARE; VM_1_10_SV39; VM_1_10_SV48; VM_1_10_SV57]
  end.

(** *** Machine Information Registers *)

(** [return *val = 0;] *)
Definition read_zero (m : machine) (csrno : Z) : Z * option Z := (0, Some 0).

Definition read_mhartid (m : machine) (csrno : Z) : Z * option Z :=
  (0, Some (mhartid (env m))).

(** *** Machine Trap Setup *)

Definition read_mstatus (m : machine) (csrno : Z) : Z * option Z :=
  (0, Some (mstatus (env m))).

Definition validate_vm (e : CPURISCVState) (vm : Z) : Z :=
  if priv_ver e >=? PRIV_VERSION_1_10_0
  then valid_vm_1_10 (Z.land vm 0xf)
  else valid_vm_1_09 (Z.land vm 0xf).

Definition write_mstatus (m : machine) (csrno val : Z) : Z * machine :=
  let e := env m in
  let mstatus0 := mstatus e in
  let mask := 0 in
  let mpp := get_field val MSTATUS_MPP in
  (* flush tlb on mstatus fields that affect VM *)
  let '(m, mask) :=
    if priv_ver e <=? PRIV_VERSION_1_09_1 then
      let m :=
        if truthy (Z.land (Z.lxor val mstatus0)
                     (lor_all [MSTATUS_MXR; MSTATUS_MPP; MSTATUS_MPRV;
                               MSTATUS_SUM; MSTATUS_VM]))
        then tlb_flush m else m in
      (m,
       lor_all [MSTATUS_SIE; MSTATUS_SPIE; MSTATUS_MIE; MSTATUS_MPIE;
                MSTATUS_SPP; MSTATUS_FS; MSTATUS_MPRV; MSTATUS_SUM;
                MSTATUS_MPP; MSTATUS_MXR;
                if truthy (validate_vm e (get_field val MSTATUS_VM))
                then MSTATUS_VM else 0])
    else (m, mask) in
  let '(m, mask) :=
    if priv_ver e >=? PRIV_VERSION_1_10_0 then
      let m :=
        if truthy (Z.land (Z.lxor val mstatus0)
                     (lor_all [MSTATUS_MXR; MSTATUS_MPP; MSTATUS_MPRV;
                               MSTATUS_SUM]))
        then tlb_flush m else m in
      (m,
       lor_all [MSTATUS_SIE; MSTATUS_SPIE; MSTATUS_MIE; MSTATUS_MPIE;
                MSTATUS_SPP; MSTATUS_FS; MSTATUS_MPRV; MSTATUS_SUM;
                MSTATUS_MPP; MSTATUS_MXR])
    else (m, mask) in
  (* silently discard mstatus.mpp writes for unsupported modes *)
  let mask :=
    if (mpp =? PRV_H)
       || (negb (riscv_has_ext e RVS) && (mpp =? PRV_S))
       || (negb (riscv_has_ext e RVU) && (mpp =? PRV_U))
    then Z.land mask (Z.lnot MSTATUS_MPP) else mask in
  let mstatus1 := Z.lor (Z.land mstatus0 (Z.lnot mask)) (Z.land val mask) in
  (* FP is always dirty or off *)
  let mstatus2 :=
    if truthy (Z.land mstatus1 MSTATUS_FS) then Z.lor mstatus1 MSTATUS_FS
    else mstatus1 in
  let dirty :=
    Z.lor (Z.b2z (Z.land mstatus2 MSTATUS_FS =? MSTATUS_FS))
          (Z.b2z (Z.land mstatus2 MSTATUS_XS =? MSTATUS_XS)) in
  let mstatus3 := set_field mstatus2 (MSTATUS_SD tgt) dirty in
  (0, with_env (set_mstatus mstatus3) m).

Definition read_misa (m : machine) (csrno : Z) : Z * option Z :=
  (0, Some (misa (env m))).

Definition read_medeleg (m : machine) (csrno : Z) : Z * option Z :=
  (0, Some (medeleg (env m))).

Definition write_medeleg (m : machine) (csrno val : Z) : Z * machine :=
  (0, with_env
        (fun e =>
           set_medeleg (Z.lor (Z.land (medeleg e) (Z.lnot delegable_excps))
                              (Z.land val delegable_excps)) e) m).

Definition read_mideleg (m : machine) (csrno : Z) : Z * option Z :=
  (0, Some (mideleg (env m))).

Definition write_mideleg (m : machine) (csrno val : Z) : Z * machine :=
  (0, with_env
        (fun e =>
           set_mideleg (Z.lor (Z.land (mideleg e) (Z.lnot delegable_ints))
                              (Z.land val delegable_ints)) e) m).

Definition read_mie (m : machine) (csrno : Z) : Z * option Z :=
  (0, Some (mie (env m))).

Definition write_mie (m : machine) (csrno val : Z) : Z * machine :=
  (0, with_env
        (fun e =>
           set_mie (Z.lor (Z.land (mie e) (Z.lnot all_ints))
                          (Z.land val all_ints)) e) m).

Definition read_mtvec (m : machine) (csrno : Z) : Z * option Z :=
  (0, Some (mtvec (env m))).

Definition write_mtvec (m : machine) (csrno val : Z) : Z * machine :=
  (* we do not support vectored traps for asynchronous interrupts *)
  if Z.land val 3 =? 0
  then (0, with_env (set_mtvec (Z.shiftl (Z.shiftr val 2) 2)) m)
  else (0, m).

Definition read_mcounteren (m : machine) (csrno : Z) : Z * option Z :=
  if priv_ver (env m) <? PRIV_VERSION_1_10_0 then (-1, None)
  else (0, Some (mcounteren (env m))).

Definition write_mcounteren (m : machine) (csrno val : Z) : Z * machine :=
  if priv_ver (env m) <? PRIV_VERSION_1_10_0 then (-1, m)
  else (0, with_env (set_mcounteren val) m).

Definition read_mscounteren (m : machine) (csrno : Z) : Z * option Z :=
  if priv_ver (env m) >? PRIV_VERSION_1_09_1 then (-1, None)
  else (0, Some (mcounteren (env m))).

Definition write_mscounteren (m : machine) (csrno val : Z) : Z * machine :=
  if priv_ver (env m) >? PRIV_VERSION_1_09_1 then (-1, m)
  else (0, with_env (set_mcounteren val) m).

Definition read_mucounteren (m : machine) (csrno : Z) : Z * option Z :=
  if priv_ver (env m) >? PRIV_VERSION_1_09_1 then (-1, None)
  else (0, Some (scounteren (env m))).

Definition write_mucounteren (m : machine) (csrno val : Z) : Z * machine :=
  if priv_ver (env m) >? PRIV_VERSION_1_09_1 then (-1, m)
  else (0, with_env (set_scounteren val) m).

(** *** Machine Trap Handling *)

Definition read_mscratch (m : machine) (csrno : Z) : Z * option Z :=
  (0, Some (mscratch (env m))).

Definition write_mscratch (m : machine) (csrno val : Z) : Z * machine :=
  (0, with_env (set_mscratch val) m).

Definition read_mepc (m : machine) (csrno : Z) : Z * option Z :=
  (0, Some (mepc (env m))).

Definition write_mepc (m : machine) (csrno val : Z) : Z * machine :=
  (0, with_env (set_mepc val) m).

Definition read_mcause (m : machine) (csrno : Z) : Z * option Z :=
  (0, Some (mcause (env m))).

Definition write_mcause (m : machine) (csrno val : Z) : Z * machine :=
  (0, with_env (set_mcause val) m).

Definition read_mbadaddr (m : machine) (csrno : Z) : Z * option Z :=
  (0, Some (mbadaddr (env m))).

Definition write_mbadaddr (m : machine) (csrno val : Z) : Z * machine :=
  (0, with_env (set_mbadaddr val) m).

Definition rmw_mip (m : machine) (csrno new_value write_mask : Z)
  : csr_result :=
  let mask := Z.land write_mask delegable_ints in
  (* the SEIP bit must be hardware controlled when a PLIC is attached *)
  let mask := Z.land mask (Z.lnot MIP_SEIP) in
  let '(old_mip, m) :=
    if truthy mask then
      let m := qemu_mutex_lock_iothread m in
      let '(old, m) :=
        riscv_set_local_interrupt m mask (Z.land new_value mask) in
      let m := qemu_mutex_unlock_iothread m in
      (to_uint32 old, m)
    else (to_uint32 (mip (env m)), m) in
  {| ret := 0; ret_value := Some old_mip; post := m |}.

(** *** Supervisor Trap Setup *)

Definition read_sstatus (m : machine) (csrno : Z) : Z * option Z :=
  let mask :=
    if priv_ver (env m) >=? PRIV_VERSION_1_10_0
    then sstatus_v1_10_mask else sstatus_v1_9_mask in
  (0, Some (Z.land (mstatus (env m)) mask)).

Definition write_sstatus (m : machine) (csrno val : Z) : Z * machine :=
  let mask :=
    if priv_ver (env m) >=? PRIV_VERSION_1_10_0
    then sstatus_v1_10_mask else sstatus_v1_9_mask in
  let newval :=
    Z.lor (Z.land (mstatus (env m)) (Z.lnot mask)) (Z.land val mask) in
  write_mstatus m CSR_MSTATUS newval.

Definition read_sie (m : machine) (csrno : Z) : Z * option Z :=
  (0, Some (Z.land (mie (env m)) (mideleg (env m)))).

Definition write_sie (m : machine) (csrno val : Z) : Z * machine :=
  let newval :=
    Z.lor (Z.land (mie (env m)) (Z.lnot (mideleg (env m))))
          (Z.land val (mideleg (env m))) in
  write_mie m CSR_MIE newval.

Definition read_stvec (m : machine) (csrno : Z) : Z * option Z :=
  (0, Some (stvec (env m))).

Definition write_stvec (m : machine) (csrno val : Z) : Z * machine :=
  if Z.land val 3 =? 0
  then (0, with_env (set_stvec (Z.shiftl (Z.shiftr val 2) 2)) m)
  else (0, m).

Definition read_scounteren (m : machine) (csrno : Z) : Z * option Z :=
  if priv_ver (env m) <? PRIV_VERSION_1_10_0 then (-1, None)
  else (0, Some (scounteren (env m))).

Definition write_scounteren (m : machine) (csrno val : Z) : Z * machine :=
  if priv_ver (env m) <? PRIV_VERSION_1_10_0 then (-1, m)
  else (0, with_env (set_scounteren val) m).

(** *** Supervisor Trap Handling *)

Definition read_sscratch (m : machine) (csrno : Z) : Z * option Z :=
  (0, Some (sscratch (env m))).

Definition write_sscratch (m : machine) (csrno val : Z) : Z * machine :=
  (0, with_env (set_sscratch val) m).

Definition read_sepc (m : machine) (csrno : Z) : Z * option Z :=
  (0, Some (sepc (env m))).

Definition write_sepc (m : machine) (csrno val : Z) : Z * machine :=
  (0, with_env (set_sepc val) m).

Definition read_scause (m : machine) (csrno : Z) : Z * option Z :=
  (0, Some (scause (env m))).

Definition write_scause (m : machine) (csrno val : Z) : Z * machine :=
  (0, with_env (set_scause val) m).

Definition read_sbadaddr (m : machine) (csrno : Z) : Z * option Z :=
  (0, Some (sbadaddr (env m))).

Definition write_sbadaddr (m : machine) (csrno val : Z) : Z * machine :=
  (0, with_env (set_sbadaddr val) m).

Definition rmw_sip (m : machine) (csrno new_value write_mask : Z)
  : csr_result :=
  rmw_mip m CSR_MSTATUS new_value (Z.land write_mask (mideleg (env m))).

(** *** Supervisor Protection and Translation *)

Definition read_satp (m : machine) (csrno : Z) : Z * option Z :=
  if negb (riscv_feature (env m) RISCV_FEATURE_MMU) then (0, Some 0)
  else if priv_ver (env m) >=? PRIV_VERSION_1_10_0
  then (0, Some (satp (env m)))
  else (0, Some (sptbr (env m))).

Definition write_satp (m : machine) (csrno val : Z) : Z * machine :=
  if negb (riscv_feature (env m) RISCV_FEATURE_MMU) then (0, m)
  else
    let m :=
      if (priv_ver (env m) <=? PRIV_VERSION_1_09_1)
         && truthy (Z.lxor val (sptbr (env m)))
      then
        let m := tlb_flush m in
        with_env
          (set_sptbr
             (Z.land val
                (Z.shiftl 1 (TARGET_PHYS_ADDR_SPACE_BITS tgt - PGSHIFT) - 1)))
          m
      else m in
    let m :=
      if (priv_ver (env m) >=? PRIV_VERSION_1_10_0)
         && truthy (validate_vm (env m) (get_field val (SATP_MODE tgt)))
         && truthy (Z.land (Z.lxor val (satp (env m)))
                      (lor_all [SATP_MODE tgt; SATP_ASID tgt; SATP_PPN tgt]))
      then
        let m := tlb_flush m in
        with_env (set_satp val) m
      else m in
    (0, m).

(** *** Physical Memory Protection *)

Definition read_pmpcfg (m : machine) (csrno : Z) : Z * option Z :=
  (0, Some (pmpcfg_csr_read (pmp_state (env m))
              (to_uint32 (csrno - CSR_PMPCFG0)))).

Definition write_pmpcfg (m : machine) (csrno val : Z) : Z * machine :=
  (0, with_env
        (fun e =>
           set_pmp_state
             (pmpcfg_csr_write (pmp_state e) (to_uint32 (csrno - CSR_PMPCFG0))
                val) e) m).

Definition read_pmpaddr (m : machine) (csrno : Z) : Z * option Z :=
  (0, Some (pmpaddr_csr_read (pmp_state (env m))
              (to_uint32 (csrno - CSR_PMPADDR0)))).

Definition write_pmpaddr (m : machine) (csrno val : Z) : Z * machine :=
  (0, with_env
        (fun e =>
           set_pmp_state
             (pmpaddr_csr_write (pmp_state e)
                (to_uint32 (csrno - CSR_PMPADDR0)) val) e) m).

(** *** Control and Status Register function table *)

Definition no_ops : riscv_csr_operations :=
  {| read := None; write := None; op := None |}.

(** [{ rd }], [{ rd, wr }] and [{ NULL, NULL, f }]. *)
Definition ops_r (rd : riscv_csr_read_fn) : riscv_csr_operations :=
  {| read := Some rd; write := None; op := None |}.

Definition ops_rw (rd : riscv_csr_read_fn) (wr : riscv_csr_write_fn)
  : riscv_csr_operations :=
  {| read := Some rd; write := Some wr; op := None |}.

Definition ops_op (f : riscv_csr_op_fn) : riscv_csr_operations :=
  {| read := None; write := None; op := Some f |}.

(** The designated initializers of [csr_ops], in the order of the source;
    [(lo, hi, ops)] is [[lo ... hi] = ops], a single index being [lo = hi].
    The entries under TARGET_RISCV32 are kept at their places. *)
Definition csr_ops_init : list (Z * Z * riscv_csr_operations) :=
  let rv32 (entries : list (Z * Z * riscv_csr_operations)) :=
    match tgt with RV32 => entries | RV64 => [] end in
  [ (* User Floating-Point CSRs *)
    (CSR_FFLAGS, CSR_FFLAGS, ops_rw read_fflags write_fflags);
    (CSR_FRM, CSR_FRM, ops_rw read_frm write_frm);
    (CSR_FCSR, CSR_FCSR, ops_rw read_fcsr write_fcsr);
    (* User Timers and Counters *)
    (CSR_CYCLE, CSR_CYCLE, ops_r read_instret);
    (CSR_INSTRET, CSR_INSTRET, ops_r read_instret) ]
  ++ rv32
  [ (CSR_CYCLEH, CSR_CYCLEH, ops_r read_instreth);
    (CSR_INSTRETH, CSR_INSTRETH, ops_r read_instreth) ]
  ++
  [ (* Machine Timers and Counters *)
    (CSR_MCYCLE, CSR_MCYCLE, ops_r read_instret);
    (CSR_MINSTRET, CSR_MINSTRET, ops_r read_instret) ]
  ++ rv32
  [ (CSR_MCYCLEH, CSR_MCYCLEH, ops_r read_instreth);
    (CSR_MINSTRETH, CSR_MINSTRETH, ops_r read_instreth) ]
  ++
  [ (* Machine Information Registers *)
    (CSR_MVENDORID, CSR_MVENDORID, ops_r read_zero);
    (CSR_MARCHID, CSR_MARCHID, ops_r read_zero);
    (CSR_MIMPID, CSR_MIMPID, ops_r read_zero);
    (CSR_MHARTID, CSR_MHARTID, ops_r read_mhartid);
    (* Machine Trap Setup *)
    (CSR_MSTATUS, CSR_MSTATUS, ops_rw read_mstatus write_mstatus);
    (CSR_MISA, CSR_MISA, ops_r read_misa);
    (CSR_MIDELEG, CSR_MIDELEG, ops_rw read_mideleg write_mideleg);
    (CSR_MEDELEG, CSR_MEDELEG, ops_rw read_medeleg write_medeleg);
    (CSR_MIE, CSR_MIE, ops_rw read_mie write_mie);
    (CSR_MTVEC, CSR_MTVEC, ops_rw read_mtvec write_mtvec);
    (CSR_MCOUNTEREN, CSR_MCOUNTEREN, ops_rw read_mcounteren write_mcounteren);
    (* Legacy Counter Setup (priv v1.9.1) *)
    (CSR_MUCOUNTEREN, CSR_MUCOUNTEREN,
     ops_rw read_mucounteren write_mucounteren);
    (CSR_MSCOUNTEREN, CSR_MSCOUNTEREN,
     ops_rw read_mscounteren write_mscounteren);
    (* Machine Trap Handling *)
    (CSR_MSCRATCH, CSR_MSCRATCH, ops_rw read_mscratch write_mscratch);
    (CSR_MEPC, CSR_MEPC, ops_rw read_mepc write_mepc);
    (CSR_MCAUSE, CSR_MCAUSE, ops_rw read_mcause write_mcause);
    (CSR_MBADADDR, CSR_MBADADDR, ops_rw read_mbadaddr write_mbadaddr);
    (CSR_MIP, CSR_MIP, ops_op rmw_mip);
    (* Supervisor Trap Setup *)
    (CSR_SSTATUS, CSR_SSTATUS, ops_rw read_sstatus write_sstatus);
    (CSR_SIE, CSR_SIE, ops_rw read_sie write_sie);
    (CSR_STVEC, CSR_STVEC, ops_rw read_stvec write_stvec);
    (CSR_SCOUNTEREN, CSR_SCOUNTEREN, ops_rw read_scounteren write_scounteren);
    (* Supervisor Trap Handling *)
    (CSR_SSCRATCH, CSR_SSCRATCH, ops_rw read_sscratch write_sscratch);
    (CSR_SEPC, CSR_SEPC, ops_rw read_sepc write_sepc);
    (CSR_SCAUSE, CSR_SCAUSE, ops_rw read_scause write_scause);
    (CSR_SBADADDR, CSR_SBADADDR, ops_rw read_sbadaddr write_sbadaddr);
    (CSR_SIP, CSR_SIP, ops_op rmw_sip);
    (* Supervisor Protection and Translation *)
    (CSR_SATP, CSR_SATP, ops_rw read_satp write_satp);
    (* Physical Memory Protection *)
    (CSR_PMPCFG0, CSR_PMPADDR9, ops_rw read_pmpcfg write_pmpcfg);
    (CSR_PMPADDR0, CSR_PMPADDR15, ops_rw read_pmpaddr write_pmpaddr);
    (* Performance Counters *)
    (CSR_HPMCOUNTER3, CSR_HPMCOUNTER31, ops_r read_zero_counter);
    (CSR_MHPMCOUNTER3, CSR_MHPMCOUNTER31, ops_r read_zero);
    (CSR_MHPMEVENT3, CSR_MHPMEVENT31, ops_r read_zero) ]
  ++ rv32
  [ (CSR_HPMCOUNTER3H, CSR_HPMCOUNTER31H, ops_r read_zero_counter);
    (CSR_MHPMCOUNTER3H, CSR_MHPMCOUNTER31H, ops_r read_zero) ].

(** [static const riscv_csr_operations csr_ops[0xfff]]: the array has the
    indices 0 .. 0xffe. *)
Definition csr_ops_len : Z := 0xfff.

(** One designated initializer applied to the element at [csrno]: a later
    initializer of the same element replaces an earlier one. *)
Definition init_entry (csrno : Z) (acc : riscv_csr_operations)
  (entry : Z * Z * riscv_csr_operations) : riscv_csr_operations :=
  let '(lo, hi, ops) := entry in
  if (lo <=? csrno) && (csrno <=? hi) then ops else acc.

(** [csr_ops[csrno]]; [None] when the index is outside the array, which C
    leaves undefined. *)
Definition csr_ops (csrno : Z) : option riscv_csr_operations :=
  if (0 <=? csrno) && (csrno <? csr_ops_len)
  then Some (fold_left (init_entry csrno) csr_ops_init no_ops)
  else None.

(** *** riscv_csrrw - read and/or update control and status register

    [None] stands for a call whose behaviour C leaves undefined: [csr_ops]
    indexed outside its bounds, or [old_value] used before a read accessor
    stored it. *)
Definition riscv_csrrw (m : machine) (csrno new_value write_mask : Z)
  : option csr_result :=
  (* check privileges and return -1 if check fails *)
  let csr_priv := get_field csrno 0x300 in
  let read_only := get_field csrno 0xC00 =? 3 in
  if (truthy write_mask && read_only) || (priv (env m) <? csr_priv)
  then Some {| ret := -1; ret_value := None; post := m |}
  else
    match csr_ops csrno with
    | None => None
    | Some ops =>
        (* execute combined read/write operation if it exists *)
        match op ops with
        | Some f => Some (f m csrno new_value write_mask)
        | None =>
            (* if no accessor exists then return failure *)
            match read ops with
            | None => Some {| ret := -1; ret_value := None; post := m |}
            | Some rd =>
                (* read old value *)
                let '(r, stored) := rd m csrno in
                if r <? 0
                then Some {| ret := r; ret_value := None; post := m |}
                else
                  match stored with
                  | None => None
                  | Some old_value =>
                      (* write value if writable and write mask set,
                         otherwise drop writes *)
                      if truthy write_mask then
                        let new_value :=
                          Z.lor (Z.land old_value (Z.lnot write_mask))
                                (Z.land new_value write_mask) in
                        match write ops with
                        | Some wr =>
                            let '(r, m') := wr m csrno new_value in
                            if r <? 0
                            then Some {| ret := r; ret_value := None;
                                         post := m' |}
                            else Some {| ret := 0;
                                         ret_value := Some old_value;
                                         post := m' |}
                        | None =>
                            Some {| ret := 0; ret_value := Some old_value;
                                    post := m |}
                        end
                      else
                        Some {| ret := 0; ret_value := Some old_value;
                                post := m |}
                  end
            end
        end
    end.

(** The status of a refused access. *)
Definition ILLEGAL_CSR : Z := -1.

End Csr.

(** ** Notions used by the statements *)

(** The mask of the [sstatus] window, the ternary of [read_sstatus] and
    [write_sstatus]. *)
Definition sstatus_mask {tgt : target} {pmp : PmpModule} (e : CPURISCVState)
  : Z :=
  if priv_ver e >=? PRIV_VERSION_1_10_0
  then sstatus_v1_10_mask else sstatus_v1_9_mask.

(** The encodings of an extension-state field (FS, XS) of [mstatus]. *)
Definition EXT_OFF : Z := 0.
Definition EXT_DIRTY : Z := 3.

(** Between two CSR instructions the hart may change its privilege mode
    ([riscv_set_mode], on traps and trap returns) and the host clock
    advances. *)
Definition set_clock {pmp : PmpModule} (icount' host_ticks' : Z) (m : machine)
  : machine :=
  {| env := env m; use_icount := use_icount m; icount := icount';
     host_ticks := host_ticks'; events := events m |}.

Inductive csr_step {tgt : target} {pmp : PmpModule}
  : machine -> machine -> Prop :=
| step_csrrw m csrno new_value write_mask r :
    riscv_csrrw m csrno new_value write_mask = Some r ->
    csr_step m (post r)
| step_set_mode m newpriv :
    csr_step m (with_env (set_priv newpriv) m)
| step_clock m icount' host_ticks' :
    csr_step m (set_clock icount' host_ticks' m).

(** Modelled from the spec: the reset of the hart is not in csr.c.  "Reset
    zeros all mutable architectural state except those identity fields"; of
    that only [mstatus = 0] is asked of the first state, every other field
    being left free.  The states the hart gets to from there: *)
Inductive reachable {tgt : target} {pmp : PmpModule} : machine -> Prop :=
| reach_reset m : mstatus (env m) = 0 -> reachable m
| reach_step m m' : reachable m -> csr_step m m' -> reachable m'.

(** The user-visible counters and their machine-mode twins: [cycle],
    [instret], [hpmcounter3] .. [hpmcounter31], [mcycle], [minstret],
    [mhpmcounter3] .. [mhpmcounter31], and on RV32 the upper halves. *)
Definition is_user_counter {tgt : target} (csrno : Z) : bool :=
  (csrno =? CSR_CYCLE) || (csrno =? CSR_INSTRET)
  || ((CSR_HPMCOUNTER3 <=? csrno) && (csrno <=? CSR_HPMCOUNTER31))
  || match tgt with
     | RV32 =>
         (csrno =? CSR_CYCLEH) || (csrno =? CSR_INSTRETH)
         || ((CSR_HPMCOUNTER3H <=? csrno) && (csrno <=? CSR_HPMCOUNTER31H))
     | RV64 => false
     end.

Definition is_machine_counter {tgt : target} (csrno : Z) : bool :=
  (csrno =? CSR_MCYCLE) || (csrno =? CSR_MINSTRET)
  || ((CSR_MHPMCOUNTER3 <=? csrno) && (csrno <=? CSR_MHPMCOUNTER31))
  || match tgt with
     | RV32 =>
         (csrno =? CSR_MCYCLEH) || (csrno =? CSR_MINSTRETH)
         || ((CSR_MHPMCOUNTER3H <=? csrno) && (csrno <=? CSR_MHPMCOUNTER31H))
     | RV64 => false
     end.

(** For examples: a PMP module that stores nothing, a hart fresh from reset
    in machine mode, and a machine around a hart. *)
Definition pmp_none : PmpModule :=
  {| pmp_table_t := unit;
     pmpcfg_csr_read := fun _ _ => 0;
     pmpcfg_csr_write := fun t _ _ => t;
     pmpaddr_csr_read := fun _ _ => 0;
     pmpaddr_csr_write := fun t _ _ => t |}.

Definition reset_hart (ver isa feat : Z) : @CPURISCVState pmp_none :=
  {| frm := 0; fp_status := 0; mucounteren := 0; priv_ver := ver;
     misa := isa; priv := PRV_M; mhartid := 0; mstatus := 0; mip := 0;
     mie := 0; mideleg := 0; sptbr := 0; satp := 0; sbadaddr := 0;
     mbadaddr := 0; medeleg := 0; stvec := 0; sepc := 0; scause := 0;
     mtvec := 0; mepc := 0; mcause := 0; mscounteren := 0; scounteren := 0;
     mcounteren := 0; sscratch := 0; mscratch := 0; features := feat;
     pmp_state := (tt : @pmp_table_t pmp_none) |}.

Definition boot (e : @CPURISCVState pmp_none) : @machine pmp_none :=
  {| env := e; use_icount := false; icount := 0; host_ticks := 0;
     events := [] |}.

(** ** Notions used by the proofs *)

(** [(old & ~mask) | (val & mask)], the merge written at many places of
    csr.c. *)
Definition merge_bits (old val mask : Z) : Z :=
  Z.lor (Z.land old (Z.lnot mask)) (Z.land val mask).

(** The write accessor and the combined accessor of a table element keep a
    property of the machine. *)
Definition ops_preserve {pmp : PmpModule} (P : machine -> Prop)
  (o : riscv_csr_operations) : Prop :=
  (forall wr, write o = Some wr ->
     forall m csrno v, P m -> P (snd (wr m csrno v)))
  /\ (forall f, op o = Some f ->
        forall m csrno n w, P m -> P (post (f m csrno n w))).

(** An accessor that fails has changed nothing and stored nothing. *)
Definition fails_clean {pmp : PmpModule} (o : riscv_csr_operations) : Prop :=
  (forall wr, write o = Some wr ->
     forall m csrno v, fst (wr m csrno v) < 0 -> snd (wr m csrno v) = m)
  /\ (forall f, op o = Some f ->
        forall m csrno n w,
          ret (f m csrno n w) < 0 ->
          post (f m csrno n w) = m /\ ret_value (f m csrno n w) = None).

(** The spec's view of [sie] and [sip]: "sie/sip at all times equal mie/mip
    masked by mideleg". *)
Definition sie_view {pmp : PmpModule} (e : CPURISCVState) : Z :=
  Z.land (mie e) (mideleg e).

Definition sip_view {pmp : PmpModule} (e : CPURISCVState) : Z :=
  Z.land (mip e) (mideleg e).

(** A combined accessor called with a zero mask only loads. *)
Definition loads_on_zero_mask {pmp : PmpModule} (o : riscv_csr_operations)
  : Prop :=
  forall f, op o = Some f -> forall m csrno n, post (f m csrno n 0) = m.

(** The end of [write_mstatus]: FS is snapped to Dirty unless Off, then SD is
    recomputed. *)
Definition mstatus_finish {tgt : target} (x : Z) : Z :=
  let x2 := if truthy (Z.land x MSTATUS_FS) then Z.lor x MSTATUS_FS else x in
  set_field x2 (MSTATUS_SD tgt)
    (Z.lor (Z.b2z (Z.land x2 MSTATUS_FS =? MSTATUS_FS))
           (Z.b2z (Z.land x2 MSTATUS_XS =? MSTATUS_XS))).

(** The write mask [write_mstatus] ends up with, the MPP test included. *)
Definition mstatus_write_mask {tgt : target} {pmp : PmpModule}
  (e : CPURISCVState) (val : Z) : Z :=
  let common :=
    lor_all [MSTATUS_SIE; MSTATUS_SPIE; MSTATUS_MIE; MSTATUS_MPIE;
             MSTATUS_SPP; MSTATUS_FS; MSTATUS_MPRV; MSTATUS_SUM;
             MSTATUS_MPP; MSTATUS_MXR] in
  let mask :=
    if priv_ver e >=? PRIV_VERSION_1_10_0 then common
    else if priv_ver e <=? PRIV_VERSION_1_09_1 then
      Z.lor common
        (if truthy (validate_vm e (get_field val MSTATUS_VM))
         then MSTATUS_VM else 0)
    else 0 in
  let mpp := get_field val MSTATUS_MPP in
  if (mpp =? PRV_H)
     || (negb (riscv_has_ext e RVS) && (mpp =? PRV_S))
     || (negb (riscv_has_ext e RVU) && (mpp =? PRV_U))
  then Z.land mask (Z.lnot MSTATUS_MPP) else mask.

(** What [write_mstatus] establishes: FS is Off or Dirty, and SD is set as
    soon as FS or XS is Dirty. *)
Definition mstatus_sound {tgt : target} (x : Z) : Prop :=
  (Z.land x MSTATUS_FS = 0 \/ Z.land x MSTATUS_FS = MSTATUS_FS)
  /\ (Z.land x MSTATUS_FS = MSTATUS_FS \/ Z.land x MSTATUS_XS = MSTATUS_XS ->
      Z.land x (MSTATUS_SD tgt) = MSTATUS_SD tgt).

(** The invariant as a property of the machine. *)
Definition keeps_mstatus_sound {tgt : target} {pmp : PmpModule} (m : machine)
  : Prop :=
  mstatus_sound (mstatus (env m)).

(** The modes of [satp] the spec lists as valid under 1.10: Bare and Sv32 on
    RV32, Bare, Sv39, Sv48 and Sv57 on RV64. *)
Definition satp_modes_1_10 {tgt : target} : list Z :=
  match tgt with
  | RV32 => [VM_1_10_MBARE; VM_1_10_SV32]
  | RV64 => [VM_1_10_MBARE; VM_1_10_SV39; VM_1_10_SV48; VM_1_10_SV57]
  end.

(** The two words [counter_enabled] reads in U and S mode hold [u] and [s]. *)
Definition legacy_counteren_are {pmp : PmpModule} (u s : Z) (m : machine)
  : Prop :=
  mucounteren (env m) = u /\ mscounteren (env m) = s.

(** The CSR numbers [lo], [lo + 1], ..., [lo + n - 1]. *)
Definition csr_range (lo : Z) (n : nat) : list Z :=
  map (fun i => lo + Z.of_nat i) (seq 0 n).

(** A read accessor that succeeds exactly when [counter_enabled] holds, and
    one that always succeeds. *)
Definition gated_read {pmp : PmpModule} (rd : riscv_csr_read_fn) : Prop :=
  forall m csrno,
    exists x,
      rd m csrno
      = if truthy (counter_enabled (env m) csrno) then (0, Some x)
        else (-1, None).

Definition free_read {pmp : PmpModule} (rd : riscv_csr_read_fn) : Prop :=
  forall m csrno, exists x, rd m csrno = (0, Some x).


(** ** cpu.h: the flags of a translation block *)

Definition RISCV_TF_MISA_M : Z := Z.shiftl 1 0.
Definition RISCV_TF_MISA_A : Z := Z.shiftl 1 1.
Definition RISCV_TF_MISA_F : Z := Z.shiftl 1 2.
Definition RISCV_TF_MISA_D : Z := Z.shiftl 1 3.
Definition RISCV_TF_MISA_C : Z := Z.shiftl 1 4.

Definition RISCV_TF_IAT_SHIFT : Z := 5.
Definition RISCV_TF_IAT_MASK : Z := Z.shiftl 7 5.

Definition RISCV_TF_DAT_SHIFT : Z := 8.
Definition RISCV_TF_DAT_MASK : Z := Z.shiftl 7 8.

Definition RISCV_TF_XLEN_MASK : Z := Z.shiftl 3 11.

(** [cpu_riscv_set_tb_flags], as the value it leaves in [env->tb_flags] (a
    [uint32_t], not among the fields the CSR file uses), from [env->misa]
    and the two results of [cpu_mmu_index(env, ifetch)].  The letters are
    written as their ASCII codes, 'A' being 65. *)
Definition cpu_riscv_set_tb_flags (misa : Z) (cpu_mmu_index : bool -> Z) : Z :=
  let tb_flags := 0 in
  let tb_flags :=
    if truthy (Z.land misa (Z.shiftl 1 (65 - 65)))
    then Z.lor tb_flags RISCV_TF_MISA_A else tb_flags in
  let tb_flags :=
    if truthy (Z.land misa (Z.shiftl 1 (68 - 65)))
    then Z.lor tb_flags RISCV_TF_MISA_D else tb_flags in
  let tb_flags :=
    if truthy (Z.land misa (Z.shiftl 1 (70 - 65)))
    then Z.lor tb_flags RISCV_TF_MISA_F else tb_flags in
  let tb_flags :=
    if truthy (Z.land misa (Z.shiftl 1 (77 - 65)))
    then Z.lor tb_flags RISCV_TF_MISA_M else tb_flags in
  let tb_flags :=
    if truthy (Z.land misa (Z.shiftl 1 (67 - 65)))
    then Z.lor tb_flags RISCV_TF_MISA_C else tb_flags in
  let tb_flags :=
    to_uint32
      (Z.lor tb_flags (Z.shiftl (cpu_mmu_index true) RISCV_TF_IAT_SHIFT)) in
  let tb_flags :=
    to_uint32
      (Z.lor tb_flags (Z.shiftl (cpu_mmu_index false) RISCV_TF_DAT_SHIFT)) in
  tb_flags.

(** ** csr.c in the linux-user build (CONFIG_USER_ONLY)

    The parts of csr.c that are compiled when CONFIG_USER_ONLY is defined:
    the floating-point accessors without their test of [mstatus.FS], the
    counters on the host ticks, [read_time] and [read_timeh], a table of
    these registers only, and [riscv_csrrw] without its privilege check.
    The hart of this build has none of the fields of the privileged
    architecture; the accessors below use [frm] and the accrued flags
    only. *)
Module UserOnly.

Section Csr.

Context {tgt : target} {pmp : PmpModule}.

Definition read_fflags (m : machine) (csrno : Z) : Z * option Z :=
  (0, Some (cpu_riscv_get_fflags (env m))).

Definition write_fflags (m : machine) (csrno val : Z) : Z * machine :=
  (0, with_env
        (cpu_riscv_set_fflags (Z.land val (Z.shiftr FSR_AEXC FSR_AEXC_SHIFT)))
        m).

Definition read_frm (m : machine) (csrno : Z) : Z * option Z :=
  (0, Some (frm (env m))).

Definition write_frm (m : machine) (csrno val : Z) : Z * machine :=
  (0, with_env (set_frm (Z.land val (Z.shiftr FSR_RD FSR_RD_SHIFT))) m).

Definition read_fcsr (m : machine) (csrno : Z) : Z * option Z :=
  (0, Some (Z.lor (Z.shiftl (cpu_riscv_get_fflags (env m)) FSR_AEXC_SHIFT)
                  (Z.shiftl (frm (env m)) FSR_RD_SHIFT))).

Definition write_fcsr (m : machine) (csrno val : Z) : Z * machine :=
  let m := with_env (set_frm (Z.shiftr (Z.land val FSR_RD) FSR_RD_SHIFT)) m in
  let m :=
    with_env
      (cpu_riscv_set_fflags (Z.shiftr (Z.land val FSR_AEXC) FSR_AEXC_SHIFT))
      m in
  (0, m).

(** [target_ulong ctr_en = -1;] *)
Definition counter_enabled (e : CPURISCVState) (csrno : Z) : Z :=
  let ctr_en := to_ulong tgt (-1) in
  Z.land (Z.shiftr ctr_en (Z.land csrno 31)) 1.

Definition read_instret (m : machine) (csrno : Z) : Z * option Z :=
  if negb (truthy (counter_enabled (env m) csrno)) then (-1, None)
  else (0, Some (to_ulong tgt (cpu_get_host_ticks m))).

(** TARGET_RISCV32 only. *)
Definition read_instreth (m : machine) (csrno : Z) : Z * option Z :=
  if negb (truthy (counter_enabled (env m) csrno)) then (-1, None)
  else (0, Some (to_ulong tgt (Z.shiftr (cpu_get_host_ticks m) 32))).

Definition read_time (m : machine) (csrno : Z) : Z * option Z :=
  (0, Some (to_ulong tgt (cpu_get_host_ticks m))).

(** TARGET_RISCV32 only. *)
Definition read_timeh (m : machine) (csrno : Z) : Z * option Z :=
  (0, Some (to_ulong tgt (Z.shiftr (cpu_get_host_ticks m) 32))).

Definition csr_ops_init : list (Z * Z * riscv_csr_operations) :=
  let rv32 (entries : list (Z * Z * riscv_csr_operations)) :=
    match tgt with RV32 => entries | RV64 => [] end in
  [ (* User Floating-Point CSRs *)
    (CSR_FFLAGS, CSR_FFLAGS, ops_rw read_fflags write_fflags);
    (CSR_FRM, CSR_FRM, ops_rw read_frm write_frm);
    (CSR_FCSR, CSR_FCSR, ops_rw read_fcsr write_fcsr);
    (* User Timers and Counters *)
    (CSR_CYCLE, CSR_CYCLE, ops_r read_instret);
    (CSR_INSTRET, CSR_INSTRET, ops_r read_instret) ]
  ++ rv32
  [ (CSR_CYCLEH, CSR_CYCLEH, ops_r read_instreth);
    (CSR_INSTRETH, CSR_INSTRETH, ops_r read_instreth) ]
  ++
  [ (* User-level time CSRs are only available in linux-user *)
    (CSR_TIME, CSR_TIME, ops_r read_time) ]
  ++ rv32
  [ (CSR_TIMEH, CSR_TIMEH, ops_r read_timeh) ].

Definition csr_ops (csrno : Z) : option riscv_csr_operations :=
  if (0 <=? csrno) && (csrno <? csr_ops_len)
  then Some (fold_left (init_entry csrno) csr_ops_init no_ops)
  else None.

(** [riscv_csrrw] without the check of privilege and of read-only numbers,
    which this build leaves out. *)
Definition riscv_csrrw (m : machine) (csrno new_value write_mask : Z)
  : option csr_result :=
  match csr_ops csrno with
  | None => None
  | Some ops =>
      (* execute combined read/write operation if it exists *)
      match op ops with
      | Some f => Some (f m csrno new_value write_mask)
      | None =>
          (* if no accessor exists then return failure *)
          match read ops with
          | None => Some {| ret := -1; ret_value := None; post := m |}
          | Some rd =>
              (* read old value *)
              let '(r, stored) := rd m csrno in
              if r <? 0
              then Some {| ret := r; ret_value := None; post := m |}
              else
                match stored with
                | None => None
                | Some old_value =>
                    (* write value if writable and write mask set,
                       otherwise drop writes *)
                    if truthy write_mask then
                      let new_value :=
                        Z.lor (Z.land old_value (Z.lnot write_mask))
                              (Z.land new_value write_mask) in
                      match write ops with
                      | Some wr =>
                          let '(r, m') := wr m csrno new_value in
                          if r <? 0
                          then Some {| ret := r; ret_value := None;
                                       post := m' |}
                          else Some {| ret := 0;
                                       ret_value := Some old_value;
                                       post := m' |}
                      | None =>
                          Some {| ret := 0; ret_value := Some old_value;
                                  post := m |}
                      end
                    else
                      Some {| ret := 0; ret_value := Some old_value;
                              post := m |}
                end
          end
      end
  end.

End Csr.

(** The registers of this build. *)
Definition user_csrs (t : target) : list Z :=
  [CSR_FFLAGS; CSR_FRM; CSR_FCSR; CSR_CYCLE; CSR_INSTRET; CSR_TIME]
  ++ match t with
     | RV32 => [CSR_CYCLEH; CSR_INSTRETH; CSR_TIMEH]
     | RV64 => []
     end.

End UserOnly.

(** ** Notions used by the further properties *)

(** The registers that are plain word storage, each with the field it reads
    and the update it makes: [mscratch], [mepc], [mcause], [mbadaddr],
    [sscratch], [sepc], [scause], [sbadaddr]. *)
Definition storage_csrs {pmp : PmpModule}
  : list (Z * (CPURISCVState -> Z) * (Z -> CPURISCVState -> CPURISCVState)) :=
  [ (CSR_MSCRATCH, mscratch, set_mscratch);
    (CSR_MEPC, mepc, set_mepc);
    (CSR_MCAUSE, mcause, set_mcause);
    (CSR_MBADADDR, mbadaddr, set_mbadaddr);
    (CSR_SSCRATCH, sscratch, set_sscratch);
    (CSR_SEPC, sepc, set_sepc);
    (CSR_SCAUSE, scause, set_scause);
    (CSR_SBADADDR, sbadaddr, set_sbadaddr) ].

(** The all-ones [target_ulong], the write mask of [csrrw] and the new value
    of [csrrs]. *)
Definition ulong_max {tgt : target} : Z := Z.ones (TARGET_LONG_BITS tgt).

(** The trap-vector registers, and the registers written under a constant
    mask: CSR number, field, setter (and mask). *)
Definition vector_csrs {pmp : PmpModule}
  : list (Z * (CPURISCVState -> Z) * (Z -> CPURISCVState -> CPURISCVState)) :=
  [ (CSR_MTVEC, mtvec, set_mtvec); (CSR_STVEC, stvec, set_stvec) ].

Definition masked_csrs {pmp : PmpModule}
  : list (Z * (CPURISCVState -> Z) * (Z -> CPURISCVState -> CPURISCVState)
          * Z) :=
  [ (CSR_MIDELEG, mideleg, set_mideleg, delegable_ints);
    (CSR_MEDELEG, medeleg, set_medeleg, delegable_excps);
    (CSR_MIE, mie, set_mie, all_ints) ].



(** The statuses one accessor may return: a read accessor fails with -1
    before storing or stores and returns 0, a write accessor returns 0 or -1,
    the combined accessor stores and returns 0. *)
Definition returns_ok {pmp : PmpModule} (o : riscv_csr_operations) : Prop :=
  (forall rd, read o = Some rd ->
     forall m csrno,
       rd m csrno = (-1, None) \/ exists x, rd m csrno = (0, Some x))
  /\ (forall wr, write o = Some wr ->
        forall m csrno v,
          fst (wr m csrno v) = 0 \/ fst (wr m csrno v) = -1)
  /\ (forall f, op o = Some f ->
        forall m csrno n w,
          ret (f m csrno n w) = 0
          /\ exists x, ret_value (f m csrno n w) = Some x).

(** The counter-enable registers: CSR number, the field the accessors use,
    its setter, and whether the register belongs to version 1.10 ([true]) or
    is a legacy register of 1.9.1 ([false]). *)
Definition counteren_csrs {pmp : PmpModule}
  : list (Z * (CPURISCVState -> Z) * (Z -> CPURISCVState -> CPURISCVState)
          * bool) :=
  [ (CSR_MCOUNTEREN, mcounteren, set_mcounteren, true);
    (CSR_SCOUNTEREN, scounteren, set_scounteren, true);
    (CSR_MSCOUNTEREN, mcounteren, set_mcounteren, false);
    (CSR_MUCOUNTEREN, scounteren, set_scounteren, false) ].

(** The version test of their accessors, negated: the register exists. *)
Definition counteren_exists (v1_10 : bool) (ver : Z) : bool :=
  if v1_10 then negb (ver <? PRIV_VERSION_1_10_0)
  else negb (ver >? PRIV_VERSION_1_09_1).

(** The fields of [mstatus] whose change makes [write_mstatus] flush the
    TLB. *)
Definition vm_fields {pmp : PmpModule} (e : CPURISCVState) : Z :=
  if priv_ver e >=? PRIV_VERSION_1_10_0
  then lor_all [MSTATUS_MXR; MSTATUS_MPP; MSTATUS_MPRV; MSTATUS_SUM]
  else lor_all [MSTATUS_MXR; MSTATUS_MPP; MSTATUS_MPRV; MSTATUS_SUM;
                MSTATUS_VM].

(** [mstatus] as [write_mstatus] leaves it: the end of [write_mstatus], run
    again, changes nothing. *)
Definition mstatus_settled {tgt : target} {pmp : PmpModule} (m : machine)
  : Prop :=
  mstatus_finish (mstatus (env m)) = mstatus (env m).

(** The clock behind [cycle] and [instret]. *)
Definition clock {pmp : PmpModule} (m : machine) : Z :=
  if use_icount m then cpu_get_icount m else cpu_get_host_ticks m.

(** Some designated initializer of [csr_ops] covers the CSR number. *)
Definition has_initializer {tgt : target} {pmp : PmpModule} (csrno : Z)
  : bool :=
  existsb (fun entry => let '(lo, hi, _) := entry in
                        (lo <=? csrno) && (csrno <=? hi))
    csr_ops_init.

(** The modes [valid_vm_1_09] accepts: Mbare and Sv32 on RV32, Mbare, Sv39
    and Sv48 on RV64. *)
Definition legacy_vm_modes (t : target) : list Z :=
  match t with
  | RV32 => [VM_1_09_MBARE; VM_1_09_SV32]
  | RV64 => [VM_1_09_MBARE; VM_1_09_SV39; VM_1_09_SV48]
  end.

(** Every bit of [mstatus] a write may change: the fields of the write
    masks and SD. *)
Definition mstatus_writable (t : target) : Z :=
  lor_all [MSTATUS_SIE; MSTATUS_SPIE; MSTATUS_MIE; MSTATUS_MPIE;
           MSTATUS_SPP; MSTATUS_FS; MSTATUS_MPRV; MSTATUS_SUM; MSTATUS_MPP;
           MSTATUS_MXR; MSTATUS_VM; MSTATUS_SD t].


(** * Properties *)

(** ** Bitwise reasoning *)

(** Equalities of words are proved bit by bit; a hypothesis [Z.land a b = c]
    is read at the bit under consideration. *)
Ltac bit_hyp H i :=
  apply (f_equal (fun z => Z.testbit z i)) in H;
  repeat rewrite ?Z.land_spec, ?Z.lor_spec, ?Z.lxor_spec, ?Z.bits_0 in H.

Ltac bitwise i Hi :=
  apply Z.bits_inj'; intros i Hi;
  repeat rewrite ?Z.land_spec, ?Z.lor_spec, ?Z.lxor_spec, ?Z.bits_0,
    ?Z.lnot_spec by exact Hi.

Ltac bool_cases :=
  repeat match goal with
         | |- context [Z.testbit ?a ?i] => destruct (Z.testbit a i)
         | H : context [Z.testbit ?a ?i] |- _ => destruct (Z.testbit a i)
         end;
  simpl in *; congruence.

Lemma land_merge_inside old val mask f :
  Z.land f mask = f ->
  Z.land (merge_bits old val mask) f = Z.land val f.
Proof.
  intros H. unfold merge_bits. bitwise i Hi. bit_hyp H i. bool_cases.
Qed.

Lemma land_merge_outside old val mask f :
  Z.land f mask = 0 ->
  Z.land (merge_bits old val mask) f = Z.land old f.
Proof.
  intros H. unfold merge_bits. bitwise i Hi. bit_hyp H i. bool_cases.
Qed.

Lemma land_lor_outside x m f :
  Z.land m f = 0 -> Z.land (Z.lor x m) f = Z.land x f.
Proof. intros H. bitwise i Hi. bit_hyp H i. bool_cases. Qed.

Lemma land_lor_inside x m : Z.land (Z.lor x m) m = m.
Proof. bitwise i Hi. bool_cases. Qed.

Lemma lor_absorb x m : Z.land x m = m -> Z.lor x m = x.
Proof. intros H. bitwise i Hi. bit_hyp H i. bool_cases. Qed.

Lemma land_set_field_outside x m v f :
  Z.land m f = 0 -> Z.land (set_field x m v) f = Z.land x f.
Proof.
  intros H. unfold set_field. bitwise i Hi. bit_hyp H i. bool_cases.
Qed.

Lemma land_set_field_inside x m v :
  Z.land (set_field x m v) m = Z.land (v * lowest_bit m) m.
Proof. unfold set_field. bitwise i Hi. bool_cases. Qed.

Lemma land_sub_land x y a b :
  Z.land a b = a -> Z.land x b = Z.land y b -> Z.land x a = Z.land y a.
Proof.
  intros Hab H. bitwise i Hi. bit_hyp Hab i. bit_hyp H i. bool_cases.
Qed.

Lemma land_lxor_zero x y m :
  Z.land (Z.lxor x y) m = 0 <-> Z.land x m = Z.land y m.
Proof.
  split; intros H.
  - bitwise i Hi. bit_hyp H i. bool_cases.
  - bitwise i Hi. bit_hyp H i. bool_cases.
Qed.

Lemma land_mask_bounds x m : 0 <= m -> 0 <= Z.land x m <= m.
Proof.
  intros Hm. split.
  - apply Z.land_nonneg. now right.
  - assert (Hdisj : Z.land (Z.land x m) (Z.land (Z.lnot x) m) = 0).
    { bitwise i Hi. bool_cases. }
    assert (Hcover : Z.lor (Z.land x m) (Z.land (Z.lnot x) m) = m).
    { bitwise i Hi. bool_cases. }
    pose proof (Z.add_nocarry_lxor _ _ Hdisj) as Hadd.
    rewrite (Z.lxor_lor _ _ Hdisj), Hcover in Hadd.
    assert (0 <= Z.land (Z.lnot x) m) by (apply Z.land_nonneg; now right).
    lia.
Qed.

Lemma truthy_true x : truthy x = true <-> x <> 0.
Proof.
  unfold truthy. destruct (Z.eqb_spec x 0); simpl; split; congruence.
Qed.

Lemma truthy_false x : truthy x = false <-> x = 0.
Proof.
  unfold truthy. destruct (Z.eqb_spec x 0); simpl; split; congruence.
Qed.

(** ** The accessor table *)

Lemma fold_init_entry_cases {tgt : target} {pmp : PmpModule} csrno
  (l : list (Z * Z * riscv_csr_operations)) (acc : riscv_csr_operations) :
  fold_left (init_entry csrno) l acc = acc
  \/ In (fold_left (init_entry csrno) l acc) (map snd l).
Proof.
  revert acc. induction l as [|[[lo hi] o] l IH]; intros acc;
    cbn [fold_left map snd].
  - now left.
  - destruct (IH (init_entry csrno acc (lo, hi, o))) as [E | E].
    + rewrite E. unfold init_entry.
      destruct ((lo <=? csrno) && (csrno <=? hi)).
      * right. left. reflexivity.
      * left. reflexivity.
    + right. right. exact E.
Qed.

(** Every element of [csr_ops] is empty or one of the initializers. *)
Lemma csr_ops_forall {tgt : target} {pmp : PmpModule}
  (P : riscv_csr_operations -> Prop) :
  P no_ops ->
  Forall P (map snd csr_ops_init) ->
  forall csrno ops, csr_ops csrno = Some ops -> P ops.
Proof.
  intros Hno Hall csrno ops Hops. unfold csr_ops in Hops.
  destruct (fold_init_entry_cases csrno csr_ops_init no_ops) as [E | Hin].
  - rewrite E in Hops.
    destruct ((0 <=? csrno) && (csrno <? csr_ops_len)); [|discriminate].
    now injection Hops as <-.
  - rewrite Forall_forall in Hall. apply Hall in Hin.
    destruct ((0 <=? csrno) && (csrno <? csr_ops_len)); [|discriminate].
    assert (Heq : fold_left (init_entry csrno) csr_ops_init no_ops = ops)
      by congruence.
    rewrite <- Heq. exact Hin.
Qed.

(** Proves [Forall P] over the initializers, given a tactic for one entry. *)
Ltac each_entry tac :=
  match goal with
  | |- Forall _ (map snd (@csr_ops_init ?t _)) =>
      destruct t; cbn [csr_ops_init app map snd];
      repeat (apply Forall_cons; [tac|]); apply Forall_nil
  end.

(** The array has an element exactly for the CSR numbers 0 .. 0xffe. *)
Lemma csr_ops_bounds {tgt : target} {pmp : PmpModule} csrno :
  (exists ops, csr_ops csrno = Some ops) <-> 0 <= csrno < csr_ops_len.
Proof.
  unfold csr_ops. split.
  - intros [ops H].
    destruct (Z.leb_spec 0 csrno), (Z.ltb_spec csrno csr_ops_len);
      cbn [andb] in H; try discriminate H.
    lia.
  - intros [Hlo Hhi]. apply Z.leb_le in Hlo. apply Z.ltb_lt in Hhi.
    rewrite Hlo, Hhi. eexists. reflexivity.
Qed.

(** The gate's two tests on the CSR number. *)
Lemma gate_false {tgt : target} {pmp : PmpModule} (m : machine)
  csrno write_mask :
  get_field csrno 0x300 <= priv (env m) ->
  write_mask = 0 \/ get_field csrno 0xC00 <> 3 ->
  (truthy write_mask && (get_field csrno 0xC00 =? 3))
  || (priv (env m) <? get_field csrno 0x300) = false.
Proof.
  intros Hp Hw. apply orb_false_iff. split.
  - destruct Hw as [-> | Hw]; [reflexivity|].
    apply andb_false_iff. right. now apply Z.eqb_neq.
  - apply Z.ltb_ge. exact Hp.
Qed.

(** ** C1: the access gate *)

(** Within the bounds of [csr_ops], CSR numbers 0 .. 0xffe, the gate does
    what is asked of it.  A call of [riscv_csrrw] returns the illegal-CSR
    status -1, storing nothing and leaving the machine as it was, when the
    current privilege is below the one in bits 9:8 of the CSR number, or when
    the write mask is non-zero and bits 11:10 are all ones, or when the
    element of [csr_ops] has neither a combined nor a read accessor.
    Otherwise the call goes to the accessors: the combined accessor when
    there is one, else the read accessor, whose failure is returned, and on a
    non-zero mask the write accessor with the merged value. *)
Theorem riscv_csrrw_gate {tgt : target} {pmp : PmpModule}
  (m : machine) (csrno new_value write_mask : Z) :
  let call := riscv_csrrw m csrno new_value write_mask in
  let refused := Some {| ret := ILLEGAL_CSR; ret_value := None; post := m |} in
  let csr_priv := get_field csrno 0x300 in
  let read_only := get_field csrno 0xC00 = 3 in
  (priv (env m) < csr_priv -> call = refused)
  /\ (write_mask <> 0 -> read_only -> call = refused)
  /\ (forall ops, csr_ops csrno = Some ops ->
      op ops = None -> read ops = None -> call = refused)
  /\ (csr_priv <= priv (env m) -> write_mask = 0 \/ ~ read_only ->
      forall ops, csr_ops csrno = Some ops ->
        (forall f, op ops = Some f ->
           call = Some (f m csrno new_value write_mask))
        /\ (forall rd, op ops = None -> read ops = Some rd ->
            (fst (rd m csrno) < 0 ->
             call = Some {| ret := fst (rd m csrno); ret_value := None;
                            post := m |})
            /\ (forall old_value,
                0 <= fst (rd m csrno) ->
                snd (rd m csrno) = Some old_value ->
                (write_mask = 0 \/ write ops = None ->
                 call = Some {| ret := 0; ret_value := Some old_value;
                                post := m |})
                /\ (forall wr, write_mask <> 0 -> write ops = Some wr ->
                    let w :=
                      wr m csrno (merge_bits old_value new_value write_mask) in
                    call =
                    Some (if fst w <? 0
                          then {| ret := fst w; ret_value := None;
                                  post := snd w |}
                          else {| ret := 0; ret_value := Some old_value;
                                  post := snd w |}))))).
Proof.
  cbv zeta. unfold riscv_csrrw, ILLEGAL_CSR.
  split; [|split; [|split]].
  - intros Hlt. apply Z.ltb_lt in Hlt. rewrite Hlt, orb_true_r. reflexivity.
  - intros Hw Hro. apply truthy_true in Hw. apply Z.eqb_eq in Hro.
    rewrite Hw, Hro. reflexivity.
  - intros ops Hops Hop Hrd.
    destruct ((truthy write_mask && (get_field csrno 0xC00 =? 3))
              || (priv (env m) <? get_field csrno 0x300)); [reflexivity|].
    rewrite Hops, Hop, Hrd. reflexivity.
  - intros Hpriv Hmask ops Hops.
    rewrite (gate_false m csrno write_mask Hpriv Hmask), Hops.
    split.
    + intros f Hop. rewrite Hop. reflexivity.
    + intros rd Hop Hrd. rewrite Hop, Hrd.
      destruct (rd m csrno) as [r stored]; cbn [fst snd].
      split.
      * intros Hneg. apply Z.ltb_lt in Hneg. rewrite Hneg. reflexivity.
      * intros old_value Hok ->. apply Z.ltb_ge in Hok. rewrite Hok.
        split.
        -- intros [-> | Hw]; [reflexivity|].
           rewrite Hw. destruct (truthy write_mask); reflexivity.
        -- intros wr Hw Hwr. apply truthy_true in Hw. rewrite Hw, Hwr.
           fold (merge_bits old_value new_value write_mask).
           destruct (wr m csrno (merge_bits old_value new_value write_mask))
             as [r' m'].
           cbn [fst snd]. destruct (r' <? 0); reflexivity.
Qed.

Lemma riscv_csrrw_gate_witness :
  let hart := reset_hart PRIV_VERSION_1_10_0 0 0 in
  let user := boot (set_priv PRV_U hart) in
  let mach := boot hart in
  riscv_csrrw (tgt := RV64) user CSR_MSTATUS 0 0
  = Some {| ret := -1; ret_value := None; post := user |}
  /\ riscv_csrrw (tgt := RV64) mach CSR_MHARTID 5 1
     = Some {| ret := -1; ret_value := None; post := mach |}
  /\ riscv_csrrw (tgt := RV64) mach CSR_TIME 0 0
     = Some {| ret := -1; ret_value := None; post := mach |}
  /\ riscv_csrrw (tgt := RV64) mach CSR_MIP 0 0
     = Some (rmw_mip mach CSR_MIP 0 0)
  /\ riscv_csrrw (tgt := RV64) mach CSR_MSCRATCH 0 0
     = Some {| ret := 0; ret_value := Some 0; post := mach |}.
Proof.
  cbv zeta.
  set (hart := reset_hart PRIV_VERSION_1_10_0 0 0).
  split; [|split; [|split; [|split]]].
  - apply (proj1 (riscv_csrrw_gate (tgt := RV64)
                    (boot (set_priv PRV_U hart)) CSR_MSTATUS 0 0)).
    reflexivity.
  - apply (proj1 (proj2 (riscv_csrrw_gate (tgt := RV64)
                           (boot hart) CSR_MHARTID 5 1))).
    + discriminate.
    + reflexivity.
  - apply (proj1 (proj2 (proj2 (riscv_csrrw_gate (tgt := RV64)
                                  (boot hart) CSR_TIME 0 0)))
             no_ops); reflexivity.
  - destruct (riscv_csrrw_gate (tgt := RV64) (boot hart) CSR_MIP 0 0)
      as (_ & _ & _ & Hgo).
    destruct (Hgo ltac:(discriminate) (or_introl eq_refl)
                (ops_op rmw_mip) eq_refl) as [Hop _].
    exact (Hop rmw_mip eq_refl).
  - destruct (riscv_csrrw_gate (tgt := RV64) (boot hart) CSR_MSCRATCH 0 0)
      as (_ & _ & _ & Hgo).
    destruct (Hgo ltac:(discriminate) (or_introl eq_refl)
                (ops_rw read_mscratch write_mscratch) eq_refl) as [_ Hrd].
    destruct (Hrd read_mscratch eq_refl eq_refl) as [_ Hok].
    destruct (Hok 0 ltac:(discriminate) eq_refl) as [Hread _].
    exact (Hread (or_introl eq_refl)).
Defined.

(** Past the end of the array: CSR number 0xfff asks for machine mode and
    is marked read-only, so that a machine-mode access with a zero write mask
    passes both tests of the gate and reaches [csr_ops[0xfff]]. *)
Lemma riscv_csrrw_past_end {tgt : target} {pmp : PmpModule}
  (m : machine) new_value :
  PRV_M <= priv (env m) -> riscv_csrrw m csr_ops_len new_value 0 = None.
Proof.
  intros Hpriv. unfold riscv_csrrw.
  rewrite (gate_false m csr_ops_len 0 Hpriv (or_introl eq_refl)).
  reflexivity.
Qed.

(** C1.  Every call of [riscv_csrrw] is to return -1 when the privilege is
    too low, when a read-only register is written or when the CSR number has
    no accessor, and to go to the accessors otherwise.  The code does so for
    the CSR numbers 0 .. 0xffe, but [csr_ops] is declared with 0xfff
    elements: CSR number 0xfff has no accessor, and a machine-mode access to
    it with a zero write mask passes the privilege and read-only tests and
    then indexes [csr_ops[0xfff]], one element past the end of the array,
    where C defines no behaviour, instead of returning -1 (the last element,
    0xffe, is refused as it should be). *)
Theorem csr_ops_indexed_past_end :
  let m := boot (reset_hart PRIV_VERSION_1_10_0 0 0) in
  csr_ops_len = 0xfff
  /\ get_field 0xfff 0x300 = priv (env m)
  /\ csr_ops (tgt := RV64) (pmp := pmp_none) 0xfff = None
  /\ riscv_csrrw (tgt := RV64) m 0xfff 0 0 = None
  /\ riscv_csrrw (tgt := RV64) m 0xffe 0 0
     = Some {| ret := ILLEGAL_CSR; ret_value := None; post := m |}.
Proof. cbv zeta. repeat split. Qed.

(** ** How a call of [riscv_csrrw] ends *)

(** The machine left by a call is the one it started from, or the one a write
    accessor or the combined accessor of the table element left. *)
Lemma riscv_csrrw_post_cases {tgt : target} {pmp : PmpModule}
  (m : machine) csrno new_value write_mask r :
  riscv_csrrw m csrno new_value write_mask = Some r ->
  (post r = m /\ (ret r < 0 -> ret_value r = None))
  \/ (exists ops wr v,
        csr_ops csrno = Some ops /\ write ops = Some wr
        /\ ret r = (if fst (wr m csrno v) <? 0 then fst (wr m csrno v) else 0)
        /\ (ret r < 0 -> ret_value r = None)
        /\ post r = snd (wr m csrno v))
  \/ (exists ops f,
        csr_ops csrno = Some ops /\ op ops = Some f
        /\ r = f m csrno new_value write_mask).
Proof.
  unfold riscv_csrrw.
  destruct ((truthy write_mask && (get_field csrno 0xC00 =? 3))
            || (priv (env m) <? get_field csrno 0x300)).
  { intros [= <-]. left. now split. }
  destruct (csr_ops csrno) as [ops|] eqn:Hops; [|discriminate].
  destruct (op ops) as [f|] eqn:Hop.
  { intros [= <-]. right. right. now exists ops, f. }
  destruct (read ops) as [rd|]; [|intros [= <-]; left; now split].
  destruct (rd m csrno) as [r0 stored].
  destruct (r0 <? 0); [intros [= <-]; left; now split|].
  destruct stored as [old_value|]; [|discriminate].
  destruct (truthy write_mask).
  - destruct (write ops) as [wr|] eqn:Hwr.
    + intros H. right. left.
      exists ops, wr,
        (Z.lor (Z.land old_value (Z.lnot write_mask))
               (Z.land new_value write_mask)).
      destruct (wr m csrno _) as [r' m'] eqn:Hw. cbn [fst snd].
      destruct (r' <? 0) eqn:Hr'; injection H as <-; cbn [ret ret_value post];
        repeat split; try reflexivity; try assumption; intros; lia.
    + intros [= <-]. left. cbn. split; [reflexivity | lia].
  - intros [= <-]. left. cbn. split; [reflexivity | lia].
Qed.

Lemma riscv_csrrw_preserves {tgt : target} {pmp : PmpModule}
  (P : machine -> Prop) :
  Forall (ops_preserve P) (map snd csr_ops_init) ->
  forall m csrno new_value write_mask r,
    P m -> riscv_csrrw m csrno new_value write_mask = Some r -> P (post r).
Proof.
  intros Hall m csrno new_value write_mask r HP Hcall.
  assert (Hno : ops_preserve P no_ops) by (split; intros ? [=]).
  destruct (riscv_csrrw_post_cases _ _ _ _ _ Hcall)
    as [[-> _] | [(ops & wr & v & Hops & Hwr & _ & _ & ->)
                 | (ops & f & Hops & Hop & ->)]].
  - exact HP.
  - apply (csr_ops_forall _ Hno Hall _ _ Hops); assumption.
  - apply (csr_ops_forall _ Hno Hall _ _ Hops); assumption.
Qed.

(** Splits every conditional of the goal. *)
Ltac split_ifs :=
  repeat match goal with
         | |- context [if ?b then _ else _] => destruct b
         end.

(** Unfolds the write accessors that store without calling another
    accessor. *)
Ltac unfold_writers :=
  unfold write_fflags, write_frm, write_fcsr, write_mtvec, write_stvec,
    write_satp, write_mcounteren, write_mscounteren, write_mucounteren,
    write_scounteren, write_sie, write_mie, write_medeleg, write_mideleg,
    write_mscratch, write_mepc, write_mcause, write_mbadaddr, write_sscratch,
    write_sepc, write_scause, write_sbadaddr, write_pmpcfg, write_pmpaddr.

(** Opens a statement about one table entry: the accessors are named, their
    arguments introduced and their bodies unfolded. *)
Ltac open_entry :=
  unfold ops_rw, ops_r, ops_op; split;
  [ intros wr Hwr; cbn [write] in Hwr; try discriminate Hwr;
    injection Hwr as <-
  | intros f Hf; cbn [op] in Hf; try discriminate Hf;
    injection Hf as <- ].

(** ** Reading a register through [riscv_csrrw] *)

(** With a zero write mask and enough privilege, a register that has a read
    accessor and no combined accessor yields what the read accessor stores,
    and the machine is left as it was. *)
Lemma riscv_csrrw_read {tgt : target} {pmp : PmpModule}
  (m : machine) csrno new_value ops rd r stored :
  csr_ops csrno = Some ops -> op ops = None -> read ops = Some rd ->
  get_field csrno 0x300 <= priv (env m) ->
  rd m csrno = (r, stored) ->
  riscv_csrrw m csrno new_value 0
  = if r <? 0 then Some {| ret := r; ret_value := None; post := m |}
    else match stored with
         | Some old_value =>
             Some {| ret := 0; ret_value := Some old_value; post := m |}
         | None => None
         end.
Proof.
  intros Hops Hop Hrd Hpriv Hcall. unfold riscv_csrrw.
  rewrite (gate_false m csrno 0 Hpriv (or_introl eq_refl)).
  rewrite Hops, Hop, Hrd, Hcall.
  destruct (r <? 0); [reflexivity|]. destruct stored; reflexivity.
Qed.

(** The table element of a register with a single initializer. *)
Ltac table_element :=
  match goal with
  | t : target |- _ => destruct t; reflexivity
  end.


(** ** C2: the effective mask of [mip] *)

Lemma mip_effective_mask write_mask :
  Z.land (Z.land write_mask delegable_ints) (Z.lnot MIP_SEIP)
  = Z.land write_mask (Z.lor MIP_SSIP MIP_STIP).
Proof. rewrite <- Z.land_assoc. reflexivity. Qed.

Lemma merge_bits_masked old val mask :
  Z.lor (Z.land old (Z.lnot mask)) (Z.land (Z.land val mask) mask)
  = merge_bits old val mask.
Proof.
  unfold merge_bits. now rewrite <- Z.land_assoc, Z.land_diag.
Qed.

Lemma merge_bits_0 old val : merge_bits old val 0 = old.
Proof.
  unfold merge_bits. rewrite Z.land_0_r, Z.lor_0_r.
  change (Z.lnot 0) with (-1). apply Z.land_m1_r.
Qed.

Lemma to_uint32_small x : 0 <= x < 2 ^ 32 -> to_uint32 x = x.
Proof. intros H. unfold to_uint32. now apply Z.mod_small. Qed.

(** What [rmw_mip] does, with its effective mask
    [write_mask & (SSIP | STIP)]. *)
Lemma rmw_mip_effect {pmp : PmpModule} (m : machine)
  csrno new_value write_mask :
  let mask := Z.land write_mask (Z.lor MIP_SSIP MIP_STIP) in
  let old := mip (env m) in
  rmw_mip m csrno new_value write_mask
  = {| ret := 0;
       ret_value := Some (to_uint32 old);
       post :=
         if truthy mask then
           qemu_mutex_unlock_iothread
             (emit (EvSetLocalInterrupt mask (Z.land new_value mask))
                (with_env (set_mip (merge_bits old new_value mask))
                   (qemu_mutex_lock_iothread m)))
         else m |}.
Proof.
  cbv zeta. unfold rmw_mip. rewrite mip_effective_mask.
  destruct (truthy _); [|reflexivity].
  unfold riscv_set_local_interrupt.
  cbn [env qemu_mutex_lock_iothread emit]. rewrite merge_bits_masked.
  reflexivity.
Qed.

(** C2 does not hold with the mask [write_mask & ~SEIP]: with the write mask
    and the new value both MSIP, [mip] stays 0 and nothing is requested,
    while a mask that only loses SEIP would have set MSIP. *)
Lemma rmw_mip_msip_counterexample :
  let m := boot (reset_hart PRIV_VERSION_1_10_0 0 0) in
  riscv_csrrw (tgt := RV64) m CSR_MIP MIP_MSIP MIP_MSIP
  = Some {| ret := 0; ret_value := Some 0; post := m |}
  /\ merge_bits (mip (env m)) MIP_MSIP (Z.land MIP_MSIP (Z.lnot MIP_SEIP))
     = MIP_MSIP
  /\ mip (env m)
     <> merge_bits (mip (env m)) MIP_MSIP (Z.land MIP_MSIP (Z.lnot MIP_SEIP)).
Proof.
  cbv zeta. split; [reflexivity|]. split; [reflexivity | discriminate].
Qed.

(** C2, amended.  An access to [mip] through [riscv_csrrw] in machine mode
    with write mask [w] has the effective mask [w & (SSIP | STIP)]: the
    delegable interrupts without SEIP, so that MSIP, MTIP and every other bit
    are left alone as well.  The bits of the effective mask are replaced by
    those of the new value in one update of the interrupts under the
    iothread lock, no other field changes, and the prior [mip] is returned
    (through a [uint32_t]).  With an empty effective mask, so with [w = 0],
    the access only loads [mip] and changes nothing. *)
Theorem rmw_mip_delegable_only {tgt : target} {pmp : PmpModule}
  (m : machine) (new_value write_mask : Z) :
  let mask := Z.land write_mask (Z.lor MIP_SSIP MIP_STIP) in
  let old := mip (env m) in
  PRV_M <= priv (env m) ->
  exists r,
    riscv_csrrw m CSR_MIP new_value write_mask = Some r
    /\ ret r = 0
    /\ ret_value r = Some (to_uint32 old)
    /\ (0 <= old < 2 ^ 32 -> ret_value r = Some old)
    /\ mip (env (post r)) = merge_bits old new_value mask
    /\ env (post r) = set_mip (merge_bits old new_value mask) (env m)
    /\ (mask = 0 -> post r = m)
    /\ (mask <> 0 ->
        events (post r)
        = events m ++ [EvIothreadLock;
                       EvSetLocalInterrupt mask (Z.land new_value mask);
                       EvIothreadUnlock]).
Proof.
  cbv zeta. intros Hpriv.
  exists (rmw_mip m CSR_MIP new_value write_mask).
  split.
  - unfold riscv_csrrw.
    replace (priv (env m) <? get_field CSR_MIP 768) with false
      by (symmetry; apply Z.ltb_ge; exact Hpriv).
    rewrite andb_false_r. cbn [orb].
    replace (csr_ops CSR_MIP) with (Some (ops_op rmw_mip))
      by (symmetry; table_element).
    reflexivity.
  - rewrite rmw_mip_effect. cbn [ret ret_value post].
    split; [reflexivity|]. split; [reflexivity|].
    split; [intros Hold; now rewrite to_uint32_small|].
    destruct (Z.eqb_spec (Z.land write_mask (Z.lor MIP_SSIP MIP_STIP)) 0)
      as [E | E].
    + rewrite E, merge_bits_0. cbn [truthy Z.eqb negb].
      repeat split; try reflexivity.
      * now destruct m as [[] ? ? ? ?].
      * intros H. now elim H.
    + rewrite (proj2 (truthy_true _) E).
      repeat split; try reflexivity.
      * intros H. contradiction.
      * intros _. cbn [events qemu_mutex_unlock_iothread emit with_env
                          qemu_mutex_lock_iothread].
        rewrite <- !app_assoc. reflexivity.
Qed.

Lemma rmw_mip_delegable_only_witness :
  let m := boot (reset_hart PRIV_VERSION_1_10_0 0 0) in
  exists r,
    riscv_csrrw (tgt := RV64) m CSR_MIP 0xfff 0xfff = Some r
    /\ ret_value r = Some 0
    /\ mip (env (post r)) = Z.lor MIP_SSIP MIP_STIP.
Proof.
  cbv zeta.
  destruct (rmw_mip_delegable_only (tgt := RV64)
              (boot (reset_hart PRIV_VERSION_1_10_0 0 0)) 0xfff 0xfff)
    as (r & Hcall & _ & Hval & _ & Hmip & _).
  - discriminate.
  - exists r. split; [exact Hcall|]. split; [exact Hval | exact Hmip].
Defined.

(** ** Fields of [mstatus] *)

(** A mask [k << n] with [k] odd: the field is the masked word moved down by
    [n] bits. *)
Lemma land_shiftl x k n :
  0 <= n -> Z.land x (Z.shiftl k n) = Z.shiftl (Z.land (Z.shiftr x n) k) n.
Proof.
  intros Hn. bitwise i Hi. rewrite !Z.shiftl_spec by exact Hi.
  destruct (Z.ltb_spec i n) as [Hlt | Hge].
  - rewrite !(Z.testbit_neg_r _ (i - n)) by lia. apply andb_false_r.
  - rewrite Z.land_spec, Z.shiftr_spec by lia.
    replace (i - n + n) with i by lia. reflexivity.
Qed.

Lemma land_field x mask k n :
  mask = Z.shiftl k n -> 0 <= n -> lowest_bit mask = 2 ^ n ->
  Z.land x mask = get_field x mask * 2 ^ n.
Proof.
  intros -> Hn Hlow. unfold get_field. rewrite Hlow, land_shiftl by exact Hn.
  rewrite Z.shiftl_mul_pow2 by exact Hn.
  rewrite Z.div_mul by (apply Z.pow_nonzero; lia). reflexivity.
Qed.

Lemma land_FS x : Z.land x MSTATUS_FS = get_field x MSTATUS_FS * 2 ^ 13.
Proof. now apply (land_field x MSTATUS_FS 3 13). Qed.

Lemma land_XS x : Z.land x MSTATUS_XS = get_field x MSTATUS_XS * 2 ^ 15.
Proof. now apply (land_field x MSTATUS_XS 3 15). Qed.

Lemma get_field_eq x y mask :
  Z.land x mask = Z.land y mask -> get_field x mask = get_field y mask.
Proof. unfold get_field. now intros ->. Qed.

Lemma write_mstatus_shape {tgt : target} {pmp : PmpModule}
  (m : machine) csrno val :
  exists m',
    write_mstatus m csrno val
    = (0, with_env
            (set_mstatus
               (mstatus_finish
                  (merge_bits (mstatus (env m)) val
                     (mstatus_write_mask (env m) val)))) m')
    /\ env m' = env m
    /\ (m' = m \/ m' = tlb_flush m).
Proof.
  unfold write_mstatus, mstatus_write_mask, mstatus_finish, merge_bits.
  rewrite Z.geb_leb.
  destruct (Z.leb_spec (priv_ver (env m)) PRIV_VERSION_1_09_1) as [H9 | H9];
    destruct (Z.leb_spec PRIV_VERSION_1_10_0 (priv_ver (env m))) as [H10 | H10];
    try (unfold PRIV_VERSION_1_09_1, PRIV_VERSION_1_10_0 in *; lia).
  - destruct (truthy (Z.land (Z.lxor val (mstatus (env m))) _)).
    + eexists. split; [|split; [|right; reflexivity]].
      2: reflexivity.
      cbn [env tlb_flush emit lor_all fold_left].
      rewrite Z.lor_0_l. reflexivity.
    + eexists. split; [|split; [|left; reflexivity]].
      2: reflexivity.
      cbn [env lor_all fold_left]. rewrite Z.lor_0_l. reflexivity.
  - destruct (truthy (Z.land (Z.lxor val (mstatus (env m))) _)).
    + eexists. split; [|split; [|right; reflexivity]];
        reflexivity.
    + eexists. split; [|split; [|left; reflexivity]]; reflexivity.
  - exists m. split; [|split; [|left]]; reflexivity.
Qed.

(** ** Counters *)

Lemma land_shiftr_1 a k :
  0 <= k -> Z.land (Z.shiftr a k) 1 = Z.b2z (Z.testbit a k).
Proof.
  intros Hk. change 1 with (Z.ones 1) at 1.
  rewrite Z.land_ones, Z.shiftr_div_pow2, Z.testbit_spec' by lia.
  reflexivity.
Qed.

(** The bit of the enable word that gates a counter. *)
Lemma counter_enabled_bit {pmp : PmpModule} (e : CPURISCVState) csrno :
  counter_enabled e csrno
  = Z.b2z (Z.testbit
             (if priv e =? PRV_U then mucounteren e
              else if priv e =? PRV_S then mscounteren e else minus_1U)
             (Z.land csrno 31)).
Proof.
  unfold counter_enabled. apply land_shiftr_1.
  apply Z.land_nonneg. now right.
Qed.

(** In machine mode (and in any mode other than U and S) the check passes
    for every CSR number. *)
Lemma counter_enabled_M {pmp : PmpModule} (e : CPURISCVState) csrno :
  priv e = PRV_M -> counter_enabled e csrno = 1.
Proof.
  intros Hp. rewrite counter_enabled_bit, Hp.
  change (PRV_M =? PRV_U) with false. change (PRV_M =? PRV_S) with false.
  cbv iota. unfold minus_1U.
  destruct (land_mask_bounds csrno 31 ltac:(lia)) as [Hlo Hhi].
  rewrite Z.ones_spec_low by lia. reflexivity.
Qed.

Lemma table_keeps_legacy_counteren {tgt : target} {pmp : PmpModule} u s :
  Forall (ops_preserve (legacy_counteren_are u s)) (map snd csr_ops_init).
Proof.
  each_entry ltac:(
    open_entry; intros m csrno; unfold legacy_counteren_are;
    lazymatch goal with
    | |- forall v, _ -> mucounteren (env (snd _)) = _ /\ _ =>
        intros v Hs;
        first
          [ unfold write_sstatus;
            match goal with
            | |- context [@write_mstatus ?t _ ?a ?b ?c] =>
                destruct (write_mstatus_shape (tgt := t) a b c)
                  as (m' & -> & Henv & _)
            end;
            cbn [snd env with_env mucounteren mscounteren set_mstatus];
            rewrite Henv; exact Hs
          | unfold_writers; split_ifs; exact Hs ]
    | |- forall n w, _ -> _ =>
        intros n w Hs; unfold rmw_sip, rmw_mip, riscv_set_local_interrupt;
        split_ifs; exact Hs
    end).
Qed.

Lemma riscv_csrrw_keeps_legacy_counteren {tgt : target} {pmp : PmpModule}
  (m : machine) csrno new_value write_mask r :
  riscv_csrrw m csrno new_value write_mask = Some r ->
  mucounteren (env (post r)) = mucounteren (env m)
  /\ mscounteren (env (post r)) = mscounteren (env m).
Proof.
  intros Hcall.
  exact (riscv_csrrw_preserves _ (table_keeps_legacy_counteren _ _)
           m csrno new_value write_mask r (conj eq_refl eq_refl) Hcall).
Qed.

(** ** C3: the counter-enable registers *)

(** C3.  Under 1.10 a read of a user counter from U mode is to succeed
    exactly when bit [csrno & 31] of [scounteren] is set, and from S mode
    when that bit of [mcounteren] is set (under 1.9.1, of the legacy
    registers).  The code does otherwise: machine mode sets bit 0 of
    [scounteren] through the CSR, and in user mode the read of [cycle]
    (CSR 0xc00, gated by bit [0xc00 & 31 = 0]) is still refused, because
    [counter_enabled] tests the field [mucounteren], which no CSR write
    reaches and which is still zero. *)
Theorem scounteren_does_not_gate_cycle :
  let m0 := boot (reset_hart PRIV_VERSION_1_10_0 (Z.lor RVS RVU) 1) in
  let m1 := with_env (set_scounteren 1) m0 in
  let m2 := with_env (set_priv PRV_U) m1 in
  riscv_csrrw (tgt := RV64) m0 CSR_SCOUNTEREN 1 (Z.ones 64)
  = Some {| ret := 0; ret_value := Some 0; post := m1 |}
  /\ Z.testbit (scounteren (env m2)) (Z.land CSR_CYCLE 31) = true
  /\ riscv_csrrw (tgt := RV64) m2 CSR_CYCLE 0 0
     = Some {| ret := ILLEGAL_CSR; ret_value := None; post := m2 |}.
Proof. cbv zeta. repeat split. Qed.

(** ** C10: counters in machine mode *)

Lemma csr_range_In lo n c : lo <= c < lo + Z.of_nat n -> In c (csr_range lo n).
Proof.
  intros H. unfold csr_range. apply in_map_iff.
  exists (Z.to_nat (c - lo)). split; [lia|].
  apply in_seq. lia.
Qed.

Lemma read_instret_gated {tgt : target} {pmp : PmpModule} :
  gated_read read_instret.
Proof.
  intros m csrno. unfold read_instret.
  destruct (truthy _), (use_icount m); cbn [negb];
    first [exists 0; reflexivity | eexists; reflexivity].
Qed.

Lemma read_instreth_gated {tgt : target} {pmp : PmpModule} :
  gated_read read_instreth.
Proof.
  intros m csrno. unfold read_instreth.
  destruct (truthy _), (use_icount m); cbn [negb];
    first [exists 0; reflexivity | eexists; reflexivity].
Qed.

Lemma read_zero_counter_gated {pmp : PmpModule} : gated_read read_zero_counter.
Proof.
  intros m csrno. unfold read_zero_counter.
  destruct (truthy _); cbn [negb]; exists 0; reflexivity.
Qed.

Lemma read_zero_free {pmp : PmpModule} : free_read read_zero.
Proof. intros m csrno. now exists 0. Qed.

Ltac counter_entry :=
  first
    [ split; [reflexivity|]; eexists; split;
      [ reflexivity
      | first [ apply read_instret_gated
              | apply read_instreth_gated
              | apply read_zero_counter_gated ] ]
    | eexists; split;
      [ reflexivity
      | first [ left; apply read_instret_gated
              | left; apply read_instreth_gated
              | right; apply read_zero_free ] ] ].

Ltac each_csrno H :=
  cbn [csr_range seq map In] in H;
  repeat (destruct H as [<- | H]; [counter_entry|]); try contradiction.

Ltac bool_to_prop H :=
  rewrite ?orb_true_iff, ?andb_true_iff, ?Z.eqb_eq, ?Z.leb_le in H.

(** A user-visible counter is open to every privilege and its read accessor
    checks [counter_enabled]. *)
Lemma user_counter_accessor {tgt : target} {pmp : PmpModule} csrno :
  is_user_counter csrno = true ->
  get_field csrno 0x300 = PRV_U
  /\ exists rd, csr_ops csrno = Some (ops_r rd) /\ gated_read rd.
Proof.
  intros Hc.
  assert (Hin :
    In csrno ([CSR_CYCLE; CSR_INSTRET] ++ csr_range CSR_HPMCOUNTER3 29)
    \/ (tgt = RV32
        /\ In csrno ([CSR_CYCLEH; CSR_INSTRETH]
                     ++ csr_range CSR_HPMCOUNTER3H 29))).
  { assert (R1 : CSR_HPMCOUNTER3 <= csrno <= CSR_HPMCOUNTER31 ->
                 In csrno (csr_range CSR_HPMCOUNTER3 29))
      by (intros [? ?]; apply csr_range_In;
          unfold CSR_HPMCOUNTER3, CSR_HPMCOUNTER31 in *; lia).
    assert (R2 : CSR_HPMCOUNTER3H <= csrno <= CSR_HPMCOUNTER31H ->
                 In csrno (csr_range CSR_HPMCOUNTER3H 29))
      by (intros [? ?]; apply csr_range_In;
          unfold CSR_HPMCOUNTER3H, CSR_HPMCOUNTER31H in *; lia).
    unfold is_user_counter in Hc. rewrite !in_app_iff. cbn [In].
    destruct tgt; bool_to_prop Hc; intuition (try discriminate; auto). }
  destruct Hin as [Hin | [-> Hin]]; rewrite in_app_iff in Hin.
  - destruct tgt; destruct Hin as [Hin | Hin]; each_csrno Hin.
  - destruct Hin as [Hin | Hin]; each_csrno Hin.
Qed.

(** A machine-mode counter has a read accessor that checks
    [counter_enabled] or checks nothing. *)
Lemma machine_counter_accessor {tgt : target} {pmp : PmpModule} csrno :
  is_machine_counter csrno = true ->
  exists rd,
    csr_ops csrno = Some (ops_r rd) /\ (gated_read rd \/ free_read rd).
Proof.
  intros Hc.
  assert (Hin :
    In csrno ([CSR_MCYCLE; CSR_MINSTRET] ++ csr_range CSR_MHPMCOUNTER3 29)
    \/ (tgt = RV32
        /\ In csrno ([CSR_MCYCLEH; CSR_MINSTRETH]
                     ++ csr_range CSR_MHPMCOUNTER3H 29))).
  { assert (R1 : CSR_MHPMCOUNTER3 <= csrno <= CSR_MHPMCOUNTER31 ->
                 In csrno (csr_range CSR_MHPMCOUNTER3 29))
      by (intros [? ?]; apply csr_range_In;
          unfold CSR_MHPMCOUNTER3, CSR_MHPMCOUNTER31 in *; lia).
    assert (R2 : CSR_MHPMCOUNTER3H <= csrno <= CSR_MHPMCOUNTER31H ->
                 In csrno (csr_range CSR_MHPMCOUNTER3H 29))
      by (intros [? ?]; apply csr_range_In;
          unfold CSR_MHPMCOUNTER3H, CSR_MHPMCOUNTER31H in *; lia).
    unfold is_machine_counter in Hc. rewrite !in_app_iff. cbn [In].
    destruct tgt; bool_to_prop Hc; intuition (try discriminate; auto). }
  destruct Hin as [Hin | [-> Hin]]; rewrite in_app_iff in Hin.
  - destruct tgt; destruct Hin as [Hin | Hin]; each_csrno Hin.
  - destruct Hin as [Hin | Hin]; each_csrno Hin.
Qed.

Lemma csr_priv_bounds csrno : 0 <= get_field csrno 0x300 <= PRV_M.
Proof.
  unfold get_field. change (lowest_bit 768) with 256.
  destruct (land_mask_bounds csrno 768 ltac:(lia)) as [Hlo Hhi].
  split.
  - apply Z.div_pos; lia.
  - apply Z.div_le_upper_bound; unfold PRV_M; lia.
Qed.

(** What a read of a user-visible counter yields, in any mode. *)
Lemma user_counter_read {tgt : target} {pmp : PmpModule}
  (m : machine) csrno v :
  0 <= priv (env m) -> is_user_counter csrno = true ->
  exists x,
    riscv_csrrw m csrno v 0
    = Some (if truthy (counter_enabled (env m) csrno)
            then {| ret := 0; ret_value := Some x; post := m |}
            else {| ret := ILLEGAL_CSR; ret_value := None; post := m |}).
Proof.
  intros Hpriv Hc.
  destruct (user_counter_accessor csrno Hc) as (Hgate & rd & Hops & Hrd).
  destruct (Hrd m csrno) as [x Hx]. exists x.
  destruct (truthy (counter_enabled (env m) csrno)).
  - rewrite (riscv_csrrw_read m csrno v _ rd 0 (Some x) Hops eq_refl eq_refl);
      [reflexivity | rewrite Hgate; exact Hpriv | exact Hx].
  - rewrite (riscv_csrrw_read m csrno v _ rd (-1) None Hops eq_refl eq_refl);
      [reflexivity | rewrite Hgate; exact Hpriv | exact Hx].
Qed.

(** In user mode the bit tested is one of the field [mucounteren], in
    supervisor mode one of [mscounteren], whatever the privileged version of
    the hart and whatever [scounteren] and [mcounteren] hold. *)
Lemma user_counter_gate {tgt : target} {pmp : PmpModule}
  (m : machine) csrno v :
  is_user_counter csrno = true ->
  (priv (env m) = PRV_U ->
   (exists x, riscv_csrrw m csrno v 0
              = Some {| ret := 0; ret_value := Some x; post := m |})
   <-> Z.testbit (mucounteren (env m)) (Z.land csrno 31) = true)
  /\ (priv (env m) = PRV_S ->
      (exists x, riscv_csrrw m csrno v 0
                 = Some {| ret := 0; ret_value := Some x; post := m |})
      <-> Z.testbit (mscounteren (env m)) (Z.land csrno 31) = true).
Proof.
  intros Hc.
  assert (Hgen :
    forall word,
      0 <= priv (env m) ->
      counter_enabled (env m) csrno
      = Z.b2z (Z.testbit word (Z.land csrno 31)) ->
      (exists x, riscv_csrrw m csrno v 0
                 = Some {| ret := 0; ret_value := Some x; post := m |})
      <-> Z.testbit word (Z.land csrno 31) = true).
  { intros word Hpriv Hbit.
    destruct (user_counter_read m csrno v Hpriv Hc) as [x Hx].
    rewrite Hx, Hbit.
    destruct (Z.testbit word (Z.land csrno 31)); cbn; split.
    - reflexivity.
    - intros _. now exists x.
    - intros [y [=]].
    - discriminate. }
  split; intros Hp; apply Hgen;
    try (rewrite Hp; discriminate);
    rewrite counter_enabled_bit, Hp; reflexivity.
Qed.

(** C10.  In machine mode every counter can be read, the user-visible
    [cycle], [instret] and [hpmcounter3] .. [hpmcounter31] (with their upper
    halves on RV32) as well as the machine-mode counters, whatever the
    counter-enable words hold: the read succeeds, stores a value and leaves
    the machine as it was. *)
Theorem machine_mode_reads_every_counter {tgt : target} {pmp : PmpModule}
  (m : machine) (csrno v : Z) :
  priv (env m) = PRV_M ->
  is_user_counter csrno = true \/ is_machine_counter csrno = true ->
  exists x,
    riscv_csrrw m csrno v 0
    = Some {| ret := 0; ret_value := Some x; post := m |}.
Proof.
  intros Hp Hc.
  assert (Hrd : exists rd, csr_ops csrno = Some (ops_r rd)
                           /\ (gated_read rd \/ free_read rd)).
  { destruct Hc as [Hc | Hc].
    - destruct (user_counter_accessor csrno Hc) as (_ & rd & Hops & Hg).
      exists rd. split; [exact Hops | now left].
    - now apply machine_counter_accessor. }
  destruct Hrd as (rd & Hops & Hkind).
  assert (Hx : exists x, rd m csrno = (0, Some x)).
  { destruct Hkind as [Hg | Hf]; [|apply Hf].
    destruct (Hg m csrno) as [x Hx]. exists x.
    now rewrite Hx, (counter_enabled_M _ _ Hp). }
  destruct Hx as [x Hx]. exists x.
  rewrite (riscv_csrrw_read m csrno v _ rd 0 (Some x) Hops eq_refl eq_refl);
    [reflexivity | | exact Hx].
  rewrite Hp. apply csr_priv_bounds.
Qed.

Lemma machine_mode_reads_every_counter_witness :
  let m := boot (reset_hart PRIV_VERSION_1_10_0 (Z.lor RVS RVU) 1) in
  exists x,
    riscv_csrrw (tgt := RV64) m CSR_HPMCOUNTER31 0 0
    = Some {| ret := 0; ret_value := Some x; post := m |}.
Proof.
  cbv zeta.
  apply (machine_mode_reads_every_counter (tgt := RV64)).
  - reflexivity.
  - left. reflexivity.
Defined.

(** ** C4: a dirty extension state sets SD *)

Lemma SD_disjoint_FS {tgt : target} : Z.land (MSTATUS_SD tgt) MSTATUS_FS = 0.
Proof. destruct tgt; reflexivity. Qed.

Lemma SD_disjoint_XS {tgt : target} : Z.land (MSTATUS_SD tgt) MSTATUS_XS = 0.
Proof. destruct tgt; reflexivity. Qed.

Lemma lowest_bit_SD {tgt : target} :
  lowest_bit (MSTATUS_SD tgt) = MSTATUS_SD tgt.
Proof. destruct tgt; reflexivity. Qed.

Lemma mstatus_finish_sound {tgt : target} (x : Z) :
  mstatus_sound (mstatus_finish x).
Proof.
  unfold mstatus_sound, mstatus_finish.
  set (x2 := if truthy (Z.land x MSTATUS_FS) then Z.lor x MSTATUS_FS else x).
  rewrite !(land_set_field_outside _ _ _ _ SD_disjoint_FS).
  rewrite !(land_set_field_outside _ _ _ _ SD_disjoint_XS).
  rewrite land_set_field_inside, lowest_bit_SD.
  split.
  - subst x2. destruct (truthy (Z.land x MSTATUS_FS)) eqn:E.
    + right. apply land_lor_inside.
    + left. now apply truthy_false.
  - intros Hdirty.
    assert (Hd : Z.lor (Z.b2z (Z.land x2 MSTATUS_FS =? MSTATUS_FS))
                       (Z.b2z (Z.land x2 MSTATUS_XS =? MSTATUS_XS)) = 1).
    { destruct Hdirty as [-> | ->]; rewrite Z.eqb_refl.
      - now destruct (_ =? _).
      - now destruct (_ =? _). }
    rewrite Hd, Z.mul_1_l. apply Z.land_diag.
Qed.

Lemma fp_dirty_sound {tgt : target} x :
  mstatus_sound x -> truthy (Z.land x MSTATUS_FS) = true ->
  Z.lor x MSTATUS_FS = x.
Proof.
  intros [[H0 | HFS] _] Hon.
  - apply truthy_true in Hon. contradiction.
  - now apply lor_absorb.
Qed.

Lemma table_keeps_mstatus_sound {tgt : target} {pmp : PmpModule} :
  Forall (ops_preserve keeps_mstatus_sound) (map snd csr_ops_init).
Proof.
  each_entry ltac:(
    open_entry; intros m csrno; unfold keeps_mstatus_sound;
    lazymatch goal with
    | |- forall v, _ -> mstatus_sound (mstatus (env (snd (?wr _ _ _)))) =>
        intros v Hs;
        first
          [ unfold write_sstatus;
            match goal with
            | |- context [@write_mstatus ?t _ ?a ?b ?c] =>
                destruct (write_mstatus_shape (tgt := t) a b c)
                  as (m' & -> & _ & _)
            end;
            cbn [snd env with_env mstatus set_mstatus];
            apply mstatus_finish_sound
          | unfold write_fflags, write_frm, write_fcsr;
            destruct (truthy (Z.land (mstatus (env m)) MSTATUS_FS)) eqn:Hon;
            cbn [negb snd env with_env mstatus set_mstatus set_frm
                 cpu_riscv_set_fflags set_fp_status];
            [rewrite (fp_dirty_sound _ Hs Hon)|]; exact Hs
          | unfold_writers; split_ifs; exact Hs ]
    | |- forall n w, _ -> _ =>
        intros n w Hs; unfold rmw_sip, rmw_mip, riscv_set_local_interrupt;
        split_ifs; exact Hs
    end).
Qed.

(** C4.  In every state reached from reset by CSR accesses (with changes of
    the privilege mode and of the host clock in between), among them the
    successful writes of fflags, frm and fcsr that force [mstatus.FS] to
    Dirty: if [mstatus.FS] is Dirty or [mstatus.XS] is Dirty then
    [mstatus.SD] is 1. *)
Theorem reachable_dirty_sets_SD {tgt : target} {pmp : PmpModule}
  (m : machine) :
  reachable m ->
  get_field (mstatus (env m)) MSTATUS_FS = EXT_DIRTY
  \/ get_field (mstatus (env m)) MSTATUS_XS = EXT_DIRTY ->
  get_field (mstatus (env m)) (MSTATUS_SD tgt) = 1.
Proof.
  intros Hreach.
  assert (Hsound : mstatus_sound (mstatus (env m))).
  { induction Hreach as [m H0 | m m' _ IH Hstep].
    - rewrite H0. split; [now left | intros [H | H]; discriminate H].
    - destruct Hstep as [m csrno n w r Hcall | m p | m ic ht].
      + exact (riscv_csrrw_preserves keeps_mstatus_sound
                 table_keeps_mstatus_sound m csrno n w r IH Hcall).
      + exact IH.
      + exact IH. }
  destruct Hsound as [_ HSD]. intros Hdirty.
  unfold get_field. rewrite HSD, lowest_bit_SD.
  - destruct tgt; reflexivity.
  - unfold EXT_DIRTY in Hdirty. rewrite land_FS, land_XS.
    destruct Hdirty as [-> | ->]; [left | right]; reflexivity.
Qed.

Lemma reachable_dirty_sets_SD_witness :
  let m := boot (reset_hart PRIV_VERSION_1_10_0 0 0) in
  let m' := with_env (set_mstatus (Z.lor MSTATUS_FS (MSTATUS_SD RV64))) m in
  riscv_csrrw (tgt := RV64) m CSR_MSTATUS MSTATUS_FS (Z.ones 64)
  = Some {| ret := 0; ret_value := Some 0; post := m' |}
  /\ get_field (mstatus (env m')) MSTATUS_FS = EXT_DIRTY
  /\ get_field (mstatus (env m')) (MSTATUS_SD RV64) = 1.
Proof.
  cbv zeta.
  set (m := boot (reset_hart PRIV_VERSION_1_10_0 0 0)).
  set (m' := with_env (set_mstatus (Z.lor MSTATUS_FS (MSTATUS_SD RV64))) m).
  assert (Hcall : riscv_csrrw (tgt := RV64) m CSR_MSTATUS MSTATUS_FS
                    (Z.ones 64)
                  = Some {| ret := 0; ret_value := Some 0; post := m' |})
    by reflexivity.
  split; [exact Hcall|]. split; [reflexivity|].
  apply (reachable_dirty_sets_SD (tgt := RV64) m').
  - apply (reach_step m); [apply reach_reset; reflexivity|].
    exact (step_csrrw m CSR_MSTATUS MSTATUS_FS (Z.ones 64) _ Hcall).
  - left. reflexivity.
Defined.

(** ** C5: unsupported values of [mstatus.MPP] *)

Lemma mstatus_finish_outside {tgt : target} x f :
  Z.land MSTATUS_FS f = 0 -> Z.land (MSTATUS_SD tgt) f = 0 ->
  Z.land (mstatus_finish x) f = Z.land x f.
Proof.
  intros HFS HSD. unfold mstatus_finish.
  rewrite (land_set_field_outside _ _ _ _ HSD).
  destruct (truthy (Z.land x MSTATUS_FS)); [|reflexivity].
  now apply land_lor_outside.
Qed.

Lemma mstatus_finish_FS {tgt : target} x :
  Z.land (mstatus_finish x) MSTATUS_FS
  = if Z.land x MSTATUS_FS =? 0 then 0 else MSTATUS_FS.
Proof.
  unfold mstatus_finish.
  rewrite (land_set_field_outside _ _ _ _ SD_disjoint_FS).
  unfold truthy. destruct (Z.eqb_spec (Z.land x MSTATUS_FS) 0) as [E | E].
  - exact E.
  - apply land_lor_inside.
Qed.

Lemma land_drop_mask f mask0 drop :
  Z.land f mask0 = f -> Z.land f drop = 0 ->
  Z.land f (Z.land mask0 (Z.lnot drop)) = f.
Proof.
  intros Hin Hout. bitwise i Hi. bit_hyp Hin i. bit_hyp Hout i. bool_cases.
Qed.

Lemma land_dropped mask0 drop : Z.land drop (Z.land mask0 (Z.lnot drop)) = 0.
Proof. bitwise i Hi. bool_cases. Qed.

(** The mask of [write_mstatus] before the MPP test, for a hart of either
    privileged version. *)
Lemma mstatus_write_mask_covers {tgt : target} {pmp : PmpModule}
  (e : CPURISCVState) val f :
  priv_ver e <= PRIV_VERSION_1_09_1 \/ PRIV_VERSION_1_10_0 <= priv_ver e ->
  In f [MSTATUS_SIE; MSTATUS_SPIE; MSTATUS_MIE; MSTATUS_MPIE; MSTATUS_SPP;
        MSTATUS_FS; MSTATUS_MPRV; MSTATUS_SUM; MSTATUS_MXR] ->
  Z.land f (mstatus_write_mask e val) = f.
Proof.
  intros Hver Hf. unfold mstatus_write_mask. rewrite Z.geb_leb.
  assert (Hmask0 :
    forall mask0,
      Z.land f mask0 = f ->
      Z.land f
        (if (get_field val MSTATUS_MPP =? PRV_H)
            || (negb (riscv_has_ext e RVS)
                && (get_field val MSTATUS_MPP =? PRV_S))
            || (negb (riscv_has_ext e RVU)
                && (get_field val MSTATUS_MPP =? PRV_U))
         then Z.land mask0 (Z.lnot MSTATUS_MPP) else mask0) = f).
  { intros mask0 H0. destruct (_ || _); [|exact H0].
    apply land_drop_mask; [exact H0|].
    cbn [In] in Hf.
    repeat (destruct Hf as [<- | Hf]; [reflexivity|]). contradiction. }
  apply Hmask0.
  destruct (Z.leb_spec PRIV_VERSION_1_10_0 (priv_ver e)) as [H10 | H10].
  - cbn [In] in Hf.
    repeat (destruct Hf as [<- | Hf]; [reflexivity|]). contradiction.
  - destruct (Z.leb_spec (priv_ver e) PRIV_VERSION_1_09_1) as [H9 | H9];
      [|lia].
    cbn [In] in Hf.
    destruct (truthy _);
      repeat (destruct Hf as [<- | Hf]; [reflexivity|]); contradiction.
Qed.

(** C5.  When the MPP field of the value written to [mstatus] selects a
    privilege mode that is not supported (H always, S without the S
    extension in [misa], U without the U extension), the MPP field keeps its
    prior value, and the other writable fields are still taken from the value
    written: SIE, SPIE, MIE, MPIE, SPP, MPRV, SUM and MXR are copied, FS
    becomes Off when the value written has FS Off and Dirty otherwise, and
    under 1.9.1 VM is copied when it is a valid mode. *)
Theorem write_mstatus_unsupported_mpp {tgt : target} {pmp : PmpModule}
  (m : machine) (csrno val : Z) :
  let e := env m in
  let mpp := get_field val MSTATUS_MPP in
  let ms' := mstatus (env (snd (write_mstatus m csrno val))) in
  priv_ver e <= PRIV_VERSION_1_09_1 \/ PRIV_VERSION_1_10_0 <= priv_ver e ->
  mpp = PRV_H
  \/ (riscv_has_ext e RVS = false /\ mpp = PRV_S)
  \/ (riscv_has_ext e RVU = false /\ mpp = PRV_U) ->
  fst (write_mstatus m csrno val) = 0
  /\ get_field ms' MSTATUS_MPP = get_field (mstatus e) MSTATUS_MPP
  /\ (forall f,
        In f [MSTATUS_SIE; MSTATUS_SPIE; MSTATUS_MIE; MSTATUS_MPIE;
              MSTATUS_SPP; MSTATUS_MPRV; MSTATUS_SUM; MSTATUS_MXR] ->
        get_field ms' f = get_field val f)
  /\ get_field ms' MSTATUS_FS
     = (if get_field val MSTATUS_FS =? EXT_OFF then EXT_OFF else EXT_DIRTY)
  /\ (priv_ver e <= PRIV_VERSION_1_09_1 ->
      validate_vm e (get_field val MSTATUS_VM) <> 0 ->
      get_field ms' MSTATUS_VM = get_field val MSTATUS_VM).
Proof.
  cbv zeta. intros Hver Hmpp.
  destruct (write_mstatus_shape m csrno val) as (m' & -> & Henv & _).
  cbn [fst snd env with_env mstatus set_mstatus]. clear Henv.
  assert (Hdrop :
    (get_field val MSTATUS_MPP =? PRV_H)
    || (negb (riscv_has_ext (env m) RVS)
        && (get_field val MSTATUS_MPP =? PRV_S))
    || (negb (riscv_has_ext (env m) RVU)
        && (get_field val MSTATUS_MPP =? PRV_U)) = true).
  { destruct Hmpp as [-> | [[-> ->] | [-> ->]]]; cbn;
      rewrite ?orb_true_r; reflexivity. }
  split; [reflexivity|]. split; [|split; [|split]].
  - apply get_field_eq.
    rewrite mstatus_finish_outside
      by (reflexivity || (destruct tgt; reflexivity)).
    apply land_merge_outside.
    unfold mstatus_write_mask. rewrite Hdrop. apply land_dropped.
  - intros f Hf. apply get_field_eq.
    rewrite mstatus_finish_outside
      by (cbn [In] in Hf;
          repeat (destruct Hf as [<- | Hf];
                  [reflexivity || (destruct tgt; reflexivity)|]);
          contradiction).
    apply land_merge_inside, mstatus_write_mask_covers; [exact Hver|].
    cbn [In] in Hf |- *. intuition.
  - unfold get_field at 1.
    rewrite mstatus_finish_FS, land_merge_inside
      by (apply mstatus_write_mask_covers; [exact Hver | cbn; intuition]).
    rewrite land_FS. unfold EXT_OFF, EXT_DIRTY.
    destruct (Z.eqb_spec (get_field val MSTATUS_FS) 0) as [-> | Hne].
    + reflexivity.
    + destruct (Z.eqb_spec (get_field val MSTATUS_FS * 2 ^ 13) 0); [lia|].
      reflexivity.
  - intros H9 Hvalid. apply get_field_eq.
    rewrite mstatus_finish_outside
      by (reflexivity || (destruct tgt; reflexivity)).
    apply land_merge_inside.
    unfold mstatus_write_mask. rewrite Hdrop, Z.geb_leb.
    apply truthy_true in Hvalid. rewrite Hvalid.
    destruct (Z.leb_spec PRIV_VERSION_1_10_0 (priv_ver (env m)));
      [unfold PRIV_VERSION_1_09_1, PRIV_VERSION_1_10_0 in *; lia|].
    destruct (Z.leb_spec (priv_ver (env m)) PRIV_VERSION_1_09_1); [|lia].
    reflexivity.
Qed.

Lemma write_mstatus_unsupported_mpp_witness :
  let m :=
    with_env (set_mstatus (Z.lor MSTATUS_MPP MSTATUS_MIE))
      (boot (reset_hart PRIV_VERSION_1_10_0 (Z.lor RVS RVU) 0)) in
  let val := Z.lor (Z.shiftl PRV_H 11) MSTATUS_MPRV in
  let ms' := mstatus (env (snd (write_mstatus (tgt := RV64) m CSR_MSTATUS val)))
  in
  get_field ms' MSTATUS_MPP = PRV_M
  /\ get_field ms' MSTATUS_MPRV = 1
  /\ get_field ms' MSTATUS_MIE = 0.
Proof.
  cbv zeta.
  set (m := with_env (set_mstatus (Z.lor MSTATUS_MPP MSTATUS_MIE))
              (boot (reset_hart PRIV_VERSION_1_10_0 (Z.lor RVS RVU) 0))).
  set (val := Z.lor (Z.shiftl PRV_H 11) MSTATUS_MPRV).
  destruct (write_mstatus_unsupported_mpp (tgt := RV64) m CSR_MSTATUS val)
    as (_ & Hmpp & Hother & _).
  - right. discriminate.
  - left. reflexivity.
  - split; [|split].
    + rewrite Hmpp. reflexivity.
    + rewrite (Hother MSTATUS_MPRV) by (cbn; intuition). reflexivity.
    + rewrite (Hother MSTATUS_MIE) by (cbn; intuition). reflexivity.
Defined.

(** ** C6: writes of [satp] under 1.10 *)

Lemma get_field_shiftl x k n :
  0 <= n -> lowest_bit (Z.shiftl k n) = 2 ^ n ->
  get_field x (Z.shiftl k n) = Z.land (Z.shiftr x n) k.
Proof.
  intros Hn Hlow. unfold get_field.
  rewrite Hlow, land_shiftl, Z.shiftl_mul_pow2 by exact Hn.
  apply Z.div_mul, Z.pow_nonzero; lia.
Qed.

Lemma satp_mode_4bit {tgt : target} val :
  Z.land (get_field val (SATP_MODE tgt)) 0xf = get_field val (SATP_MODE tgt).
Proof.
  destruct tgt.
  - change (SATP_MODE RV32) with (Z.shiftl 1 31).
    rewrite get_field_shiftl by (reflexivity || lia).
    rewrite <- Z.land_assoc. reflexivity.
  - change (SATP_MODE RV64) with (Z.shiftl 0xf 60).
    rewrite get_field_shiftl by (reflexivity || lia).
    rewrite <- Z.land_assoc. reflexivity.
Qed.

Lemma validate_vm_satp {tgt : target} {pmp : PmpModule}
  (e : CPURISCVState) val :
  PRIV_VERSION_1_10_0 <= priv_ver e ->
  truthy (validate_vm e (get_field val (SATP_MODE tgt)))
  = existsb (Z.eqb (get_field val (SATP_MODE tgt))) satp_modes_1_10.
Proof.
  intros H10. unfold validate_vm. rewrite Z.geb_leb.
  apply Z.leb_le in H10. rewrite H10, satp_mode_4bit.
  unfold valid_vm_1_10, satp_modes_1_10, char16_table.
  destruct tgt; destruct (existsb _ _); reflexivity.
Qed.

Lemma existsb_eqb_In x l : existsb (Z.eqb x) l = true <-> In x l.
Proof.
  rewrite existsb_exists. split.
  - intros (y & Hin & Heq). apply Z.eqb_eq in Heq. now subst.
  - intros Hin. exists x. split; [exact Hin | apply Z.eqb_refl].
Qed.

Lemma satp_fields_cover {tgt : target} f :
  In f [SATP_MODE tgt; SATP_ASID tgt; SATP_PPN tgt] ->
  Z.land f (lor_all [SATP_MODE tgt; SATP_ASID tgt; SATP_PPN tgt]) = f.
Proof.
  cbn [In]. intros [<- | [<- | [<- | []]]]; destruct tgt; reflexivity.
Qed.

(** C6.  Under the privileged version 1.10, on a hart with an MMU: a write
    of [satp] whose MODE field is outside the valid set of the target is
    dropped, leaving the machine as it was ([satp] unchanged, no TLB flush);
    a write with a valid MODE that changes MODE, ASID or PPN requests a TLB
    flush while [satp] still holds its old value and then stores the new
    value. *)
Theorem write_satp_1_10 {tgt : target} {pmp : PmpModule}
  (m : machine) (csrno val : Z) :
  let mode := get_field val (SATP_MODE tgt) in
  riscv_feature (env m) RISCV_FEATURE_MMU = true ->
  PRIV_VERSION_1_10_0 <= priv_ver (env m) ->
  (~ In mode satp_modes_1_10 -> write_satp m csrno val = (0, m))
  /\ (In mode satp_modes_1_10 ->
      (exists f,
         In f [SATP_MODE tgt; SATP_ASID tgt; SATP_PPN tgt]
         /\ get_field val f <> get_field (satp (env m)) f) ->
      write_satp m csrno val = (0, with_env (set_satp val) (tlb_flush m))
      /\ events (snd (write_satp m csrno val))
         = events m ++ [EvTlbFlush (env m)]
      /\ satp (env (snd (write_satp m csrno val))) = val).
Proof.
  cbv zeta. intros Hmmu H10.
  assert (Hpath :
    write_satp m csrno val
    = (0,
       if existsb (Z.eqb (get_field val (SATP_MODE tgt))) satp_modes_1_10
          && truthy (Z.land (Z.lxor val (satp (env m)))
                       (lor_all [SATP_MODE tgt; SATP_ASID tgt; SATP_PPN tgt]))
       then with_env (set_satp val) (tlb_flush m) else m)).
  { unfold write_satp. rewrite Hmmu. cbn [negb].
    replace (priv_ver (env m) <=? PRIV_VERSION_1_09_1) with false
      by (symmetry; apply Z.leb_gt;
          unfold PRIV_VERSION_1_09_1, PRIV_VERSION_1_10_0 in *; lia).
    cbn [andb]. rewrite Z.geb_leb, (proj2 (Z.leb_le _ _) H10).
    cbn [andb]. rewrite validate_vm_satp by exact H10. reflexivity. }
  rewrite Hpath. split.
  - intros Hbad. rewrite <- existsb_eqb_In in Hbad.
    apply not_true_is_false in Hbad. rewrite Hbad. reflexivity.
  - intros Hgood (f & Hf & Hchange).
    apply existsb_eqb_In in Hgood. rewrite Hgood. cbn [andb].
    replace (truthy _) with true; [cbn [snd]; repeat split|].
    symmetry. apply truthy_true. intros Hsame.
    apply land_lxor_zero in Hsame. apply Hchange, get_field_eq.
    exact (land_sub_land _ _ _ _ (satp_fields_cover f Hf) Hsame).
Qed.

Lemma write_satp_1_10_witness :
  let m := boot (reset_hart PRIV_VERSION_1_10_0 (Z.lor RVS RVU) 1) in
  let sv39 := Z.lor (Z.shiftl VM_1_10_SV39 60) 0x80000 in
  let m' := with_env (set_satp sv39) (tlb_flush m) in
  write_satp (tgt := RV64) m CSR_SATP sv39 = (0, m')
  /\ write_satp (tgt := RV64) m' CSR_SATP (Z.shiftl 7 60) = (0, m').
Proof.
  cbv zeta.
  set (m := boot (reset_hart PRIV_VERSION_1_10_0 (Z.lor RVS RVU) 1)).
  set (sv39 := Z.lor (Z.shiftl VM_1_10_SV39 60) 0x80000).
  split.
  - apply (write_satp_1_10 (tgt := RV64) m CSR_SATP sv39).
    + reflexivity.
    + discriminate.
    + right. left. reflexivity.
    + exists (SATP_MODE RV64). split; [left; reflexivity | discriminate].
  - apply (write_satp_1_10 (tgt := RV64)
             (with_env (set_satp sv39) (tlb_flush m)) CSR_SATP (Z.shiftl 7 60)).
    + reflexivity.
    + discriminate.
    + cbn. intros [H | [H | [H | [H | []]]]]; discriminate H.
Defined.

(** ** C7: [sstatus] is a window onto [mstatus] *)

Lemma merge_twice_outside old val s w :
  Z.land (merge_bits old (merge_bits old val s) w) (Z.lnot s)
  = Z.land old (Z.lnot s).
Proof. unfold merge_bits. bitwise i Hi. bool_cases. Qed.

Lemma land_merge_mask old val s :
  Z.land (merge_bits old val s) s = Z.land val s.
Proof. unfold merge_bits. bitwise i Hi. bool_cases. Qed.

Lemma sstatus_mask_has_FS_SD {tgt : target} {pmp : PmpModule}
  (e : CPURISCVState) :
  Z.land MSTATUS_FS (Z.lnot (sstatus_mask e)) = 0
  /\ Z.land (MSTATUS_SD tgt) (Z.lnot (sstatus_mask e)) = 0.
Proof.
  unfold sstatus_mask.
  destruct (priv_ver e >=? PRIV_VERSION_1_10_0); destruct tgt;
    split; reflexivity.
Qed.

(** The fields of the window that the writer of [mstatus] accepts, and those
    it does not. *)
Lemma sstatus_mask_covers {tgt : target} {pmp : PmpModule}
  (e : CPURISCVState) f :
  In f [SSTATUS_SIE; SSTATUS_SPIE; SSTATUS_SPP; SSTATUS_FS; SSTATUS_SUM;
        SSTATUS_UIE; SSTATUS_UPIE; SSTATUS_XS] ->
  Z.land f (sstatus_mask e) = f.
Proof.
  intros Hf. unfold sstatus_mask. cbn [In] in Hf.
  destruct (priv_ver e >=? PRIV_VERSION_1_10_0); destruct tgt;
    repeat (destruct Hf as [<- | Hf]; [reflexivity|]); contradiction.
Qed.

Lemma sstatus_mask_MXR {tgt : target} {pmp : PmpModule} (e : CPURISCVState) :
  PRIV_VERSION_1_10_0 <= priv_ver e ->
  Z.land SSTATUS_MXR (sstatus_mask e) = SSTATUS_MXR.
Proof.
  intros H10. unfold sstatus_mask. rewrite Z.geb_leb.
  apply Z.leb_le in H10. rewrite H10. destruct tgt; reflexivity.
Qed.

Lemma mstatus_write_mask_excludes {tgt : target} {pmp : PmpModule}
  (e : CPURISCVState) val f :
  In f [MSTATUS_UIE; MSTATUS_UPIE; MSTATUS_XS] ->
  Z.land f (mstatus_write_mask e val) = 0.
Proof.
  intros Hf. unfold mstatus_write_mask. cbn [In] in Hf.
  split_ifs;
    repeat (destruct Hf as [<- | Hf]; [reflexivity|]); contradiction.
Qed.

(** SD as [write_mstatus] leaves it: set exactly when FS or XS is Dirty. *)
Lemma mstatus_finish_SD {tgt : target} x :
  get_field (mstatus_finish x) (MSTATUS_SD tgt)
  = if (get_field (mstatus_finish x) MSTATUS_FS =? EXT_DIRTY)
       || (get_field (mstatus_finish x) MSTATUS_XS =? EXT_DIRTY)
    then 1 else 0.
Proof.
  assert (Hfs : forall y, (get_field y MSTATUS_FS =? EXT_DIRTY)
                          = (Z.land y MSTATUS_FS =? MSTATUS_FS)).
  { intros y. rewrite land_FS. unfold EXT_DIRTY.
    set (g := get_field y MSTATUS_FS).
    destruct (Z.eqb_spec g 3) as [-> | Hne].
    - reflexivity.
    - symmetry. apply Z.eqb_neq. change MSTATUS_FS with (3 * 2 ^ 13). lia. }
  assert (Hxs : forall y, (get_field y MSTATUS_XS =? EXT_DIRTY)
                          = (Z.land y MSTATUS_XS =? MSTATUS_XS)).
  { intros y. rewrite land_XS. unfold EXT_DIRTY.
    set (g := get_field y MSTATUS_XS).
    destruct (Z.eqb_spec g 3) as [-> | Hne].
    - reflexivity.
    - symmetry. apply Z.eqb_neq. change MSTATUS_XS with (3 * 2 ^ 15). lia. }
  rewrite Hfs, Hxs. unfold get_field at 1. unfold mstatus_finish.
  rewrite !(land_set_field_outside _ _ _ _ SD_disjoint_FS).
  rewrite !(land_set_field_outside _ _ _ _ SD_disjoint_XS).
  rewrite land_set_field_inside, lowest_bit_SD.
  destruct (_ =? MSTATUS_FS), (_ =? MSTATUS_XS); cbn [Z.b2z Z.lor orb];
    destruct tgt; reflexivity.
Qed.

(** C7 as it is stated fails for the bits of the window that the writer of
    [mstatus] does not accept: UIE is in the mask, and writing it through
    [sstatus] leaves [mstatus], and so [sstatus], at 0. *)
Lemma sstatus_uie_counterexample :
  let m :=
    with_env (set_priv PRV_S)
      (boot (reset_hart PRIV_VERSION_1_10_0 (Z.lor RVS RVU) 0)) in
  let mask := sstatus_mask (tgt := RV64) (env m) in
  Z.land SSTATUS_UIE mask = SSTATUS_UIE
  /\ riscv_csrrw (tgt := RV64) m CSR_SSTATUS SSTATUS_UIE (Z.ones 64)
     = Some {| ret := 0; ret_value := Some 0; post := m |}
  /\ Z.land (mstatus (env m)) mask <> Z.land SSTATUS_UIE mask.
Proof.
  cbv zeta. split; [reflexivity|]. split; [reflexivity | discriminate].
Qed.

(** C7, amended.  In every state (so in every reachable one) a read of
    [sstatus] yields [mstatus] masked by the mask of the hart's privileged
    version, [sstatus_v1_10_mask] from 1.10 on and [sstatus_v1_9_mask]
    before, and changes nothing.  A write of [sstatus] goes to the writer of
    [mstatus] with the masked bits of the value written and the other bits
    of [mstatus], and on a hart of either version: SIE, SPIE, SPP and SUM
    (and MXR from 1.10 on) are taken from the value written; FS becomes Off
    when the value written has FS Off and Dirty otherwise; SD is set exactly
    when FS or XS is then Dirty; UIE, UPIE and XS, which are in the mask, keep
    their values, as does every bit outside the mask; and the value read
    afterwards is the new [mstatus] under the same mask. *)
Theorem sstatus_window {tgt : target} {pmp : PmpModule}
  (m : machine) (csrno val : Z) :
  let e := env m in
  let ms := mstatus e in
  let mask := sstatus_mask e in
  let after := snd (write_sstatus m csrno val) in
  let ms' := mstatus (env after) in
  priv_ver e <= PRIV_VERSION_1_09_1 \/ PRIV_VERSION_1_10_0 <= priv_ver e ->
  mask = (if priv_ver e >=? PRIV_VERSION_1_10_0
          then sstatus_v1_10_mask else sstatus_v1_9_mask)
  /\ read_sstatus m csrno = (0, Some (Z.land ms mask))
  /\ (PRV_S <= priv e ->
      riscv_csrrw m CSR_SSTATUS val 0
      = Some {| ret := 0; ret_value := Some (Z.land ms mask); post := m |})
  /\ write_sstatus m csrno val
     = write_mstatus m CSR_MSTATUS (merge_bits ms val mask)
  /\ (forall f,
        In f [SSTATUS_SIE; SSTATUS_SPIE; SSTATUS_SPP; SSTATUS_SUM] ->
        get_field ms' f = get_field val f)
  /\ (PRIV_VERSION_1_10_0 <= priv_ver e ->
      get_field ms' SSTATUS_MXR = get_field val SSTATUS_MXR)
  /\ get_field ms' SSTATUS_FS
     = (if get_field val SSTATUS_FS =? EXT_OFF then EXT_OFF else EXT_DIRTY)
  /\ get_field ms' (SSTATUS_SD tgt)
     = (if (get_field ms' SSTATUS_FS =? EXT_DIRTY)
           || (get_field ms' SSTATUS_XS =? EXT_DIRTY)
        then 1 else 0)
  /\ (forall f,
        In f [SSTATUS_UIE; SSTATUS_UPIE; SSTATUS_XS] ->
        get_field ms' f = get_field ms f)
  /\ Z.land ms' (Z.lnot mask) = Z.land ms (Z.lnot mask)
  /\ read_sstatus after csrno = (0, Some (Z.land ms' mask)).
Proof.
  cbv zeta. intros Hver.
  split; [reflexivity|]. split; [reflexivity|].
  split.
  { intros Hpriv.
    rewrite (riscv_csrrw_read m CSR_SSTATUS val
               (ops_rw read_sstatus write_sstatus) read_sstatus 0
               (Some (Z.land (mstatus (env m)) (sstatus_mask (env m)))));
      try reflexivity.
    - table_element.
    - exact Hpriv. }
  split; [reflexivity|].
  unfold write_sstatus. fold (sstatus_mask (env m)).
  fold (merge_bits (mstatus (env m)) val (sstatus_mask (env m))).
  set (newval := merge_bits (mstatus (env m)) val (sstatus_mask (env m))).
  destruct (write_mstatus_shape m CSR_MSTATUS newval) as (m' & -> & Henv & _).
  destruct (sstatus_mask_has_FS_SD (env m)) as [HFS HSD].
  cbn [snd env with_env mstatus set_mstatus].
  assert (Hcopied :
    forall f,
      Z.land MSTATUS_FS f = 0 -> Z.land (MSTATUS_SD tgt) f = 0 ->
      Z.land f (mstatus_write_mask (env m) newval) = f ->
      Z.land f (sstatus_mask (env m)) = f ->
      get_field
        (mstatus_finish
           (merge_bits (mstatus (env m)) newval
              (mstatus_write_mask (env m) newval))) f
      = get_field val f).
  { intros f Hf1 Hf2 Hw Hs. apply get_field_eq.
    rewrite (mstatus_finish_outside _ _ Hf1 Hf2).
    rewrite (land_merge_inside _ _ _ _ Hw).
    exact (land_merge_inside _ _ _ _ Hs). }
  split; [|split; [|split; [|split; [|split; [|split]]]]].
  - intros f Hf. apply Hcopied.
    + cbn [In] in Hf.
      repeat (destruct Hf as [<- | Hf]; [reflexivity|]). contradiction.
    + cbn [In] in Hf.
      repeat (destruct Hf as [<- | Hf]; [destruct tgt; reflexivity|]).
      contradiction.
    + apply mstatus_write_mask_covers; [exact Hver|].
      cbn [In] in Hf |- *. intuition.
    + apply sstatus_mask_covers. cbn [In] in Hf |- *. intuition.
  - intros H10. apply Hcopied.
    + reflexivity.
    + destruct tgt; reflexivity.
    + apply mstatus_write_mask_covers; [exact Hver | cbn; intuition].
    + now apply sstatus_mask_MXR.
  - unfold get_field at 1.
    rewrite mstatus_finish_FS.
    rewrite (land_merge_inside _ _ _ MSTATUS_FS)
      by (apply mstatus_write_mask_covers; [exact Hver | cbn; intuition]).
    unfold newval.
    rewrite (land_merge_inside _ _ _ MSTATUS_FS)
      by (apply sstatus_mask_covers; cbn; intuition).
    change SSTATUS_FS with MSTATUS_FS.
    rewrite land_FS. unfold EXT_OFF, EXT_DIRTY.
    destruct (Z.eqb_spec (get_field val MSTATUS_FS) 0) as [-> | Hne].
    + reflexivity.
    + destruct (Z.eqb_spec (get_field val MSTATUS_FS * 2 ^ 13) 0); [lia|].
      reflexivity.
  - apply mstatus_finish_SD.
  - intros f Hf. apply get_field_eq.
    rewrite mstatus_finish_outside.
    + rewrite land_merge_outside
        by (apply mstatus_write_mask_excludes; exact Hf).
      reflexivity.
    + cbn [In] in Hf.
      repeat (destruct Hf as [<- | Hf]; [reflexivity|]). contradiction.
    + cbn [In] in Hf.
      repeat (destruct Hf as [<- | Hf]; [destruct tgt; reflexivity|]).
      contradiction.
  - rewrite (mstatus_finish_outside _ _ HFS HSD).
    apply merge_twice_outside.
  - unfold read_sstatus, sstatus_mask.
    cbn [env with_env mstatus set_mstatus priv_ver]. rewrite Henv.
    reflexivity.
Qed.

Lemma sstatus_window_witness :
  let m :=
    with_env (set_priv PRV_S)
      (with_env (set_mstatus (Z.lor MSTATUS_MIE MSTATUS_UIE))
         (boot (reset_hart PRIV_VERSION_1_10_0 (Z.lor RVS RVU) 0))) in
  let ms' :=
    mstatus (env (snd (write_sstatus (tgt := RV64) m CSR_SSTATUS
                         (Z.lor SSTATUS_SIE SSTATUS_UPIE)))) in
  riscv_csrrw (tgt := RV64) m CSR_SSTATUS 0 0
  = Some {| ret := 0; ret_value := Some SSTATUS_UIE; post := m |}
  /\ get_field ms' SSTATUS_SIE = 1
  /\ get_field ms' SSTATUS_UIE = 1
  /\ get_field ms' SSTATUS_UPIE = 0.
Proof.
  cbv zeta.
  set (m := with_env (set_priv PRV_S) _).
  destruct (sstatus_window (tgt := RV64) m CSR_SSTATUS
              (Z.lor SSTATUS_SIE SSTATUS_UPIE))
    as (_ & _ & Hread & _ & Hcopy & _ & _ & _ & Hkept & _).
  - right. discriminate.
  - split; [|split; [|split]].
    + exact (Hread ltac:(discriminate)).
    + rewrite (Hcopy SSTATUS_SIE) by (cbn; intuition). reflexivity.
    + rewrite (Hkept SSTATUS_UIE) by (cbn; intuition). reflexivity.
    + rewrite (Hkept SSTATUS_UPIE) by (cbn; intuition). reflexivity.
Defined.

(** ** C8: a refused access changes nothing *)

Lemma write_mstatus_ret {tgt : target} {pmp : PmpModule} (m : machine) c v :
  fst (write_mstatus m c v) = 0.
Proof. unfold write_mstatus. split_ifs; reflexivity. Qed.

Lemma table_fails_clean {tgt : target} {pmp : PmpModule} :
  Forall fails_clean (map snd csr_ops_init).
Proof.
  each_entry ltac:(
    open_entry; intros m csrno;
    lazymatch goal with
    | |- forall v, fst _ < 0 -> _ =>
        intros v;
        first
          [ rewrite write_mstatus_ret; lia
          | unfold write_sstatus; rewrite write_mstatus_ret; lia
          | unfold_writers; split_ifs; cbn [fst snd]; intros;
            (reflexivity || lia) ]
    | |- forall n w, ret _ < 0 -> _ =>
        intros n w; unfold rmw_sip, rmw_mip, riscv_set_local_interrupt;
        split_ifs;
        cbn [ret]; intros; lia
    end).
Qed.

(** C8.  Whenever [riscv_csrrw] returns the illegal-CSR status -1, from the
    gate or from an accessor (an FP register with [mstatus.FS] off, a counter
    that is not enabled, a register of the other privileged version), the
    machine is the one before the call: no field of the hart is written, no
    TLB flush and no update of the interrupts is requested, and nothing is
    stored through [ret_value]. *)
Theorem riscv_csrrw_illegal_unchanged {tgt : target} {pmp : PmpModule}
  (m : machine) (csrno new_value write_mask : Z) (r : csr_result) :
  riscv_csrrw m csrno new_value write_mask = Some r ->
  ret r = ILLEGAL_CSR ->
  post r = m /\ ret_value r = None.
Proof.
  intros Hcall Hret. unfold ILLEGAL_CSR in Hret.
  assert (Hno : fails_clean no_ops) by (split; intros ? [=]).
  destruct (riscv_csrrw_post_cases _ _ _ _ _ Hcall)
    as [[Hpost Hval] | [(ops & wr & v & Hops & Hwr & Hr & Hval & Hpost)
                       | (ops & f & Hops & Hop & ->)]].
  - split; [exact Hpost | apply Hval; lia].
  - split; [|apply Hval; lia].
    rewrite Hpost.
    apply (csr_ops_forall _ Hno table_fails_clean _ _ Hops); [exact Hwr|].
    destruct (fst (wr m csrno v) <? 0) eqn:E; [apply Z.ltb_lt in E; lia | lia].
  - apply (csr_ops_forall _ Hno table_fails_clean _ _ Hops); [exact Hop | lia].
Qed.
Lemma riscv_csrrw_illegal_unchanged_witness :
  let m := boot (reset_hart PRIV_VERSION_1_09_1 0 0) in
  let r := {| ret := -1; ret_value := None; post := m |} in
  riscv_csrrw (tgt := RV64) m CSR_FFLAGS 1 (Z.ones 64) = Some r
  /\ post r = m /\ ret_value r = None.
Proof.
  cbv zeta. split; [reflexivity|].
  apply (riscv_csrrw_illegal_unchanged (tgt := RV64)
           _ CSR_FFLAGS 1 (Z.ones 64));
    reflexivity.
Defined.


(** ** C9: accesses with a zero write mask *)

Lemma table_loads_on_zero_mask {tgt : target} {pmp : PmpModule} :
  Forall loads_on_zero_mask (map snd csr_ops_init).
Proof.
  each_entry ltac:(
    unfold loads_on_zero_mask, ops_rw, ops_r, ops_op;
    intros f Hf; cbn [op] in Hf; try discriminate Hf;
    injection Hf as <-; intros m csrno n; reflexivity).
Qed.

(** With a zero write mask [riscv_csrrw] leaves the machine as it was, for
    every CSR number and whatever it returns: no register is written, no TLB
    flush and no interrupt update is requested, FS is not dirtied. *)
Lemma riscv_csrrw_zero_mask_pure {tgt : target} {pmp : PmpModule}
  (m : machine) csrno v r :
  riscv_csrrw m csrno v 0 = Some r -> post r = m.
Proof.
  unfold riscv_csrrw. cbn [truthy Z.eqb negb andb orb].
  destruct (priv (env m) <? get_field csrno 768); [now intros [= <-]|].
  destruct (csr_ops csrno) as [ops|] eqn:Hops; [|discriminate].
  destruct (op ops) as [f|] eqn:Hop.
  { intros [= <-].
    assert (Hno : loads_on_zero_mask no_ops) by (intros ? [=]).
    exact (csr_ops_forall _ Hno table_loads_on_zero_mask _ _ Hops f Hop
             m csrno v). }
  destruct (read ops) as [rd|]; [|now intros [= <-]].
  destruct (rd m csrno) as [r0 stored].
  destruct (r0 <? 0); [now intros [= <-]|].
  destruct stored; [now intros [= <-] | discriminate].
Qed.

(** The sibling of [sip]: a read of [sie] yields [mie] under [mideleg]. *)
Lemma sie_read_is_view {tgt : target} {pmp : PmpModule} (m : machine) v :
  PRV_S <= priv (env m) ->
  riscv_csrrw m CSR_SIE v 0
  = Some {| ret := 0; ret_value := Some (sie_view (env m)); post := m |}.
Proof.
  intros Hpriv.
  rewrite (riscv_csrrw_read m CSR_SIE v (ops_rw read_sie write_sie) read_sie
             0 (Some (sie_view (env m)))); try reflexivity.
  - table_element.
  - exact Hpriv.
Qed.

(** A read of [sip] yields all of [mip], through a [uint32_t]. *)
Lemma sip_read_is_mip {tgt : target} {pmp : PmpModule} (m : machine) v :
  PRV_S <= priv (env m) ->
  riscv_csrrw m CSR_SIP v 0
  = Some {| ret := 0; ret_value := Some (to_uint32 (mip (env m)));
            post := m |}.
Proof.
  intros Hpriv. unfold riscv_csrrw.
  rewrite (gate_false m CSR_SIP 0 Hpriv (or_introl eq_refl)).
  replace (csr_ops CSR_SIP) with (Some (ops_op rmw_sip))
    by (symmetry; table_element).
  reflexivity.
Qed.

(** C9.  An access with a zero write mask is to change nothing and to
    return the current value of the register.  The code changes nothing, but
    for [sip] it does not return the register's value: from reset under
    1.10, machine mode sets SSIP in [mip] while [mideleg] stays 0, so that
    [sip], which is [mip] under [mideleg], is 0; the supervisor-mode access
    to [sip] with a zero write mask stores the whole of [mip], SSIP
    included. *)
Theorem sip_zero_mask_returns_mip :
  let m0 := boot (reset_hart PRIV_VERSION_1_10_0 (Z.lor RVS RVU) 1) in
  let m1 :=
    qemu_mutex_unlock_iothread
      (emit (EvSetLocalInterrupt MIP_SSIP MIP_SSIP)
         (with_env (set_mip MIP_SSIP) (qemu_mutex_lock_iothread m0))) in
  let m2 := with_env (set_priv PRV_S) m1 in
  riscv_csrrw (tgt := RV64) m0 CSR_MIP MIP_SSIP MIP_SSIP
  = Some {| ret := 0; ret_value := Some 0; post := m1 |}
  /\ sip_view (env m2) = 0
  /\ riscv_csrrw (tgt := RV64) m2 CSR_SIP 0 0
     = Some {| ret := 0; ret_value := Some MIP_SSIP; post := m2 |}.
Proof. cbv zeta. repeat split. Qed.


(** * Further properties of the CSR file *)

(** ** The read-then-write path *)

(** A register with a read and a write accessor and no combined one, written
    with a non-zero mask by a caller that passes the gate. *)
Lemma riscv_csrrw_write {tgt : target} {pmp : PmpModule}
  (m : machine) csrno new_value write_mask ops rd wr old_value r m' :
  csr_ops csrno = Some ops -> op ops = None ->
  read ops = Some rd -> write ops = Some wr ->
  get_field csrno 0x300 <= priv (env m) ->
  get_field csrno 0xC00 <> 3 ->
  write_mask <> 0 ->
  rd m csrno = (0, Some old_value) ->
  wr m csrno (merge_bits old_value new_value write_mask) = (r, m') ->
  riscv_csrrw m csrno new_value write_mask
  = Some (if r <? 0 then {| ret := r; ret_value := None; post := m' |}
          else {| ret := 0; ret_value := Some old_value; post := m' |}).
Proof.
  intros Hops Hop Hrd Hwr Hpriv Hrw Hmask Hread Hwrite. unfold riscv_csrrw.
  rewrite (gate_false m csrno write_mask Hpriv (or_intror Hrw)).
  rewrite Hops, Hop, Hrd, Hread. cbn [Z.ltb Z.compare].
  rewrite (proj2 (truthy_true _) Hmask), Hwr.
  fold (merge_bits old_value new_value write_mask). rewrite Hwrite.
  destruct (r <? 0); reflexivity.
Qed.

Lemma merge_bits_ones {tgt : target} old val :
  is_ulong tgt old -> is_ulong tgt val -> merge_bits old val ulong_max = val.
Proof.
  unfold is_ulong, ulong_max, merge_bits. intros Hold Hval.
  assert (Hn : 0 <= TARGET_LONG_BITS tgt) by (destruct tgt; cbn; lia).
  rewrite (Z.land_ones val) by exact Hn.
  rewrite (Z.mod_small val) by exact Hval.
  replace (Z.land old (Z.lnot (Z.ones (TARGET_LONG_BITS tgt)))) with 0.
  - apply Z.lor_0_l.
  - symmetry. rewrite <- Z.ldiff_land, Z.ldiff_ones_r by exact Hn.
    rewrite Z.shiftr_div_pow2 by exact Hn.
    rewrite Z.div_small by exact Hold. now rewrite Z.shiftl_0_l.
Qed.

Lemma ulong_max_nonzero {tgt : target} : ulong_max <> 0.
Proof. destruct tgt; discriminate. Qed.

Lemma merge_bits_set {tgt : target} old bits :
  is_ulong tgt bits -> merge_bits old ulong_max bits = Z.lor old bits.
Proof.
  unfold is_ulong, ulong_max, merge_bits. intros Hb.
  assert (Hn : 0 <= TARGET_LONG_BITS tgt) by (destruct tgt; cbn; lia).
  rewrite (Z.land_comm (Z.ones _)), (Z.land_ones bits) by exact Hn.
  rewrite (Z.mod_small bits) by exact Hb.
  bitwise i Hi. bool_cases.
Qed.

Lemma merge_bits_clear old bits :
  merge_bits old 0 bits = Z.land old (Z.lnot bits).
Proof. unfold merge_bits. now rewrite Z.land_0_l, Z.lor_0_r. Qed.

(** The table element, the gate and the accessors of a storage register. *)
Lemma storage_csr_access {tgt : target} {pmp : PmpModule} csrno get set :
  In (csrno, get, set) storage_csrs ->
  exists rd wr,
    csr_ops csrno = Some (ops_rw rd wr)
    /\ get_field csrno 0xC00 <> 3
    /\ (get_field csrno 0x300 = PRV_M \/ get_field csrno 0x300 = PRV_S)
    /\ (forall m, rd m csrno = (0, Some (get (env m))))
    /\ (forall m v, wr m csrno v = (0, with_env (set v) m)).
Proof.
  intros Hin. cbn [storage_csrs In] in Hin.
  repeat (destruct Hin as [[= <- <- <-] | Hin];
          [ eexists; eexists; split; [table_element|];
            split; [discriminate|]; split;
            [ first [left; reflexivity | right; reflexivity]
            | split; intros; reflexivity ]
          | ]).
  contradiction.
Qed.

(** ** Storage registers *)

(** X1.  A [csrrw] (all-ones write mask) on one of the eight storage
    registers, by a caller privileged for it, returns the old value and
    stores the new one in the register's field, and a following read (zero
    mask) returns the value just written and changes nothing. *)
Theorem storage_swap_then_read {tgt : target} {pmp : PmpModule}
  (m : machine) (csrno v : Z) get set :
  In (csrno, get, set) storage_csrs ->
  get_field csrno 0x300 <= priv (env m) ->
  is_ulong tgt (get (env m)) -> is_ulong tgt v ->
  let m' := with_env (set v) m in
  riscv_csrrw m csrno v ulong_max
  = Some {| ret := 0; ret_value := Some (get (env m)); post := m' |}
  /\ get (env m') = v
  /\ forall v', riscv_csrrw m' csrno v' 0
                = Some {| ret := 0; ret_value := Some v; post := m' |}.
Proof.
  intros Hin Hpriv Hold Hv. cbv zeta.
  destruct (storage_csr_access csrno get set Hin)
    as (rd & wr & Hops & Hrw & _ & Hrd & Hwr).
  assert (Hget : get (env (with_env (set v) m)) = v).
  { cbn [storage_csrs In] in Hin.
    repeat (destruct Hin as [[= <- <- <-] | Hin]; [reflexivity|]).
    contradiction. }
  assert (Hpriv' : get_field csrno 0x300 <= priv (env (with_env (set v) m))).
  { cbn [storage_csrs In] in Hin.
    repeat (destruct Hin as [[= <- <- <-] | Hin]; [exact Hpriv|]).
    contradiction. }
  split; [|split; [exact Hget|]].
  - rewrite (riscv_csrrw_write m csrno v ulong_max _ rd wr (get (env m)) 0
               (with_env (set (merge_bits (get (env m)) v ulong_max)) m)
               Hops eq_refl eq_refl eq_refl Hpriv Hrw ulong_max_nonzero
               (Hrd m) (Hwr m _)).
    cbn [Z.ltb Z.compare]. now rewrite merge_bits_ones.
  - intros v'.
    rewrite (riscv_csrrw_read _ csrno v' _ rd 0 (Some v) Hops eq_refl eq_refl
               Hpriv'); [reflexivity|].
    rewrite Hrd, Hget. reflexivity.
Qed.

Lemma storage_swap_then_read_witness :
  let m := boot (reset_hart PRIV_VERSION_1_10_0 0 0) in
  riscv_csrrw (tgt := RV32) m CSR_SEPC 0x80000004 (ulong_max (tgt := RV32))
  = Some {| ret := 0; ret_value := Some 0;
            post := with_env (set_sepc 0x80000004) m |}.
Proof.
  cbv zeta.
  refine (proj1 (storage_swap_then_read (tgt := RV32)
                   (boot (reset_hart PRIV_VERSION_1_10_0 0 0)) CSR_SEPC
                   0x80000004 sepc set_sepc _ _ _ _)).
  - do 5 right. left. reflexivity.
  - vm_compute. discriminate.
  - vm_compute. split; [discriminate | reflexivity].
  - vm_compute. split; [discriminate | reflexivity].
Defined.

(** X2.  On a storage register, [csrrs] (new value all ones, the operand as
    write mask) ORs the operand into the register and [csrrc] (new value 0,
    the operand as write mask) clears the operand's bits; both return the
    old value. *)
Theorem storage_set_and_clear {tgt : target} {pmp : PmpModule}
  (m : machine) (csrno bits : Z) get set :
  In (csrno, get, set) storage_csrs ->
  get_field csrno 0x300 <= priv (env m) ->
  is_ulong tgt bits ->
  let old := get (env m) in
  (exists r,
     riscv_csrrw m csrno ulong_max bits = Some r
     /\ ret r = 0 /\ ret_value r = Some old
     /\ get (env (post r)) = Z.lor old bits)
  /\ (exists r,
        riscv_csrrw m csrno 0 bits = Some r
        /\ ret r = 0 /\ ret_value r = Some old
        /\ get (env (post r)) = Z.land old (Z.lnot bits)).
Proof.
  intros Hin Hpriv Hbits. cbv zeta.
  destruct (storage_csr_access csrno get set Hin)
    as (rd & wr & Hops & Hrw & _ & Hrd & Hwr).
  assert (Hget : forall x, get (env (with_env (set x) m)) = x).
  { intros x. cbn [storage_csrs In] in Hin.
    repeat (destruct Hin as [[= <- <- <-] | Hin]; [reflexivity|]).
    contradiction. }
  destruct (Z.eq_dec bits 0) as [-> | Hne].
  - assert (Hread : forall v, riscv_csrrw m csrno v 0
                     = Some {| ret := 0; ret_value := Some (get (env m));
                               post := m |}).
    { intros v.
      now rewrite (riscv_csrrw_read m csrno v _ rd 0 (Some (get (env m)))
                     Hops eq_refl eq_refl Hpriv (Hrd m)). }
    split; eexists; (split; [apply Hread|]); cbn [ret ret_value post];
      repeat split.
    + now rewrite Z.lor_0_r.
    + change (Z.lnot 0) with (-1). now rewrite Z.land_m1_r.
  - assert (Hcall : forall n,
      riscv_csrrw m csrno n bits
      = Some {| ret := 0; ret_value := Some (get (env m));
                post := with_env (set (merge_bits (get (env m)) n bits)) m |}).
    { intros n.
      now rewrite (riscv_csrrw_write m csrno n bits _ rd wr (get (env m))
                     0 _ Hops eq_refl eq_refl eq_refl Hpriv Hrw Hne
                     (Hrd m) (Hwr m _)). }
    split; eexists; (split; [apply Hcall|]); cbn [ret ret_value post];
      rewrite Hget; repeat split.
    + now apply merge_bits_set.
    + apply merge_bits_clear.
Qed.

Lemma storage_set_and_clear_witness :
  let m := with_env (set_mscratch 0xf0)
             (boot (reset_hart PRIV_VERSION_1_10_0 0 0)) in
  (exists r,
     riscv_csrrw (tgt := RV64) m CSR_MSCRATCH (ulong_max (tgt := RV64)) 0x0f
     = Some r
     /\ ret r = 0 /\ ret_value r = Some 0xf0
     /\ mscratch (env (post r)) = 0xff)
  /\ (exists r,
        riscv_csrrw (tgt := RV64) m CSR_MSCRATCH 0 0x30 = Some r
        /\ ret r = 0 /\ ret_value r = Some 0xf0
        /\ mscratch (env (post r)) = 0xc0).
Proof.
  cbv zeta. split.
  - refine (proj1 (storage_set_and_clear (tgt := RV64) _ CSR_MSCRATCH 0x0f
                     mscratch set_mscratch _ _ _)).
    + left. reflexivity.
    + vm_compute. discriminate.
    + vm_compute. split; [discriminate | reflexivity].
  - refine (proj2 (storage_set_and_clear (tgt := RV64) _ CSR_MSCRATCH 0x30
                     mscratch set_mscratch _ _ _)).
    + left. reflexivity.
    + vm_compute. discriminate.
    + vm_compute. split; [discriminate | reflexivity].
Defined.

(** ** Floating-point registers *)

Lemma lor_low_high a y n :
  0 <= n -> Z.lor (a mod 2 ^ n) (Z.shiftl y n) = a mod 2 ^ n + y * 2 ^ n.
Proof.
  intros Hn.
  assert (Hdisj : Z.land (a mod 2 ^ n) (Z.shiftl y n) = 0).
  { bitwise i Hi. destruct (Z.ltb_spec i n).
    - rewrite Z.shiftl_spec_low by assumption. apply andb_false_r.
    - rewrite Z.mod_pow2_bits_high by lia. reflexivity. }
  rewrite <- (Z.lxor_lor _ _ Hdisj), <- (Z.add_nocarry_lxor _ _ Hdisj).
  now rewrite Z.shiftl_mul_pow2.
Qed.

(** The two fields of [fcsr] and how they make up the value read. *)
Lemma fcsr_fields w :
  Z.shiftr (Z.land w FSR_AEXC) FSR_AEXC_SHIFT = Z.land w 0x1f
  /\ Z.shiftr (Z.land w FSR_RD) FSR_RD_SHIFT = Z.land (Z.shiftr w 5) 7
  /\ Z.lor (Z.shiftl (Z.land w 0x1f) FSR_AEXC_SHIFT)
           (Z.shiftl (Z.land (Z.shiftr w 5) 7) FSR_RD_SHIFT)
     = Z.land w 0xff.
Proof.
  split; [reflexivity|]. split.
  - now rewrite Z.shiftr_land.
  - change FSR_AEXC_SHIFT with 0. change FSR_RD_SHIFT with 5.
    rewrite Z.shiftl_0_r.
    change 0x1f with (Z.ones 5). change 7 with (Z.ones 3).
    change 0xff with (Z.ones 8).
    rewrite !Z.land_ones, Z.shiftr_div_pow2 by lia.
    rewrite lor_low_high by lia.
    change (2 ^ 8) with (2 ^ 5 * 2 ^ 3).
    rewrite Z.rem_mul_r by lia. lia.
Qed.

(** The FP registers are open to every privilege and writable. *)
Lemma fp_csr_gate {tgt : target} {pmp : PmpModule} (m : machine) csrno mask :
  In csrno [CSR_FFLAGS; CSR_FRM; CSR_FCSR] ->
  0 <= priv (env m) ->
  (truthy mask && (get_field csrno 0xC00 =? 3))
  || (priv (env m) <? get_field csrno 0x300) = false.
Proof.
  intros Hin Hpriv. apply gate_false.
  - cbn [In] in Hin.
    repeat (destruct Hin as [<- | Hin]; [exact Hpriv|]). contradiction.
  - right. cbn [In] in Hin.
    repeat (destruct Hin as [<- | Hin]; [discriminate|]). contradiction.
Qed.

(** X3.  With [mstatus.FS] not Off, a write of [fcsr] (any non-zero mask)
    returns the old composite [fflags | frm << 5], splits the merged value
    into [fflags] (bits 4:0) and [frm] (bits 7:5), and [fcsr] then reads as
    the low eight bits of the merged value. *)
Theorem fcsr_write_then_read {tgt : target} {pmp : PmpModule}
  (m : machine) (new_value write_mask : Z) :
  let old := Z.lor (fp_status (env m)) (Z.shiftl (frm (env m)) 5) in
  let w := merge_bits old new_value write_mask in
  Z.land (mstatus (env m)) MSTATUS_FS <> 0 ->
  0 <= priv (env m) ->
  write_mask <> 0 ->
  exists r,
    riscv_csrrw m CSR_FCSR new_value write_mask = Some r
    /\ ret r = 0
    /\ ret_value r = Some old
    /\ fp_status (env (post r)) = Z.land w 0x1f
    /\ frm (env (post r)) = Z.land (Z.shiftr w 5) 7
    /\ forall v,
         riscv_csrrw (post r) CSR_FCSR v 0
         = Some {| ret := 0; ret_value := Some (Z.land w 0xff);
                   post := post r |}.
Proof.
  cbv zeta. intros Hfs Hpriv Hmask.
  set (old := Z.lor (fp_status (env m)) (Z.shiftl (frm (env m)) 5)).
  set (w := merge_bits old new_value write_mask).
  destruct (fcsr_fields w) as (Hflags & Hrm & Hcomp).
  assert (Hon : truthy (Z.land (mstatus (env m)) MSTATUS_FS) = true)
    by now apply truthy_true.
  assert (Hops : csr_ops CSR_FCSR = Some (ops_rw read_fcsr write_fcsr))
    by table_element.
  assert (Hrd : read_fcsr m CSR_FCSR = (0, Some old)).
  { unfold read_fcsr. rewrite Hon. cbn [negb].
    unfold cpu_riscv_get_fflags. change FSR_AEXC_SHIFT with 0.
    now rewrite Z.shiftl_0_r. }
  set (m' :=
    with_env (cpu_riscv_set_fflags (Z.land w 0x1f))
      (with_env (set_frm (Z.land (Z.shiftr w 5) 7))
         (with_env (fun e => set_mstatus (Z.lor (mstatus e) MSTATUS_FS) e)
            m))).
  assert (Hwr : write_fcsr m CSR_FCSR w = (0, m')).
  { unfold write_fcsr. rewrite Hon. cbn [negb]. now rewrite Hflags, Hrm. }
  exists {| ret := 0; ret_value := Some old; post := m' |}.
  split.
  { exact (riscv_csrrw_write m CSR_FCSR new_value write_mask _ _ _ old 0 m'
             Hops eq_refl eq_refl eq_refl Hpriv ltac:(discriminate) Hmask
             Hrd Hwr). }
  cbn [ret ret_value post]. repeat split.
  intros v. unfold riscv_csrrw.
  rewrite (fp_csr_gate m' CSR_FCSR 0) by (cbn; tauto).
  rewrite Hops. cbn [op read write ops_rw truthy Z.eqb negb].
  unfold read_fcsr.
  replace (truthy (Z.land (mstatus (env m')) MSTATUS_FS)) with true.
  - cbn [negb Z.ltb Z.compare].
    change (cpu_riscv_get_fflags (env m')) with (Z.land w 0x1f).
    change (frm (env m')) with (Z.land (Z.shiftr w 5) 7).
    now rewrite Hcomp.
  - symmetry. apply truthy_true.
    change (mstatus (env m')) with (Z.lor (mstatus (env m)) MSTATUS_FS).
    rewrite land_lor_inside. discriminate.
Qed.

Lemma fcsr_write_then_read_witness :
  let m :=
    with_env (set_mstatus MSTATUS_FS)
      (boot (reset_hart PRIV_VERSION_1_10_0 0 0)) in
  exists r,
    riscv_csrrw (tgt := RV64) m CSR_FCSR 0x1e5 (Z.ones 64) = Some r
    /\ fp_status (env (post r)) = 0x05
    /\ frm (env (post r)) = 7
    /\ riscv_csrrw (tgt := RV64) (post r) CSR_FCSR 0 0
       = Some {| ret := 0; ret_value := Some 0xe5; post := post r |}.
Proof.
  cbv zeta.
  destruct (fcsr_write_then_read (tgt := RV64)
              (with_env (set_mstatus MSTATUS_FS)
                 (boot (reset_hart PRIV_VERSION_1_10_0 0 0)))
              0x1e5 (Z.ones 64))
    as (r & Hcall & _ & _ & Hflags & Hrm & Hread).
  - discriminate.
  - discriminate.
  - discriminate.
  - exists r. split; [exact Hcall|]. split; [exact Hflags|].
    split; [exact Hrm | exact (Hread 0)].
Defined.

(** X4.  The three FP registers are refused, whatever the privilege and the
    operands, while [mstatus.FS] is Off; with FS not Off a read (zero mask)
    succeeds and dirties nothing, and a write (non-zero mask) succeeds and
    ORs the FS field into [mstatus], making FS Dirty, without touching any
    other bit of [mstatus], SD included. *)
Theorem fp_access_follows_FS {tgt : target} {pmp : PmpModule}
  (m : machine) (csrno new_value write_mask : Z) :
  In csrno [CSR_FFLAGS; CSR_FRM; CSR_FCSR] ->
  0 <= priv (env m) ->
  (Z.land (mstatus (env m)) MSTATUS_FS = 0 ->
   riscv_csrrw m csrno new_value write_mask
   = Some {| ret := ILLEGAL_CSR; ret_value := None; post := m |})
  /\ (Z.land (mstatus (env m)) MSTATUS_FS <> 0 ->
      exists r,
        riscv_csrrw m csrno new_value write_mask = Some r
        /\ ret r = 0
        /\ (write_mask = 0 -> post r = m)
        /\ (write_mask <> 0 ->
            mstatus (env (post r)) = Z.lor (mstatus (env m)) MSTATUS_FS
            /\ get_field (mstatus (env (post r))) MSTATUS_FS = EXT_DIRTY
            /\ events (post r) = events m)).
Proof.
  intros Hin Hpriv.
  assert (Hdirty : forall x,
            get_field (Z.lor x MSTATUS_FS) MSTATUS_FS = EXT_DIRTY).
  { intros x. unfold get_field. now rewrite land_lor_inside. }
  split.
  - intros Hoff. apply truthy_false in Hoff. unfold riscv_csrrw.
    rewrite (fp_csr_gate m csrno write_mask Hin Hpriv).
    cbn [In] in Hin.
    destruct Hin as [<- | [<- | [<- | []]]].
    + replace (csr_ops CSR_FFLAGS) with (Some (ops_rw read_fflags write_fflags))
        by (symmetry; table_element).
      cbn [op read ops_rw]. unfold read_fflags. rewrite Hoff. reflexivity.
    + replace (csr_ops CSR_FRM) with (Some (ops_rw read_frm write_frm))
        by (symmetry; table_element).
      cbn [op read ops_rw]. unfold read_frm. rewrite Hoff. reflexivity.
    + replace (csr_ops CSR_FCSR) with (Some (ops_rw read_fcsr write_fcsr))
        by (symmetry; table_element).
      cbn [op read ops_rw]. unfold read_fcsr. rewrite Hoff. reflexivity.
  - intros Hfs. apply truthy_true in Hfs. unfold riscv_csrrw.
    assert (Hz : truthy 0 = false) by reflexivity.
    rewrite (fp_csr_gate m csrno write_mask Hin Hpriv).
    cbn [In] in Hin.
    destruct Hin as [<- | [<- | [<- | []]]].
    + replace (csr_ops CSR_FFLAGS) with (Some (ops_rw read_fflags write_fflags))
        by (symmetry; table_element).
      cbn [op read write ops_rw]. unfold read_fflags, write_fflags.
      rewrite Hfs. cbn [negb Z.ltb Z.compare].
      destruct (Z.eqb_spec write_mask 0) as [-> | Hne].
      * rewrite Hz. eexists. split; [reflexivity|]. cbn [ret post].
        repeat split; congruence.
      * rewrite (proj2 (truthy_true _) Hne). cbn [Z.ltb Z.compare].
        eexists. split; [reflexivity|]. cbn [ret post].
        split; [reflexivity|]. split; [congruence|]. intros _.
        split; [reflexivity|]. split; [apply Hdirty | reflexivity].
    + replace (csr_ops CSR_FRM) with (Some (ops_rw read_frm write_frm))
        by (symmetry; table_element).
      cbn [op read write ops_rw]. unfold read_frm, write_frm.
      rewrite Hfs. cbn [negb Z.ltb Z.compare].
      destruct (Z.eqb_spec write_mask 0) as [-> | Hne].
      * rewrite Hz. eexists. split; [reflexivity|]. cbn [ret post].
        repeat split; congruence.
      * rewrite (proj2 (truthy_true _) Hne). cbn [Z.ltb Z.compare].
        eexists. split; [reflexivity|]. cbn [ret post].
        split; [reflexivity|]. split; [congruence|]. intros _.
        split; [reflexivity|]. split; [apply Hdirty | reflexivity].
    + replace (csr_ops CSR_FCSR) with (Some (ops_rw read_fcsr write_fcsr))
        by (symmetry; table_element).
      cbn [op read write ops_rw]. unfold read_fcsr, write_fcsr.
      rewrite Hfs. cbn [negb Z.ltb Z.compare].
      destruct (Z.eqb_spec write_mask 0) as [-> | Hne].
      * rewrite Hz. eexists. split; [reflexivity|]. cbn [ret post].
        repeat split; congruence.
      * rewrite (proj2 (truthy_true _) Hne). cbn [Z.ltb Z.compare].
        eexists. split; [reflexivity|]. cbn [ret post].
        split; [reflexivity|]. split; [congruence|]. intros _.
        split; [reflexivity|]. split; [apply Hdirty | reflexivity].
Qed.

Lemma fp_access_follows_FS_witness :
  let off := boot (reset_hart PRIV_VERSION_1_10_0 0 0) in
  let initial := with_env (set_mstatus 0x2000) off in
  riscv_csrrw (tgt := RV64) off CSR_FRM 1 (Z.ones 64)
  = Some {| ret := ILLEGAL_CSR; ret_value := None; post := off |}
  /\ exists r,
       riscv_csrrw (tgt := RV64) initial CSR_FRM 1 (Z.ones 64) = Some r
       /\ ret r = 0
       /\ mstatus (env (post r)) = MSTATUS_FS.
Proof.
  cbv zeta. split.
  - refine (proj1 (fp_access_follows_FS (tgt := RV64)
                     (boot (reset_hart PRIV_VERSION_1_10_0 0 0))
                     CSR_FRM 1 (Z.ones 64) _ _) _).
    + right. left. reflexivity.
    + discriminate.
    + reflexivity.
  - destruct (proj2 (fp_access_follows_FS (tgt := RV64)
                       (with_env (set_mstatus 0x2000)
                          (boot (reset_hart PRIV_VERSION_1_10_0 0 0)))
                       CSR_FRM 1 (Z.ones 64)
                       (or_intror (or_introl eq_refl))
                       ltac:(discriminate)) ltac:(discriminate))
      as (r & Hcall & Hret & _ & Hw).
    exists r. split; [exact Hcall|]. split; [exact Hret|].
    exact (proj1 (Hw ltac:(discriminate))).
Defined.

(** ** Trap vectors and masked registers *)

Lemma align4 w : Z.land w 3 = 0 -> Z.shiftl (Z.shiftr w 2) 2 = w.
Proof.
  intros H. rewrite <- Z.ldiff_ones_r, Z.ldiff_land by lia.
  change (Z.ones 2) with 3. bitwise i Hi. bit_hyp H i. bool_cases.
Qed.



(** X5.  A write of [mtvec] or [stvec] (any non-zero mask) by a caller
    privileged for it always succeeds and returns the old base; the merged
    value is stored when its two low bits are zero, and is dropped, the
    register keeping its old value, when they are not. *)
Theorem trap_vector_write {tgt : target} {pmp : PmpModule}
  (m : machine) (csrno new_value write_mask : Z) get set :
  In (csrno, get, set) vector_csrs ->
  get_field csrno 0x300 <= priv (env m) ->
  write_mask <> 0 ->
  let old := get (env m) in
  let w := merge_bits old new_value write_mask in
  riscv_csrrw m csrno new_value write_mask
  = Some {| ret := 0; ret_value := Some old;
            post := if Z.land w 3 =? 0 then with_env (set w) m else m |}.
Proof.
  intros Hin Hpriv Hmask. cbv zeta.
  set (w := merge_bits (get (env m)) new_value write_mask).
  cbn [vector_csrs In] in Hin.
  destruct Hin as [[= <- <- <-] | [[= <- <- <-] | []]].
  - rewrite (riscv_csrrw_write m CSR_MTVEC new_value write_mask
               (ops_rw read_mtvec write_mtvec) read_mtvec write_mtvec
               (mtvec (env m)) 0
               (if Z.land w 3 =? 0 then with_env (set_mtvec w) m else m)
               ltac:(table_element) eq_refl eq_refl eq_refl Hpriv
               ltac:(discriminate) Hmask eq_refl).
    + reflexivity.
    + fold w. unfold write_mtvec. destruct (Z.eqb_spec (Z.land w 3) 0) as [E|E].
      * now rewrite (align4 w E).
      * reflexivity.
  - rewrite (riscv_csrrw_write m CSR_STVEC new_value write_mask
               (ops_rw read_stvec write_stvec) read_stvec write_stvec
               (stvec (env m)) 0
               (if Z.land w 3 =? 0 then with_env (set_stvec w) m else m)
               ltac:(table_element) eq_refl eq_refl eq_refl Hpriv
               ltac:(discriminate) Hmask eq_refl).
    + reflexivity.
    + fold w. unfold write_stvec. destruct (Z.eqb_spec (Z.land w 3) 0) as [E|E].
      * now rewrite (align4 w E).
      * reflexivity.
Qed.

Lemma trap_vector_write_witness :
  let m := with_env (set_mtvec 0x1000)
             (boot (reset_hart PRIV_VERSION_1_10_0 0 0)) in
  riscv_csrrw (tgt := RV64) m CSR_MTVEC 0x80000001 (Z.ones 64)
  = Some {| ret := 0; ret_value := Some 0x1000; post := m |}
  /\ riscv_csrrw (tgt := RV64) m CSR_MTVEC 0x80000000 (Z.ones 64)
     = Some {| ret := 0; ret_value := Some 0x1000;
               post := with_env (set_mtvec 0x80000000) m |}.
Proof.
  cbv zeta. split.
  - refine (trap_vector_write (tgt := RV64) _ CSR_MTVEC 0x80000001
              (Z.ones 64) mtvec set_mtvec _ _ _).
    + left. reflexivity.
    + vm_compute. discriminate.
    + discriminate.
  - refine (trap_vector_write (tgt := RV64) _ CSR_MTVEC 0x80000000
              (Z.ones 64) mtvec set_mtvec _ _ _).
    + left. reflexivity.
    + vm_compute. discriminate.
    + discriminate.
Defined.

(** X6.  [mideleg], [medeleg] and [mie] are written under a constant mask
    (the delegable interrupts, the delegable exceptions, all interrupts):
    a write in machine mode returns the old word and replaces exactly the
    bits of the constant mask by those of the merged value, so that bits
    outside the constant mask keep their value and bits inside it and
    inside the write mask take the new value. *)
Theorem masked_register_write {tgt : target} {pmp : PmpModule}
  (m : machine) (csrno new_value write_mask : Z) get set k :
  In (csrno, get, set, k) masked_csrs ->
  PRV_M <= priv (env m) ->
  write_mask <> 0 ->
  let old := get (env m) in
  let w := merge_bits old new_value write_mask in
  exists r,
    riscv_csrrw m csrno new_value write_mask = Some r
    /\ ret r = 0
    /\ ret_value r = Some old
    /\ post r = with_env (set (merge_bits old w k)) m
    /\ get (env (post r)) = merge_bits old new_value (Z.land write_mask k)
    /\ Z.land (get (env (post r))) (Z.lnot k) = Z.land old (Z.lnot k)
    /\ Z.land (get (env (post r))) (Z.land write_mask k)
       = Z.land new_value (Z.land write_mask k).
Proof.
  intros Hin Hpriv Hmask. cbv zeta.
  assert (Hbits : forall old,
            merge_bits old (merge_bits old new_value write_mask) k
            = merge_bits old new_value (Z.land write_mask k)).
  { intros old. unfold merge_bits. bitwise i Hi. bool_cases. }
  assert (Hout : forall old,
            Z.land (merge_bits old new_value (Z.land write_mask k)) (Z.lnot k)
            = Z.land old (Z.lnot k)).
  { intros old. unfold merge_bits. bitwise i Hi. bool_cases. }
  assert (Hin' : forall old,
            Z.land (merge_bits old new_value (Z.land write_mask k))
              (Z.land write_mask k)
            = Z.land new_value (Z.land write_mask k)).
  { intros old. unfold merge_bits. bitwise i Hi. bool_cases. }
  cbn [masked_csrs In] in Hin.
  destruct Hin as [[= <- <- <- <-] | [[= <- <- <- <-] | [[= <- <- <- <-] | []]]].
  - eexists. split.
    + exact (riscv_csrrw_write m CSR_MIDELEG new_value write_mask
               (ops_rw read_mideleg write_mideleg) read_mideleg write_mideleg
               (mideleg (env m)) 0 _
               ltac:(table_element) eq_refl eq_refl eq_refl Hpriv
               ltac:(discriminate) Hmask eq_refl eq_refl).
    + cbn [Z.ltb Z.compare ret ret_value post].
      split; [reflexivity|]. split; [reflexivity|]. split; [reflexivity|].
      cbn [env with_env mideleg set_mideleg].
      fold (merge_bits (mideleg (env m))
              (merge_bits (mideleg (env m)) new_value write_mask)
              delegable_ints).
      rewrite Hbits. split; [reflexivity|]. split; [apply Hout | apply Hin'].
  - eexists. split.
    + exact (riscv_csrrw_write m CSR_MEDELEG new_value write_mask
               (ops_rw read_medeleg write_medeleg) read_medeleg write_medeleg
               (medeleg (env m)) 0 _
               ltac:(table_element) eq_refl eq_refl eq_refl Hpriv
               ltac:(discriminate) Hmask eq_refl eq_refl).
    + cbn [Z.ltb Z.compare ret ret_value post].
      split; [reflexivity|]. split; [reflexivity|]. split; [reflexivity|].
      cbn [env with_env medeleg set_medeleg].
      fold (merge_bits (medeleg (env m))
              (merge_bits (medeleg (env m)) new_value write_mask)
              delegable_excps).
      rewrite Hbits. split; [reflexivity|]. split; [apply Hout | apply Hin'].
  - eexists. split.
    + exact (riscv_csrrw_write m CSR_MIE new_value write_mask
               (ops_rw read_mie write_mie) read_mie write_mie
               (mie (env m)) 0 _
               ltac:(table_element) eq_refl eq_refl eq_refl Hpriv
               ltac:(discriminate) Hmask eq_refl eq_refl).
    + cbn [Z.ltb Z.compare ret ret_value post].
      split; [reflexivity|]. split; [reflexivity|]. split; [reflexivity|].
      cbn [env with_env mie set_mie].
      fold (merge_bits (mie (env m))
              (merge_bits (mie (env m)) new_value write_mask) all_ints).
      rewrite Hbits. split; [reflexivity|]. split; [apply Hout | apply Hin'].
Qed.

Lemma masked_register_write_witness :
  let m := boot (reset_hart PRIV_VERSION_1_10_0 0 0) in
  exists r,
    riscv_csrrw (tgt := RV64) m CSR_MIDELEG (Z.ones 64) (Z.ones 64) = Some r
    /\ ret r = 0
    /\ ret_value r = Some 0
    /\ mideleg (env (post r)) = 0x222.
Proof.
  cbv zeta.
  destruct (masked_register_write (tgt := RV64)
              (boot (reset_hart PRIV_VERSION_1_10_0 0 0)) CSR_MIDELEG
              (Z.ones 64) (Z.ones 64) mideleg set_mideleg delegable_ints)
    as (r & Hcall & Hret & Hval & _ & Hnew & _).
  - left. reflexivity.
  - discriminate.
  - discriminate.
  - exists r. split; [exact Hcall|]. split; [exact Hret|].
    split; [exact Hval | exact Hnew].
Defined.

(** ** What every access keeps *)

(** Proves a property of the write accessor and the combined accessor of
    every initializer, given a tactic for each. *)
Ltac each_writer on_write on_op :=
  each_entry ltac:(
    unfold ops_rw, ops_r, ops_op; split;
    [ intros wr Hwr; cbn [write] in Hwr; try discriminate Hwr;
      injection Hwr as <-; intros m csrno v; on_write
    | intros f Hf; cbn [op] in Hf; try discriminate Hf;
      injection Hf as <-; intros m csrno n w; on_op ]).

(** Replaces a call of [write_mstatus] by its shape. *)
Ltac mstatus_shape m' Henv Hm' :=
  unfold write_sstatus;
  match goal with
  | |- context [@write_mstatus ?t _ ?a ?b ?c] =>
      destruct (write_mstatus_shape (tgt := t) a b c)
        as (m' & -> & Henv & Hm')
  end.

(** [write_satp], with the tests of the two privileged versions told
    apart. *)
Lemma write_satp_cases {tgt : target} {pmp : PmpModule} (m : machine)
  csrno val :
  write_satp m csrno val
  = (0,
     if negb (riscv_feature (env m) RISCV_FEATURE_MMU) then m
     else if priv_ver (env m) <=? PRIV_VERSION_1_09_1 then
       if truthy (Z.lxor val (sptbr (env m))) then
         with_env
           (set_sptbr
              (Z.land val
                 (Z.shiftl 1 (TARGET_PHYS_ADDR_SPACE_BITS tgt - PGSHIFT) - 1)))
           (tlb_flush m)
       else m
     else if priv_ver (env m) >=? PRIV_VERSION_1_10_0 then
       if truthy (validate_vm (env m) (get_field val (SATP_MODE tgt)))
          && truthy (Z.land (Z.lxor val (satp (env m)))
                       (lor_all [SATP_MODE tgt; SATP_ASID tgt; SATP_PPN tgt]))
       then with_env (set_satp val) (tlb_flush m)
       else m
     else m).
Proof.
  unfold write_satp.
  destruct (negb (riscv_feature (env m) RISCV_FEATURE_MMU)); [reflexivity|].
  destruct (Z.leb_spec (priv_ver (env m)) PRIV_VERSION_1_09_1) as [H9 | H9].
  - assert (H10 : (priv_ver (env m) >=? PRIV_VERSION_1_10_0) = false).
    { rewrite Z.geb_leb. apply Z.leb_gt.
      unfold PRIV_VERSION_1_09_1, PRIV_VERSION_1_10_0 in *. lia. }
    cbn [andb].
    destruct (truthy (Z.lxor val (sptbr (env m)))).
    + cbn [env with_env tlb_flush emit priv_ver set_sptbr].
      rewrite H10. reflexivity.
    + rewrite H10. reflexivity.
  - cbn [andb].
    destruct (priv_ver (env m) >=? PRIV_VERSION_1_10_0); cbn [andb];
      [|reflexivity].
    destruct (truthy (validate_vm (env m) (get_field val (SATP_MODE tgt))));
      cbn [andb]; [|reflexivity].
    destruct (truthy _); reflexivity.
Qed.














(** ** The status of a call *)

Ltac unfold_readers :=
  unfold read_fflags, read_frm, read_fcsr, read_zero_counter, read_instret,
    read_instreth, read_zero, read_mhartid, read_mstatus, read_misa,
    read_medeleg, read_mideleg, read_mie, read_mtvec, read_mcounteren,
    read_mscounteren, read_mucounteren, read_mscratch, read_mepc, read_mcause,
    read_mbadaddr, read_sstatus, read_sie, read_stvec, read_scounteren,
    read_sscratch, read_sepc, read_scause, read_sbadaddr, read_satp,
    read_pmpcfg, read_pmpaddr.

Lemma table_returns_ok {tgt : target} {pmp : PmpModule} :
  Forall returns_ok (map snd csr_ops_init).
Proof.
  each_entry ltac:(
    unfold ops_rw, ops_r, ops_op; split; [|split];
    [ intros rd Hrd; cbn [read] in Hrd; try discriminate Hrd;
      (injection Hrd as <-; intros m csrno; unfold_readers; split_ifs;
       first [left; reflexivity | right; eexists; reflexivity])
    | intros wr Hwr; cbn [write] in Hwr; try discriminate Hwr;
      (injection Hwr as <-; intros m csrno v;
       first
         [ left; apply write_mstatus_ret
         | left; unfold write_sstatus; apply write_mstatus_ret
         | unfold_writers; split_ifs;
           first [left; reflexivity | right; reflexivity] ])
    | intros f Hf; cbn [op] in Hf; try discriminate Hf;
      (injection Hf as <-; intros m csrno n w;
       unfold rmw_sip; rewrite rmw_mip_effect; cbn [ret ret_value];
       split; [reflexivity | eexists; reflexivity]) ]).
Qed.

(** X10.  Within the bounds of [csr_ops], CSR numbers 0 .. 0xffe, every
    call of [riscv_csrrw] is defined, whatever the privilege mode and the
    operands, and ends in one of two ways: it returns 0 and has stored the
    old value through [ret_value], or it returns -1 and has stored nothing.
    No other status is returned, and [old_value] is never used before a read
    accessor has set it. *)
Theorem riscv_csrrw_defined {tgt : target} {pmp : PmpModule}
  (m : machine) (csrno new_value write_mask : Z) :
  0 <= csrno < csr_ops_len ->
  exists r,
    riscv_csrrw m csrno new_value write_mask = Some r
    /\ ((ret r = 0 /\ exists old_value, ret_value r = Some old_value)
        \/ (ret r = ILLEGAL_CSR /\ ret_value r = None)).
Proof.
  intros Hb. unfold ILLEGAL_CSR.
  destruct (proj2 (csr_ops_bounds csrno) Hb) as [ops Hops].
  assert (Hno : returns_ok no_ops)
    by (split; [|split]; intros ? [=]).
  destruct (csr_ops_forall _ Hno table_returns_ok _ _ Hops)
    as (Hread & Hwrite & Hop).
  unfold riscv_csrrw. rewrite Hops.
  destruct ((truthy write_mask && (get_field csrno 0xC00 =? 3))
            || (priv (env m) <? get_field csrno 0x300)).
  { eexists. split; [reflexivity|]. right. now split. }
  destruct (op ops) as [f|] eqn:Ef.
  { eexists. split; [reflexivity|]. left. exact (Hop f eq_refl m csrno _ _). }
  destruct (read ops) as [rd|] eqn:Erd.
  2:{ eexists. split; [reflexivity|]. right. now split. }
  destruct (Hread rd eq_refl m csrno) as [-> | [x ->]].
  { eexists. split; [reflexivity|]. right. now split. }
  cbn [Z.ltb Z.compare].
  destruct (truthy write_mask).
  2:{ eexists. split; [reflexivity|]. left. split; [reflexivity | now exists x]. }
  destruct (write ops) as [wr|] eqn:Ewr.
  2:{ eexists. split; [reflexivity|]. left. split; [reflexivity | now exists x]. }
  destruct (Hwrite wr eq_refl m csrno
              (Z.lor (Z.land x (Z.lnot write_mask))
                     (Z.land new_value write_mask))) as [H | H];
    destruct (wr m csrno _) as [r0 m']; cbn [fst] in H; subst r0;
    cbn [Z.ltb Z.compare];
    (eexists; split; [reflexivity|]).
  - left. split; [reflexivity | now exists x].
  - right. now split.
Qed.

Lemma riscv_csrrw_defined_witness :
  exists r,
    riscv_csrrw (tgt := RV32)
      (with_env (set_priv PRV_U) (boot (reset_hart PRIV_VERSION_1_10_0 0 0)))
      CSR_CYCLE 0 0 = Some r
    /\ ((ret r = 0 /\ exists old_value, ret_value r = Some old_value)
        \/ (ret r = ILLEGAL_CSR /\ ret_value r = None)).
Proof.
  apply (riscv_csrrw_defined (tgt := RV32)
           (with_env (set_priv PRV_U)
              (boot (reset_hart PRIV_VERSION_1_10_0 0 0)))
           CSR_CYCLE 0 0).
  vm_compute. split; [discriminate | reflexivity].
Defined.

(** ** Counter-enable registers *)

(** X11.  The counter-enable registers by privileged version: [mcounteren]
    and [scounteren] are refused below 1.10, the legacy [mscounteren] and
    [mucounteren] are refused above 1.9.1 (so a version strictly between the
    two has none of them).  Where the register exists, an access by a caller
    privileged for it returns the old word and, with a non-zero mask, stores
    the merged value; [mcounteren] and [mscounteren] share the field
    [mcounteren], [scounteren] and [mucounteren] the field [scounteren]. *)
Theorem counteren_access {tgt : target} {pmp : PmpModule}
  (m : machine) (csrno new_value write_mask : Z) get set v1_10 :
  In (csrno, get, set, v1_10) counteren_csrs ->
  get_field csrno 0x300 <= priv (env m) ->
  riscv_csrrw m csrno new_value write_mask
  = Some (if counteren_exists v1_10 (priv_ver (env m))
          then {| ret := 0; ret_value := Some (get (env m));
                  post :=
                    if truthy write_mask
                    then with_env
                           (set (merge_bits (get (env m)) new_value
                                   write_mask)) m
                    else m |}
          else {| ret := ILLEGAL_CSR; ret_value := None; post := m |}).
Proof.
  intros Hin Hpriv. cbn [counteren_csrs In] in Hin.
  unfold riscv_csrrw, counteren_exists, ILLEGAL_CSR.
  destruct Hin as [[= <- <- <- <-] | [[= <- <- <- <-] | [[= <- <- <- <-]
                  | [[= <- <- <- <-] | []]]]];
    match goal with
    | |- context [get_field ?c 0xC00] =>
        assert (Hrw : get_field c 0xC00 <> 3) by discriminate;
        rewrite (gate_false m c write_mask Hpriv (or_intror Hrw))
    end.
  - replace (csr_ops CSR_MCOUNTEREN)
      with (Some (ops_rw read_mcounteren write_mcounteren))
      by (symmetry; table_element).
    cbn [op read write ops_rw]. unfold read_mcounteren, write_mcounteren.
    destruct (priv_ver (env m) <? PRIV_VERSION_1_10_0); [reflexivity|].
    destruct (truthy write_mask); reflexivity.
  - replace (csr_ops CSR_SCOUNTEREN)
      with (Some (ops_rw read_scounteren write_scounteren))
      by (symmetry; table_element).
    cbn [op read write ops_rw]. unfold read_scounteren, write_scounteren.
    destruct (priv_ver (env m) <? PRIV_VERSION_1_10_0); [reflexivity|].
    destruct (truthy write_mask); reflexivity.
  - replace (csr_ops CSR_MSCOUNTEREN)
      with (Some (ops_rw read_mscounteren write_mscounteren))
      by (symmetry; table_element).
    cbn [op read write ops_rw]. unfold read_mscounteren, write_mscounteren.
    destruct (priv_ver (env m) >? PRIV_VERSION_1_09_1); [reflexivity|].
    destruct (truthy write_mask); reflexivity.
  - replace (csr_ops CSR_MUCOUNTEREN)
      with (Some (ops_rw read_mucounteren write_mucounteren))
      by (symmetry; table_element).
    cbn [op read write ops_rw]. unfold read_mucounteren, write_mucounteren.
    destruct (priv_ver (env m) >? PRIV_VERSION_1_09_1); [reflexivity|].
    destruct (truthy write_mask); reflexivity.
Qed.

Lemma counteren_access_witness :
  let m := boot (reset_hart PRIV_VERSION_1_09_1 0 0) in
  riscv_csrrw (tgt := RV64) m CSR_MSCOUNTEREN 7 (Z.ones 64)
  = Some {| ret := 0; ret_value := Some 0;
            post := with_env (set_mcounteren 7) m |}
  /\ riscv_csrrw (tgt := RV64) m CSR_MCOUNTEREN 7 (Z.ones 64)
     = Some {| ret := ILLEGAL_CSR; ret_value := None; post := m |}.
Proof.
  cbv zeta. split.
  - refine (counteren_access (tgt := RV64) _ CSR_MSCOUNTEREN 7 (Z.ones 64)
              mcounteren set_mcounteren false _ _).
    + do 2 right. left. reflexivity.
    + vm_compute. discriminate.
  - refine (counteren_access (tgt := RV64) _ CSR_MCOUNTEREN 7 (Z.ones 64)
              mcounteren set_mcounteren true _ _).
    + left. reflexivity.
    + vm_compute. discriminate.
Defined.

(** ** Address translation *)

Lemma truthy_lxor a b : truthy (Z.lxor a b) = negb (a =? b).
Proof.
  unfold truthy. f_equal.
  destruct (Z.eqb_spec a b) as [-> | Hne].
  - now rewrite Z.lxor_nilpotent.
  - apply Z.eqb_neq. intros H. apply Z.lxor_eq in H. contradiction.
Qed.

(** X12.  [satp] outside version 1.10.  Without an MMU the register reads
    as 0 and every write is ignored, with status 0.  With an MMU under
    version 1.9.1 the register is [sptbr]: a write whose merged value
    differs from [sptbr] requests a TLB flush and then stores the value cut
    to the width of a physical page number; a write of the value already
    there does nothing. *)
Theorem satp_bare_and_legacy {tgt : target} {pmp : PmpModule}
  (m : machine) (new_value write_mask : Z) :
  PRV_S <= priv (env m) ->
  (riscv_feature (env m) RISCV_FEATURE_MMU = false ->
   riscv_csrrw m CSR_SATP new_value write_mask
   = Some {| ret := 0; ret_value := Some 0; post := m |})
  /\ (riscv_feature (env m) RISCV_FEATURE_MMU = true ->
      priv_ver (env m) <= PRIV_VERSION_1_09_1 ->
      write_mask <> 0 ->
      let old := sptbr (env m) in
      let w := merge_bits old new_value write_mask in
      riscv_csrrw m CSR_SATP new_value write_mask
      = Some {| ret := 0; ret_value := Some old;
                post :=
                  if w =? old then m
                  else with_env
                         (set_sptbr
                            (Z.land w
                               (Z.ones (TARGET_PHYS_ADDR_SPACE_BITS tgt
                                        - PGSHIFT))))
                         (tlb_flush m) |}).
Proof.
  intros Hpriv.
  assert (Hops : csr_ops CSR_SATP = Some (ops_rw read_satp write_satp))
    by table_element.
  assert (Hgate : get_field CSR_SATP 0x300 <= priv (env m)).
  { replace (get_field CSR_SATP 0x300) with PRV_S by reflexivity.
    exact Hpriv. }
  assert (Hrw : get_field CSR_SATP 0xC00 <> 3) by discriminate.
  split.
  - intros Hmmu. unfold riscv_csrrw.
    rewrite (gate_false m CSR_SATP write_mask Hgate (or_intror Hrw)).
    rewrite Hops. cbn [op read write ops_rw].
    unfold read_satp, write_satp. rewrite Hmmu. cbn [negb Z.ltb Z.compare].
    destruct (truthy write_mask); reflexivity.
  - intros Hmmu Hver Hmask. cbv zeta.
    set (w := merge_bits (sptbr (env m)) new_value write_mask).
    assert (Hrd : read_satp m CSR_SATP = (0, Some (sptbr (env m)))).
    { unfold read_satp. rewrite Hmmu. cbn [negb].
      replace (priv_ver (env m) >=? PRIV_VERSION_1_10_0) with false;
        [reflexivity|].
      symmetry. rewrite Z.geb_leb. apply Z.leb_gt.
      unfold PRIV_VERSION_1_09_1, PRIV_VERSION_1_10_0 in *. lia. }
    rewrite (riscv_csrrw_write m CSR_SATP new_value write_mask _ _ _
               (sptbr (env m)) 0 _ Hops eq_refl eq_refl eq_refl Hgate
               Hrw Hmask Hrd (write_satp_cases m CSR_SATP _)).
    fold w. cbn [Z.ltb Z.compare]. rewrite Hmmu. cbn [negb].
    apply Z.leb_le in Hver. rewrite Hver, truthy_lxor.
    destruct (w =? sptbr (env m)); cbn [negb]; [reflexivity|].
    unfold Z.ones. rewrite <- Z.sub_1_r. reflexivity.
Qed.

Lemma satp_bare_and_legacy_witness :
  let bare := boot (reset_hart PRIV_VERSION_1_10_0 0 0) in
  let legacy := boot (reset_hart PRIV_VERSION_1_09_1 0 1) in
  riscv_csrrw (tgt := RV64) bare CSR_SATP 0x1234 (Z.ones 64)
  = Some {| ret := 0; ret_value := Some 0; post := bare |}
  /\ riscv_csrrw (tgt := RV64) legacy CSR_SATP (Z.ones 64) (Z.ones 64)
     = Some {| ret := 0; ret_value := Some 0;
               post := with_env (set_sptbr (Z.ones 38)) (tlb_flush legacy) |}.
Proof.
  cbv zeta. split.
  - refine (proj1 (satp_bare_and_legacy (tgt := RV64) _ 0x1234 (Z.ones 64) _)
              _).
    + discriminate.
    + reflexivity.
  - refine (proj2 (satp_bare_and_legacy (tgt := RV64) _ (Z.ones 64)
                     (Z.ones 64) _) _ _ _).
    + discriminate.
    + reflexivity.
    + discriminate.
    + discriminate.
Defined.

(** ** TLB flushes of [mstatus] *)

Lemma eqb_land_lxor x y f :
  truthy (Z.land (Z.lxor x y) f) = negb (Z.land x f =? Z.land y f).
Proof.
  unfold truthy. f_equal.
  destruct (Z.eqb_spec (Z.land x f) (Z.land y f)) as [E | E].
  - apply Z.eqb_eq. now apply land_lxor_zero.
  - apply Z.eqb_neq. intros H. apply land_lxor_zero in H. contradiction.
Qed.

(** X13.  A machine-mode write of [mstatus] under version 1.9.1 or 1.10
    requests a TLB flush exactly when the merged value differs from the old
    [mstatus] in MXR, MPP, MPRV or SUM (or VM, under 1.9.1).  The test is
    made on the value asked for, before unsupported values of MPP are
    discarded and whether VM is valid or not, and the flush comes before the
    store. *)
Theorem mstatus_write_flushes {tgt : target} {pmp : PmpModule}
  (m : machine) (new_value write_mask : Z) :
  PRV_M <= priv (env m) ->
  write_mask <> 0 ->
  priv_ver (env m) <= PRIV_VERSION_1_09_1
  \/ PRIV_VERSION_1_10_0 <= priv_ver (env m) ->
  let old := mstatus (env m) in
  let w := merge_bits old new_value write_mask in
  exists r,
    riscv_csrrw m CSR_MSTATUS new_value write_mask = Some r
    /\ ret r = 0
    /\ ret_value r = Some old
    /\ events (post r)
       = events m
         ++ (if Z.land w (vm_fields (env m)) =? Z.land old (vm_fields (env m))
             then [] else [EvTlbFlush (env m)]).
Proof.
  intros Hpriv Hmask Hver. cbv zeta.
  set (w := merge_bits (mstatus (env m)) new_value write_mask).
  assert (Hops : csr_ops CSR_MSTATUS = Some (ops_rw read_mstatus write_mstatus))
    by table_element.
  destruct (write_mstatus m CSR_MSTATUS w) as [r0 m'] eqn:Hw.
  assert (Hr0 : r0 = 0).
  { pose proof (write_mstatus_ret m CSR_MSTATUS w) as H.
    rewrite Hw in H. exact H. }
  subst r0.
  exists {| ret := 0; ret_value := Some (mstatus (env m)); post := m' |}.
  split.
  { assert (Hrw : get_field CSR_MSTATUS 0xC00 <> 3) by discriminate.
    exact (riscv_csrrw_write m CSR_MSTATUS new_value write_mask _ _ _
             (mstatus (env m)) 0 m' Hops eq_refl eq_refl eq_refl Hpriv
             Hrw Hmask eq_refl Hw). }
  cbn [ret ret_value post]. split; [reflexivity|]. split; [reflexivity|].
  replace m' with (snd (write_mstatus m CSR_MSTATUS w)) by now rewrite Hw.
  unfold write_mstatus, vm_fields. rewrite Z.geb_leb.
  destruct Hver as [H9 | H10].
  - assert (H10 : (PRIV_VERSION_1_10_0 <=? priv_ver (env m)) = false).
    { apply Z.leb_gt.
      unfold PRIV_VERSION_1_09_1, PRIV_VERSION_1_10_0 in *. lia. }
    apply Z.leb_le in H9. rewrite H9, H10, eqb_land_lxor.
    destruct (Z.land w _ =? Z.land (mstatus (env m)) _);
      cbn [negb snd events with_env tlb_flush emit];
      [now rewrite app_nil_r | reflexivity].
  - assert (H9 : (priv_ver (env m) <=? PRIV_VERSION_1_09_1) = false).
    { apply Z.leb_gt.
      unfold PRIV_VERSION_1_09_1, PRIV_VERSION_1_10_0 in *. lia. }
    apply Z.leb_le in H10. rewrite H9, H10, eqb_land_lxor.
    destruct (Z.land w _ =? Z.land (mstatus (env m)) _);
      cbn [negb snd events with_env tlb_flush emit];
      [now rewrite app_nil_r | reflexivity].
Qed.

Lemma mstatus_write_flushes_witness :
  let m := boot (reset_hart PRIV_VERSION_1_10_0 0 0) in
  exists r,
    riscv_csrrw (tgt := RV64) m CSR_MSTATUS (Z.shiftl PRV_H 11) (Z.ones 64)
    = Some r
    /\ mstatus (env (post r)) = 0
    /\ events (post r) = [EvTlbFlush (env m)].
Proof.
  cbv zeta.
  destruct (mstatus_write_flushes (tgt := RV64)
              (boot (reset_hart PRIV_VERSION_1_10_0 0 0))
              (Z.shiftl PRV_H 11) (Z.ones 64))
    as (r & Hcall & _ & _ & Hev).
  - discriminate.
  - discriminate.
  - right. discriminate.
  - exists r. split; [exact Hcall|]. split; [|exact Hev].
    vm_compute in Hcall. injection Hcall as <-. reflexivity.
Defined.

(** ** Supervisor interrupt registers *)

(** X14.  A write of [sie] in supervisor mode or above returns the old view
    [mie & mideleg] and changes [mie] only at the interrupts that are
    implemented, delegated and selected by the write mask, where it takes the
    bits of the new value; every other enable bit keeps its value. *)
Theorem sie_write_delegated_only {tgt : target} {pmp : PmpModule}
  (m : machine) (new_value write_mask : Z) :
  PRV_S <= priv (env m) ->
  write_mask <> 0 ->
  let k := Z.land (Z.land write_mask (mideleg (env m))) all_ints in
  riscv_csrrw m CSR_SIE new_value write_mask
  = Some {| ret := 0;
            ret_value := Some (Z.land (mie (env m)) (mideleg (env m)));
            post := with_env (set_mie (merge_bits (mie (env m)) new_value k))
                      m |}.
Proof.
  intros Hpriv Hmask. cbv zeta.
  assert (Hops : csr_ops CSR_SIE = Some (ops_rw read_sie write_sie))
    by table_element.
  assert (Hgate : get_field CSR_SIE 0x300 <= priv (env m)).
  { replace (get_field CSR_SIE 0x300) with PRV_S by reflexivity.
    exact Hpriv. }
  assert (Hrw : get_field CSR_SIE 0xC00 <> 3) by discriminate.
  assert (Hbits : forall old,
            Z.lor (Z.land old (Z.lnot all_ints))
              (Z.land
                 (Z.lor (Z.land old (Z.lnot (mideleg (env m))))
                    (Z.land
                       (merge_bits (Z.land old (mideleg (env m))) new_value
                          write_mask)
                       (mideleg (env m))))
                 all_ints)
            = merge_bits old new_value
                (Z.land (Z.land write_mask (mideleg (env m))) all_ints)).
  { intros old. unfold merge_bits. bitwise i Hi. bool_cases. }
  rewrite (riscv_csrrw_write m CSR_SIE new_value write_mask _ _ _
             (Z.land (mie (env m)) (mideleg (env m))) 0
             (with_env
                (set_mie
                   (merge_bits (mie (env m)) new_value
                      (Z.land (Z.land write_mask (mideleg (env m)))
                         all_ints))) m)
             Hops eq_refl eq_refl eq_refl Hgate Hrw Hmask eq_refl).
  - reflexivity.
  - unfold write_sie, write_mie, with_env. cbn beta.
    rewrite Hbits. reflexivity.
Qed.

Lemma sie_write_delegated_only_witness :
  let m := with_env (set_mideleg MIP_SSIP)
             (boot (reset_hart PRIV_VERSION_1_10_0 0 0)) in
  riscv_csrrw (tgt := RV64) m CSR_SIE (Z.ones 64) (Z.ones 64)
  = Some {| ret := 0; ret_value := Some 0;
            post := with_env (set_mie MIP_SSIP) m |}.
Proof.
  cbv zeta.
  refine (sie_write_delegated_only (tgt := RV64) _ (Z.ones 64) (Z.ones 64)
            _ _).
  - discriminate.
  - discriminate.
Defined.

(** X15.  An access to [sip] in supervisor mode or above has the effective
    mask [write_mask & mideleg & (SSIP | STIP)]: only pending bits that are
    delegated, selected, and software or timer interrupts of the supervisor
    are replaced, in one update of the interrupts under the iothread lock;
    SEIP and every pending bit that is not delegated keep their value, and
    with an empty effective mask nothing is changed or requested.  The value
    returned is the whole of [mip] (through a [uint32_t]). *)
Theorem sip_write_delegated_only {tgt : target} {pmp : PmpModule}
  (m : machine) (new_value write_mask : Z) :
  PRV_S <= priv (env m) ->
  let k :=
    Z.land (Z.land write_mask (mideleg (env m))) (Z.lor MIP_SSIP MIP_STIP) in
  let old := mip (env m) in
  exists r,
    riscv_csrrw m CSR_SIP new_value write_mask = Some r
    /\ ret r = 0
    /\ ret_value r = Some (to_uint32 old)
    /\ env (post r) = set_mip (merge_bits old new_value k) (env m)
    /\ Z.land (mip (env (post r))) (Z.lnot (mideleg (env m)))
       = Z.land old (Z.lnot (mideleg (env m)))
    /\ Z.land (mip (env (post r))) MIP_SEIP = Z.land old MIP_SEIP
    /\ (k = 0 -> post r = m)
    /\ (k <> 0 ->
        events (post r)
        = events m ++ [EvIothreadLock;
                       EvSetLocalInterrupt k (Z.land new_value k);
                       EvIothreadUnlock]).
Proof.
  intros Hpriv. cbv zeta.
  set (k := Z.land (Z.land write_mask (mideleg (env m)))
              (Z.lor MIP_SSIP MIP_STIP)).
  exists (rmw_sip m CSR_SIP new_value write_mask).
  split.
  - unfold riscv_csrrw.
    replace (priv (env m) <? get_field CSR_SIP 768) with false
      by (symmetry; apply Z.ltb_ge; exact Hpriv).
    rewrite andb_false_r. cbn [orb].
    replace (csr_ops CSR_SIP) with (Some (ops_op rmw_sip))
      by (symmetry; table_element).
    reflexivity.
  - unfold rmw_sip. rewrite rmw_mip_effect. fold k. cbn [ret ret_value post].
    split; [reflexivity|]. split; [reflexivity|].
    assert (Hout : Z.land (merge_bits (mip (env m)) new_value k)
                     (Z.lnot (mideleg (env m)))
                   = Z.land (mip (env m)) (Z.lnot (mideleg (env m)))).
    { unfold merge_bits, k. bitwise i Hi. bool_cases. }
    assert (Hseip : Z.land (merge_bits (mip (env m)) new_value k) MIP_SEIP
                    = Z.land (mip (env m)) MIP_SEIP).
    { apply land_merge_outside. unfold k.
      rewrite (Z.land_comm _ (Z.lor MIP_SSIP MIP_STIP)), Z.land_assoc.
      reflexivity. }
    destruct (Z.eqb_spec k 0) as [E | E].
    + rewrite E in *. rewrite merge_bits_0 in *. cbn [truthy Z.eqb negb].
      repeat split; try reflexivity.
      * now destruct m as [[] ? ? ? ?].
      * intros H. now elim H.
    + rewrite (proj2 (truthy_true _) E).
      cbn [env qemu_mutex_unlock_iothread emit with_env
           qemu_mutex_lock_iothread mip set_mip].
      repeat split; try assumption.
      * intros H. contradiction.
      * intros _.
        cbn [events qemu_mutex_unlock_iothread emit with_env
             qemu_mutex_lock_iothread].
        rewrite <- !app_assoc. reflexivity.
Qed.

Lemma sip_write_delegated_only_witness :
  let m := with_env (set_mideleg MIP_SSIP)
             (with_env (set_priv PRV_S)
                (boot (reset_hart PRIV_VERSION_1_10_0 0 0))) in
  exists r,
    riscv_csrrw (tgt := RV64) m CSR_SIP (Z.ones 64) (Z.ones 64) = Some r
    /\ ret r = 0
    /\ env (post r) = set_mip MIP_SSIP (env m).
Proof.
  cbv zeta.
  destruct (sip_write_delegated_only (tgt := RV64)
              (with_env (set_mideleg MIP_SSIP)
                 (with_env (set_priv PRV_S)
                    (boot (reset_hart PRIV_VERSION_1_10_0 0 0))))
              (Z.ones 64) (Z.ones 64))
    as (r & Hcall & Hret & _ & Henv & _).
  - discriminate.
  - exists r. split; [exact Hcall|]. split; [exact Hret | exact Henv].
Defined.

(** ** Writing [mstatus] back *)

Lemma set_field_twice x mask v :
  set_field (set_field x mask v) mask v = set_field x mask v.
Proof. unfold set_field. bitwise i Hi. bool_cases. Qed.

Lemma mstatus_finish_idem {tgt : target} x :
  mstatus_finish (mstatus_finish x) = mstatus_finish x.
Proof.
  destruct (mstatus_finish_sound x) as [HFS _].
  set (x2 := if truthy (Z.land x MSTATUS_FS) then Z.lor x MSTATUS_FS else x).
  assert (Hy : mstatus_finish x
               = set_field x2 (MSTATUS_SD tgt)
                   (Z.lor (Z.b2z (Z.land x2 MSTATUS_FS =? MSTATUS_FS))
                          (Z.b2z (Z.land x2 MSTATUS_XS =? MSTATUS_XS))))
    by reflexivity.
  assert (HF : Z.land (mstatus_finish x) MSTATUS_FS = Z.land x2 MSTATUS_FS).
  { rewrite Hy. apply land_set_field_outside, SD_disjoint_FS. }
  assert (HX : Z.land (mstatus_finish x) MSTATUS_XS = Z.land x2 MSTATUS_XS).
  { rewrite Hy. apply land_set_field_outside, SD_disjoint_XS. }
  unfold mstatus_finish at 1.
  replace (if truthy (Z.land (mstatus_finish x) MSTATUS_FS)
           then Z.lor (mstatus_finish x) MSTATUS_FS else mstatus_finish x)
    with (mstatus_finish x).
  - cbv zeta. rewrite HF, HX, Hy. apply set_field_twice.
  - destruct (truthy (Z.land (mstatus_finish x) MSTATUS_FS)) eqn:E;
      [|reflexivity].
    symmetry. apply lor_absorb. destruct HFS as [H0 | H]; [|exact H].
    apply truthy_true in E. contradiction.
Qed.

Lemma settled_fp_dirty {tgt : target} x :
  mstatus_finish x = x -> truthy (Z.land x MSTATUS_FS) = true ->
  Z.lor x MSTATUS_FS = x.
Proof.
  intros Hs Hon. apply fp_dirty_sound; [|exact Hon].
  rewrite <- Hs. apply mstatus_finish_sound.
Qed.

Lemma table_keeps_mstatus_settled {tgt : target} {pmp : PmpModule} :
  Forall (ops_preserve mstatus_settled) (map snd csr_ops_init).
Proof.
  each_writer
    ltac:(intros Hs; unfold mstatus_settled in *;
          first
            [ mstatus_shape m' Henv Hm';
              cbn [snd env with_env mstatus set_mstatus];
              apply mstatus_finish_idem
            | unfold write_fflags, write_frm, write_fcsr;
              destruct (truthy (Z.land (mstatus (env m)) MSTATUS_FS))
                eqn:Hon;
              cbn [negb snd env with_env mstatus set_mstatus set_frm
                   cpu_riscv_set_fflags set_fp_status];
              [rewrite (settled_fp_dirty _ Hs Hon)|]; exact Hs
            | rewrite write_satp_cases; split_ifs; exact Hs
            | unfold_writers; split_ifs; exact Hs ])
    ltac:(intros Hs; unfold mstatus_settled in *;
          unfold rmw_sip, rmw_mip, riscv_set_local_interrupt;
          split_ifs; exact Hs).
Qed.

Lemma reachable_mstatus_settled {tgt : target} {pmp : PmpModule}
  (m : machine) :
  reachable m -> mstatus_settled m.
Proof.
  intros Hreach. induction Hreach as [m H0 | m m' _ IH Hstep].
  - unfold mstatus_settled. rewrite H0. destruct tgt; reflexivity.
  - destruct Hstep as [m csrno n w r Hcall | m p | m ic ht].
    + exact (riscv_csrrw_preserves mstatus_settled
               table_keeps_mstatus_settled m csrno n w r IH Hcall).
    + exact IH.
    + exact IH.
Qed.

(** [write_mstatus] with its flush made explicit. *)
Lemma write_mstatus_flush_shape {tgt : target} {pmp : PmpModule}
  (m : machine) csrno val :
  write_mstatus m csrno val
  = (0, with_env
          (set_mstatus
             (mstatus_finish
                (merge_bits (mstatus (env m)) val
                   (mstatus_write_mask (env m) val))))
          (if truthy
                (Z.land (Z.lxor val (mstatus (env m)))
                   (if priv_ver (env m) <=? PRIV_VERSION_1_09_1
                    then lor_all [MSTATUS_MXR; MSTATUS_MPP; MSTATUS_MPRV;
                                  MSTATUS_SUM; MSTATUS_VM]
                    else if priv_ver (env m) >=? PRIV_VERSION_1_10_0
                    then lor_all [MSTATUS_MXR; MSTATUS_MPP; MSTATUS_MPRV;
                                  MSTATUS_SUM]
                    else 0))
           then tlb_flush m else m)).
Proof.
  unfold write_mstatus, mstatus_write_mask, mstatus_finish, merge_bits.
  rewrite Z.geb_leb.
  destruct (Z.leb_spec (priv_ver (env m)) PRIV_VERSION_1_09_1) as [H9 | H9];
    destruct (Z.leb_spec PRIV_VERSION_1_10_0 (priv_ver (env m))) as [H10 | H10];
    try (unfold PRIV_VERSION_1_09_1, PRIV_VERSION_1_10_0 in *; lia).
  - destruct (truthy (Z.land (Z.lxor val (mstatus (env m))) _)).
    + cbn [env tlb_flush emit lor_all fold_left].
      rewrite Z.lor_0_l. reflexivity.
    + cbn [env lor_all fold_left]. rewrite Z.lor_0_l. reflexivity.
  - destruct (truthy (Z.land (Z.lxor val (mstatus (env m))) _)); reflexivity.
  - rewrite Z.land_0_r. reflexivity.
Qed.

Lemma merge_bits_same x mask : merge_bits x x mask = x.
Proof. unfold merge_bits. bitwise i Hi. bool_cases. Qed.

(** X16.  In every state reached from reset, writing back to [mstatus] the
    value just read from it, under any write mask, is a no-op: status 0, the
    same value returned, no field of the hart changed and no TLB flush
    requested. *)
Theorem mstatus_write_back {tgt : target} {pmp : PmpModule}
  (m : machine) (write_mask : Z) :
  reachable m ->
  PRV_M <= priv (env m) ->
  riscv_csrrw m CSR_MSTATUS (mstatus (env m)) write_mask
  = Some {| ret := 0; ret_value := Some (mstatus (env m)); post := m |}.
Proof.
  intros Hreach Hpriv.
  pose proof (reachable_mstatus_settled m Hreach) as Hs.
  unfold mstatus_settled in Hs.
  assert (Hops : csr_ops CSR_MSTATUS = Some (ops_rw read_mstatus write_mstatus))
    by table_element.
  destruct (Z.eq_dec write_mask 0) as [-> | Hmask].
  - now rewrite (riscv_csrrw_read m CSR_MSTATUS _ _ read_mstatus 0
                   (Some (mstatus (env m))) Hops eq_refl eq_refl Hpriv
                   eq_refl).
  - assert (Hrw : get_field CSR_MSTATUS 0xC00 <> 3) by discriminate.
    rewrite (riscv_csrrw_write m CSR_MSTATUS (mstatus (env m)) write_mask
               _ _ _ (mstatus (env m)) 0 m Hops eq_refl eq_refl eq_refl
               Hpriv Hrw Hmask eq_refl); [reflexivity|].
    rewrite merge_bits_same, write_mstatus_flush_shape.
    rewrite merge_bits_same, Hs, Z.lxor_nilpotent, Z.land_0_l.
    cbn [truthy Z.eqb negb]. f_equal.
    now destruct m as [[] ? ? ? ?].
Qed.

Lemma mstatus_write_back_witness :
  let m0 := boot (reset_hart PRIV_VERSION_1_10_0 0 0) in
  let m := with_env (set_mstatus (Z.lor MSTATUS_FS (MSTATUS_SD RV64))) m0 in
  riscv_csrrw (tgt := RV64) m CSR_MSTATUS (mstatus (env m)) (Z.ones 64)
  = Some {| ret := 0; ret_value := Some (mstatus (env m)); post := m |}.
Proof.
  cbv zeta.
  set (m0 := boot (reset_hart PRIV_VERSION_1_10_0 0 0)).
  assert (Hcall : riscv_csrrw (tgt := RV64) m0 CSR_MSTATUS MSTATUS_FS
                    (Z.ones 64)
                  = Some {| ret := 0; ret_value := Some 0;
                            post :=
                              with_env
                                (set_mstatus
                                   (Z.lor MSTATUS_FS (MSTATUS_SD RV64)))
                                m0 |})
    by reflexivity.
  apply (mstatus_write_back (tgt := RV64)).
  - apply (reach_step m0); [apply reach_reset; reflexivity|].
    exact (step_csrrw m0 CSR_MSTATUS MSTATUS_FS (Z.ones 64) _ Hcall).
  - discriminate.
Defined.

(** ** What the counters read *)

(** X17.  A counter that is enabled for the caller reads the clock of the
    emulator, the instruction count under icount and the host ticks
    otherwise: [cycle], [instret], [mcycle] and [minstret] all yield the
    clock cut to the register width, on RV32 their upper halves yield the
    clock shifted right by 32 and cut, and the two halves of a 64-bit clock
    put together give the clock back. *)
Theorem counters_read_clock {tgt : target} {pmp : PmpModule}
  (m : machine) (csrno v : Z) :
  get_field csrno 0x300 <= priv (env m) ->
  counter_enabled (env m) csrno <> 0 ->
  (In csrno [CSR_CYCLE; CSR_INSTRET; CSR_MCYCLE; CSR_MINSTRET] ->
   riscv_csrrw m csrno v 0
   = Some {| ret := 0; ret_value := Some (to_ulong tgt (clock m));
             post := m |})
  /\ (tgt = RV32 ->
      In csrno [CSR_CYCLEH; CSR_INSTRETH; CSR_MCYCLEH; CSR_MINSTRETH] ->
      riscv_csrrw m csrno v 0
      = Some {| ret := 0;
                ret_value := Some (to_ulong tgt (Z.shiftr (clock m) 32));
                post := m |})
  /\ (tgt = RV32 ->
      0 <= clock m < 2 ^ 64 ->
      to_ulong tgt (clock m)
      + 2 ^ 32 * to_ulong tgt (Z.shiftr (clock m) 32) = clock m).
Proof.
  intros Hpriv Hen. apply truthy_true in Hen.
  split; [|split].
  - intros Hin. cbn [In] in Hin.
    assert (Hops : csr_ops csrno = Some (ops_r read_instret)).
    { destruct Hin as [<- | [<- | [<- | [<- | []]]]]; table_element. }
    rewrite (riscv_csrrw_read m csrno v _ read_instret 0
               (Some (to_ulong tgt (clock m))) Hops eq_refl eq_refl Hpriv);
      [reflexivity|].
    unfold read_instret, clock. rewrite Hen. cbn [negb].
    destruct (use_icount m); reflexivity.
  - intros -> Hin. cbn [In] in Hin.
    assert (Hops : csr_ops (tgt := RV32) csrno
                   = Some (ops_r (read_instreth (tgt := RV32)))).
    { destruct Hin as [<- | [<- | [<- | [<- | []]]]]; reflexivity. }
    rewrite (riscv_csrrw_read (tgt := RV32) m csrno v _
               (read_instreth (tgt := RV32)) 0
               (Some (to_ulong RV32 (Z.shiftr (clock m) 32))) Hops eq_refl
               eq_refl Hpriv);
      [reflexivity|].
    unfold read_instreth, clock. rewrite Hen. cbn [negb].
    destruct (use_icount m); reflexivity.
  - intros -> Hc. unfold to_ulong. cbn [TARGET_LONG_BITS].
    rewrite Z.shiftr_div_pow2 by lia.
    assert (Hhi : 0 <= clock m / 2 ^ 32 < 2 ^ 32).
    { split; [apply Z.div_pos; lia|].
      apply Z.div_lt_upper_bound; [lia|].
      change (2 ^ 32 * 2 ^ 32) with (2 ^ 64). lia. }
    rewrite (Z.mod_small (clock m / 2 ^ 32)) by exact Hhi.
    pose proof (Z.div_mod (clock m) (2 ^ 32) ltac:(lia)). lia.
Qed.

Lemma counters_read_clock_witness :
  let m := set_clock 0 0x1234567890
             (boot (reset_hart PRIV_VERSION_1_10_0 0 0)) in
  riscv_csrrw (tgt := RV32) m CSR_CYCLE 0 0
  = Some {| ret := 0; ret_value := Some 0x34567890; post := m |}
  /\ riscv_csrrw (tgt := RV32) m CSR_CYCLEH 0 0
     = Some {| ret := 0; ret_value := Some 0x12; post := m |}.
Proof.
  cbv zeta. split.
  - refine (proj1 (counters_read_clock (tgt := RV32) _ CSR_CYCLE 0 _ _) _).
    + vm_compute. discriminate.
    + vm_compute. discriminate.
    + left. reflexivity.
  - refine (proj1 (proj2 (counters_read_clock (tgt := RV32) _ CSR_CYCLEH 0
                            _ _)) eq_refl _).
    + vm_compute. discriminate.
    + vm_compute. discriminate.
    + left. reflexivity.
Defined.

(** ** Physical memory protection *)

(** X18.  The PMP registers.  In machine mode the sixteen CSR numbers from
    [pmpcfg0] on, 0x3a0 .. 0x3af, go to the configuration entry points of
    the PMP module with the index [csrno - 0x3a0], and the sixteen from
    [pmpaddr0] on, 0x3b0 .. 0x3bf, to its address entry points with the
    index [csrno - 0x3b0] (the initializer of the addresses overrides the
    one of the configuration, which runs up to [pmpaddr9]).  The value read
    is returned, a non-zero mask hands the merged value to the module, and
    nothing but the PMP state changes. *)
Theorem pmp_dispatch {tgt : target} {pmp : PmpModule}
  (m : machine) (csrno new_value write_mask : Z) :
  PRV_M <= priv (env m) ->
  (CSR_PMPCFG0 <= csrno < CSR_PMPCFG0 + 16 ->
   let i := csrno - CSR_PMPCFG0 in
   let old := pmpcfg_csr_read (pmp_state (env m)) i in
   riscv_csrrw m csrno new_value write_mask
   = Some {| ret := 0; ret_value := Some old;
             post :=
               if truthy write_mask
               then with_env
                      (set_pmp_state
                         (pmpcfg_csr_write (pmp_state (env m)) i
                            (merge_bits old new_value write_mask))) m
               else m |})
  /\ (CSR_PMPADDR0 <= csrno < CSR_PMPADDR0 + 16 ->
      let i := csrno - CSR_PMPADDR0 in
      let old := pmpaddr_csr_read (pmp_state (env m)) i in
      riscv_csrrw m csrno new_value write_mask
      = Some {| ret := 0; ret_value := Some old;
                post :=
                  if truthy write_mask
                  then with_env
                         (set_pmp_state
                            (pmpaddr_csr_write (pmp_state (env m)) i
                               (merge_bits old new_value write_mask))) m
                  else m |}).
Proof.
  intros Hpriv. split; intros Hrange; cbv zeta.
  - apply (csr_range_In CSR_PMPCFG0 16) in Hrange.
    cbn [csr_range seq map In] in Hrange.
    repeat (destruct Hrange as [<- | Hrange];
            [ match goal with
              | |- riscv_csrrw _ ?c _ _ = _ =>
                  assert (Hg : get_field c 0x300 <= priv (env m))
                    by (replace (get_field c 0x300) with PRV_M
                          by reflexivity;
                        exact Hpriv);
                  assert (Hrw : get_field c 0xC00 <> 3) by discriminate;
                  unfold riscv_csrrw;
                  rewrite (gate_false m c write_mask Hg (or_intror Hrw));
                  replace (csr_ops c)
                    with (Some (ops_rw read_pmpcfg write_pmpcfg))
                    by (symmetry; table_element)
              end;
              cbn [op read write ops_rw]; unfold read_pmpcfg, write_pmpcfg;
              change (0 <? 0) with false; cbv iota;
              destruct (truthy write_mask); reflexivity
            | ]).
    contradiction.
  - apply (csr_range_In CSR_PMPADDR0 16) in Hrange.
    cbn [csr_range seq map In] in Hrange.
    repeat (destruct Hrange as [<- | Hrange];
            [ match goal with
              | |- riscv_csrrw _ ?c _ _ = _ =>
                  assert (Hg : get_field c 0x300 <= priv (env m))
                    by (replace (get_field c 0x300) with PRV_M
                          by reflexivity;
                        exact Hpriv);
                  assert (Hrw : get_field c 0xC00 <> 3) by discriminate;
                  unfold riscv_csrrw;
                  rewrite (gate_false m c write_mask Hg (or_intror Hrw));
                  replace (csr_ops c)
                    with (Some (ops_rw read_pmpaddr write_pmpaddr))
                    by (symmetry; table_element)
              end;
              cbn [op read write ops_rw]; unfold read_pmpaddr, write_pmpaddr;
              change (0 <? 0) with false; cbv iota;
              destruct (truthy write_mask); reflexivity
            | ]).
    contradiction.
Qed.

Lemma pmp_dispatch_witness :
  let m := boot (reset_hart PRIV_VERSION_1_10_0 0 0) in
  riscv_csrrw (tgt := RV64) m (CSR_PMPADDR0 + 9) 5 0
  = Some {| ret := 0;
            ret_value :=
              Some (pmpaddr_csr_read (PmpModule := pmp_none)
                      (pmp_state (env m)) 9);
            post := m |}.
Proof.
  cbv zeta.
  refine (proj2 (pmp_dispatch (tgt := RV64) _ (CSR_PMPADDR0 + 9) 5 0 _) _).
  - discriminate.
  - vm_compute. split; [discriminate | reflexivity].
Defined.

(** ** CSR numbers without an initializer *)

Lemma fold_init_entry_none {tgt : target} {pmp : PmpModule} csrno
  (l : list (Z * Z * riscv_csr_operations)) (acc : riscv_csr_operations) :
  existsb (fun entry => let '(lo, hi, _) := entry in
                        (lo <=? csrno) && (csrno <=? hi)) l = false ->
  fold_left (init_entry csrno) l acc = acc.
Proof.
  revert acc. induction l as [|[[lo hi] o] l IH]; intros acc H;
    cbn [fold_left existsb] in *.
  - reflexivity.
  - apply orb_false_iff in H. destruct H as [H1 H2].
    rewrite (IH _ H2). unfold init_entry. now rewrite H1.
Qed.

(** X19.  A CSR number within the bounds of [csr_ops] that no designated
    initializer covers is refused in every privilege mode and for every
    operand, and nothing is changed: so are [time] and [timeh], which this
    build leaves to the machine-mode monitor. *)
Theorem riscv_csrrw_no_initializer {tgt : target} {pmp : PmpModule}
  (m : machine) (csrno new_value write_mask : Z) :
  0 <= csrno < csr_ops_len ->
  has_initializer csrno = false ->
  riscv_csrrw m csrno new_value write_mask
  = Some {| ret := ILLEGAL_CSR; ret_value := None; post := m |}.
Proof.
  intros [Hlo Hhi] Hnone. unfold riscv_csrrw, csr_ops.
  apply Z.leb_le in Hlo. apply Z.ltb_lt in Hhi. rewrite Hlo, Hhi.
  cbn [andb]. rewrite (fold_init_entry_none csrno _ _ Hnone).
  cbn [op read no_ops].
  destruct (_ || _); reflexivity.
Qed.

Lemma riscv_csrrw_no_initializer_witness :
  let m := boot (reset_hart PRIV_VERSION_1_10_0 0 0) in
  riscv_csrrw (tgt := RV32) m CSR_TIME 0 0
  = Some {| ret := ILLEGAL_CSR; ret_value := None; post := m |}
  /\ riscv_csrrw (tgt := RV32) m CSR_TIMEH 0 0
     = Some {| ret := ILLEGAL_CSR; ret_value := None; post := m |}.
Proof.
  cbv zeta. split.
  - apply (riscv_csrrw_no_initializer (tgt := RV32)).
    + vm_compute. split; [discriminate | reflexivity].
    + reflexivity.
  - apply (riscv_csrrw_no_initializer (tgt := RV32)).
    + vm_compute. split; [discriminate | reflexivity].
    + reflexivity.
Defined.

(** ** Machine information registers and hardwired counters *)

(** X20.  In machine mode: [mvendorid], [marchid] and [mimpid] read as 0 and
    [mhartid] as the hart's number, and any write to them is refused, their
    numbers being read-only; [misa] reads as the hart's [misa] and the
    machine performance counters and event selectors [mhpmcounter3] ..
    [mhpmcounter31], [mhpmevent3] .. [mhpmevent31] read as 0, and a write to
    any of these returns 0 and is dropped, for want of a write accessor. *)
Theorem machine_info_registers {tgt : target} {pmp : PmpModule}
  (m : machine) (csrno new_value write_mask : Z) :
  PRV_M <= priv (env m) ->
  let refused := {| ret := ILLEGAL_CSR; ret_value := None; post := m |} in
  let loads x := {| ret := 0; ret_value := Some x; post := m |} in
  (In csrno [CSR_MVENDORID; CSR_MARCHID; CSR_MIMPID] ->
   riscv_csrrw m csrno new_value write_mask
   = Some (if truthy write_mask then refused else loads 0))
  /\ (csrno = CSR_MHARTID ->
      riscv_csrrw m csrno new_value write_mask
      = Some (if truthy write_mask then refused
              else loads (mhartid (env m))))
  /\ (csrno = CSR_MISA ->
      riscv_csrrw m csrno new_value write_mask
      = Some (loads (misa (env m))))
  /\ (CSR_MHPMCOUNTER3 <= csrno <= CSR_MHPMCOUNTER31
      \/ CSR_MHPMEVENT3 <= csrno <= CSR_MHPMEVENT31 ->
      riscv_csrrw m csrno new_value write_mask = Some (loads 0)).
Proof.
  intros Hpriv. cbv zeta. unfold ILLEGAL_CSR.
  assert (Hro : forall c rd x,
            get_field c 0x300 = PRV_M -> get_field c 0xC00 = 3 ->
            csr_ops c = Some (ops_r rd) -> rd m c = (0, Some x) ->
            riscv_csrrw m c new_value write_mask
            = Some (if truthy write_mask
                    then {| ret := -1; ret_value := None; post := m |}
                    else {| ret := 0; ret_value := Some x; post := m |})).
  { intros c rd x Hp Hr Hops Hrd. unfold riscv_csrrw.
    rewrite Hp, Hr, Hops. cbn [Z.eqb Pos.eqb andb op read ops_r].
    rewrite andb_true_r.
    replace (priv (env m) <? PRV_M) with false
      by (symmetry; apply Z.ltb_ge; exact Hpriv).
    rewrite orb_false_r, Hrd.
    destruct (truthy write_mask); reflexivity. }
  assert (Hrw : forall c rd x,
            get_field c 0x300 = PRV_M -> get_field c 0xC00 <> 3 ->
            csr_ops c = Some (ops_r rd) -> rd m c = (0, Some x) ->
            riscv_csrrw m c new_value write_mask
            = Some {| ret := 0; ret_value := Some x; post := m |}).
  { intros c rd x Hp Hr Hops Hrd. unfold riscv_csrrw.
    assert (Hg : get_field c 0x300 <= priv (env m))
      by (rewrite Hp; exact Hpriv).
    rewrite (gate_false m c write_mask Hg (or_intror Hr)), Hops.
    cbn [op read write ops_r]. rewrite Hrd.
    destruct (truthy write_mask); reflexivity. }
  split; [|split; [|split]].
  - intros Hin. cbn [In] in Hin.
    destruct Hin as [<- | [<- | [<- | []]]];
      apply (Hro _ read_zero 0); try reflexivity; table_element.
  - intros ->.
    apply (Hro _ read_mhartid (mhartid (env m))); try reflexivity.
    table_element.
  - intros ->.
    apply (Hrw _ read_misa (misa (env m))); try reflexivity;
      [discriminate | table_element].
  - intros [Hrange | Hrange].
    + assert (Hin : In csrno (csr_range CSR_MHPMCOUNTER3 29))
        by (apply csr_range_In;
            unfold CSR_MHPMCOUNTER3, CSR_MHPMCOUNTER31 in *; lia).
      cbn [csr_range seq map In] in Hin.
      repeat (destruct Hin as [<- | Hin];
              [ apply (Hrw _ read_zero 0); try reflexivity;
                [discriminate | table_element] | ]).
      contradiction.
    + assert (Hin : In csrno (csr_range CSR_MHPMEVENT3 29))
        by (apply csr_range_In;
            unfold CSR_MHPMEVENT3, CSR_MHPMEVENT31 in *; lia).
      cbn [csr_range seq map In] in Hin.
      repeat (destruct Hin as [<- | Hin];
              [ apply (Hrw _ read_zero 0); try reflexivity;
                [discriminate | table_element] | ]).
      contradiction.
Qed.

Lemma machine_info_registers_witness :
  let m := boot (reset_hart PRIV_VERSION_1_10_0 RVU 0) in
  riscv_csrrw (tgt := RV64) m CSR_MHARTID 1 (Z.ones 64)
  = Some {| ret := ILLEGAL_CSR; ret_value := None; post := m |}
  /\ riscv_csrrw (tgt := RV64) m CSR_MISA 0 (Z.ones 64)
     = Some {| ret := 0; ret_value := Some RVU; post := m |}.
Proof.
  cbv zeta. split.
  - refine (proj1 (proj2 (machine_info_registers (tgt := RV64) _ CSR_MHARTID
                            1 (Z.ones 64) _)) eq_refl).
    discriminate.
  - refine (proj1 (proj2 (proj2 (machine_info_registers (tgt := RV64) _
                                   CSR_MISA 0 (Z.ones 64) _))) eq_refl).
    discriminate.
Defined.

(** ** cpu.h: the flags of a translation block *)

(** X21.  [cpu_riscv_set_tb_flags] encodes without loss: each of the flags
    M, A, F, D and C is set exactly when [misa] has the letter, the fields
    IAT and DAT hold the two MMU indices (which are below 8), and no other
    bit is set, the XLEN field in particular being left 0. *)
Theorem tb_flags_decode (misa : Z) (cpu_mmu_index : bool -> Z) :
  0 <= cpu_mmu_index true < 8 ->
  0 <= cpu_mmu_index false < 8 ->
  let f := cpu_riscv_set_tb_flags misa cpu_mmu_index in
  truthy (Z.land f RISCV_TF_MISA_M) = truthy (Z.land misa (RV 12))
  /\ truthy (Z.land f RISCV_TF_MISA_A) = truthy (Z.land misa (RV 0))
  /\ truthy (Z.land f RISCV_TF_MISA_F) = truthy (Z.land misa (RV 5))
  /\ truthy (Z.land f RISCV_TF_MISA_D) = truthy (Z.land misa (RV 3))
  /\ truthy (Z.land f RISCV_TF_MISA_C) = truthy (Z.land misa (RV 2))
  /\ get_field f RISCV_TF_IAT_MASK = cpu_mmu_index true
  /\ get_field f RISCV_TF_DAT_MASK = cpu_mmu_index false
  /\ Z.land f RISCV_TF_XLEN_MASK = 0
  /\ 0 <= f < 2 ^ 11.
Proof.
  intros Hi Hd. cbv zeta. unfold cpu_riscv_set_tb_flags, RV.
  change (65 - 65) with 0. change (68 - 65) with 3. change (70 - 65) with 5.
  change (77 - 65) with 12. change (67 - 65) with 2.
  generalize (cpu_mmu_index true) (cpu_mmu_index false) Hi Hd.
  clear Hi Hd. intros i d Hi Hd.
  assert (Ei : i = 0 \/ i = 1 \/ i = 2 \/ i = 3 \/ i = 4 \/ i = 5 \/ i = 6
               \/ i = 7) by lia.
  assert (Ed : d = 0 \/ d = 1 \/ d = 2 \/ d = 3 \/ d = 4 \/ d = 5 \/ d = 6
               \/ d = 7) by lia.
  clear Hi Hd.
  destruct (truthy (Z.land misa (Z.shiftl 1 0)));
    destruct (truthy (Z.land misa (Z.shiftl 1 3)));
    destruct (truthy (Z.land misa (Z.shiftl 1 5)));
    destruct (truthy (Z.land misa (Z.shiftl 1 12)));
    destruct (truthy (Z.land misa (Z.shiftl 1 2)));
    repeat (destruct Ei as [-> | Ei]); subst;
    repeat (destruct Ed as [-> | Ed]); subst;
    vm_compute; repeat split; discriminate.
Qed.

Lemma tb_flags_decode_witness :
  let f := cpu_riscv_set_tb_flags (Z.lor (RV 12) (RV 2))
             (fun ifetch => if ifetch then 3 else 1) in
  f = 0x171
  /\ get_field f RISCV_TF_IAT_MASK = 3
  /\ get_field f RISCV_TF_DAT_MASK = 1.
Proof.
  cbv zeta. split; [reflexivity|].
  destruct (tb_flags_decode (Z.lor (RV 12) (RV 2))
              (fun ifetch : bool => if ifetch then 3 else 1))
    as (_ & _ & _ & _ & _ & Hi & Hd & _).
  - cbv beta iota. lia.
  - cbv beta iota. lia.
  - split; [exact Hi | exact Hd].
Defined.

(** ** The linux-user build *)

Lemma user_only_ops {tgt : target} {pmp : PmpModule} csrno ops rd :
  UserOnly.csr_ops csrno = Some ops -> op ops = None -> read ops = Some rd ->
  forall m new_value write_mask x,
    rd m csrno = (0, Some x) ->
    UserOnly.riscv_csrrw m csrno new_value write_mask
    = if truthy write_mask then
        match write ops with
        | Some wr =>
            let '(r, m') :=
              wr m csrno (merge_bits x new_value write_mask) in
            if r <? 0
            then Some {| ret := r; ret_value := None; post := m' |}
            else Some {| ret := 0; ret_value := Some x; post := m' |}
        | None => Some {| ret := 0; ret_value := Some x; post := m |}
        end
      else Some {| ret := 0; ret_value := Some x; post := m |}.
Proof.
  intros Hops Hop Hrd m new_value write_mask x Hx.
  unfold UserOnly.riscv_csrrw. rewrite Hops, Hop, Hrd, Hx.
  reflexivity.
Qed.

(** X22.  In the linux-user build [cycle], [instret] and [time] read the
    host ticks cut to the register width, and on RV32 [cycleh], [instreth]
    and [timeh] read the ticks shifted right by 32; no privilege is asked
    for, and since the check of read-only numbers is left out as well, an
    access with a non-zero write mask is not refused: it returns 0 with the
    value read and drops the write. *)
Theorem user_only_counters {tgt : target} {pmp : PmpModule}
  (m : machine) (csrno new_value write_mask : Z) :
  (In csrno [CSR_CYCLE; CSR_INSTRET; CSR_TIME] ->
   UserOnly.riscv_csrrw m csrno new_value write_mask
   = Some {| ret := 0;
             ret_value := Some (to_ulong tgt (cpu_get_host_ticks m));
             post := m |})
  /\ (tgt = RV32 ->
      In csrno [CSR_CYCLEH; CSR_INSTRETH; CSR_TIMEH] ->
      UserOnly.riscv_csrrw m csrno new_value write_mask
      = Some {| ret := 0;
                ret_value :=
                  Some (to_ulong tgt (Z.shiftr (cpu_get_host_ticks m) 32));
                post := m |}).
Proof.
  assert (Hen : forall c,
            truthy (UserOnly.counter_enabled (env m) c) = true).
  { intros c. unfold UserOnly.counter_enabled.
    rewrite land_shiftr_1 by (apply Z.land_nonneg; now right).
    destruct (land_mask_bounds c 31 ltac:(lia)) as [Hlo Hhi].
    replace (to_ulong tgt (-1)) with (Z.ones (TARGET_LONG_BITS tgt))
      by (destruct tgt; reflexivity).
    rewrite Z.ones_spec_low by (destruct tgt; cbn; lia). reflexivity. }
  split.
  - intros Hin. cbn [In] in Hin.
    destruct Hin as [<- | [<- | [<- | []]]].
    + rewrite (user_only_ops CSR_CYCLE (ops_r UserOnly.read_instret) UserOnly.read_instret
                 ltac:(table_element) eq_refl eq_refl m new_value write_mask
                 (to_ulong tgt (cpu_get_host_ticks m))).
      * cbn [write ops_r]. destruct (truthy write_mask); reflexivity.
      * unfold UserOnly.read_instret. now rewrite Hen.
    + rewrite (user_only_ops CSR_INSTRET (ops_r UserOnly.read_instret) UserOnly.read_instret
                 ltac:(table_element) eq_refl eq_refl m new_value write_mask
                 (to_ulong tgt (cpu_get_host_ticks m))).
      * cbn [write ops_r]. destruct (truthy write_mask); reflexivity.
      * unfold UserOnly.read_instret. now rewrite Hen.
    + rewrite (user_only_ops CSR_TIME (ops_r UserOnly.read_time) UserOnly.read_time
                 ltac:(table_element) eq_refl eq_refl m new_value write_mask
                 (to_ulong tgt (cpu_get_host_ticks m)) eq_refl).
      cbn [write ops_r]. destruct (truthy write_mask); reflexivity.
  - intros Ht Hin. cbn [In] in Hin.
    destruct Hin as [<- | [<- | [<- | []]]].
    + rewrite (user_only_ops CSR_CYCLEH (ops_r UserOnly.read_instreth) UserOnly.read_instreth
                 ltac:(rewrite Ht; reflexivity) eq_refl eq_refl m new_value
                 write_mask
                 (to_ulong tgt (Z.shiftr (cpu_get_host_ticks m) 32))).
      * cbn [write ops_r]. destruct (truthy write_mask); reflexivity.
      * unfold UserOnly.read_instreth. now rewrite Hen.
    + rewrite (user_only_ops CSR_INSTRETH (ops_r UserOnly.read_instreth) UserOnly.read_instreth
                 ltac:(rewrite Ht; reflexivity) eq_refl eq_refl m new_value
                 write_mask
                 (to_ulong tgt (Z.shiftr (cpu_get_host_ticks m) 32))).
      * cbn [write ops_r]. destruct (truthy write_mask); reflexivity.
      * unfold UserOnly.read_instreth. now rewrite Hen.
    + rewrite (user_only_ops CSR_TIMEH (ops_r UserOnly.read_timeh) UserOnly.read_timeh
                 ltac:(rewrite Ht; reflexivity) eq_refl eq_refl m new_value
                 write_mask
                 (to_ulong tgt (Z.shiftr (cpu_get_host_ticks m) 32))
                 eq_refl).
      cbn [write ops_r]. destruct (truthy write_mask); reflexivity.
Qed.

Lemma user_only_counters_witness :
  let m := set_clock 0 0x1234567890
             (boot (reset_hart PRIV_VERSION_1_10_0 0 0)) in
  UserOnly.riscv_csrrw (tgt := RV32) m CSR_TIME 7 (Z.ones 32)
  = Some {| ret := 0; ret_value := Some 0x34567890; post := m |}
  /\ UserOnly.riscv_csrrw (tgt := RV32) m CSR_TIMEH 0 0
     = Some {| ret := 0; ret_value := Some 0x12; post := m |}.
Proof.
  cbv zeta. split.
  - refine (proj1 (user_only_counters (tgt := RV32) _ CSR_TIME 7 (Z.ones 32))
              _).
    do 2 right. left. reflexivity.
  - refine (proj2 (user_only_counters (tgt := RV32) _ CSR_TIMEH 0 0)
              eq_refl _).
    do 2 right. left. reflexivity.
Defined.

(** X23.  In the linux-user build the floating-point registers do not
    depend on [mstatus]: every access succeeds whatever FS holds, a write
    stores bits 4:0 of the merged value as flags ([fflags]), bits 2:0 as
    rounding mode ([frm]), or both fields of [fcsr], and [mstatus] is left
    as it is. *)
Theorem user_only_fp {tgt : target} {pmp : PmpModule}
  (m : machine) (new_value write_mask : Z) :
  write_mask <> 0 ->
  (let old := fp_status (env m) in
   UserOnly.riscv_csrrw m CSR_FFLAGS new_value write_mask
   = Some {| ret := 0; ret_value := Some old;
             post :=
               with_env
                 (set_fp_status
                    (Z.land (merge_bits old new_value write_mask) 0x1f))
                 m |})
  /\ (let old := frm (env m) in
      UserOnly.riscv_csrrw m CSR_FRM new_value write_mask
      = Some {| ret := 0; ret_value := Some old;
                post :=
                  with_env
                    (set_frm (Z.land (merge_bits old new_value write_mask) 7))
                    m |})
  /\ (let old := Z.lor (fp_status (env m)) (Z.shiftl (frm (env m)) 5) in
      let w := merge_bits old new_value write_mask in
      UserOnly.riscv_csrrw m CSR_FCSR new_value write_mask
      = Some {| ret := 0; ret_value := Some old;
                post :=
                  with_env (set_fp_status (Z.land w 0x1f))
                    (with_env (set_frm (Z.land (Z.shiftr w 5) 7)) m) |}).
Proof.
  intros Hmask. apply truthy_true in Hmask. cbv zeta.
  split; [|split].
  - rewrite (user_only_ops CSR_FFLAGS (ops_rw UserOnly.read_fflags UserOnly.write_fflags) UserOnly.read_fflags
               ltac:(table_element) eq_refl eq_refl m new_value write_mask
               (fp_status (env m)) eq_refl).
    rewrite Hmask. reflexivity.
  - rewrite (user_only_ops CSR_FRM (ops_rw UserOnly.read_frm UserOnly.write_frm) UserOnly.read_frm
               ltac:(table_element) eq_refl eq_refl m new_value write_mask
               (frm (env m)) eq_refl).
    rewrite Hmask. reflexivity.
  - rewrite (user_only_ops CSR_FCSR (ops_rw UserOnly.read_fcsr UserOnly.write_fcsr) UserOnly.read_fcsr
               ltac:(table_element) eq_refl eq_refl m new_value write_mask
               (Z.lor (fp_status (env m)) (Z.shiftl (frm (env m)) 5))).
    + rewrite Hmask. cbn [write ops_rw]. unfold UserOnly.write_fcsr.
      destruct (fcsr_fields
                  (merge_bits
                     (Z.lor (fp_status (env m)) (Z.shiftl (frm (env m)) 5))
                     new_value write_mask)) as (Hflags & Hrm & _).
      rewrite Hflags, Hrm. reflexivity.
    + unfold UserOnly.read_fcsr, cpu_riscv_get_fflags.
      change FSR_AEXC_SHIFT with 0. now rewrite Z.shiftl_0_r.
Qed.

Lemma user_only_fp_witness :
  let m := boot (reset_hart PRIV_VERSION_1_10_0 0 0) in
  UserOnly.riscv_csrrw (tgt := RV64) m CSR_FRM 0xff (Z.ones 64)
  = Some {| ret := 0; ret_value := Some 0;
            post := with_env (set_frm 7) m |}.
Proof.
  cbv zeta.
  refine (proj1 (proj2 (user_only_fp (tgt := RV64) _ 0xff (Z.ones 64) _))).
  discriminate.
Defined.

Lemma single_range_false c x :
  c <> x -> (c <=? x) && (x <=? c) = false.
Proof.
  intros H. apply andb_false_iff.
  destruct (Z.leb_spec c x); [right; apply Z.leb_gt; lia | now left].
Qed.

(** X24.  The linux-user build has the registers of its table, six on
    RV64 and nine on RV32, and no other: every other CSR number within the
    bounds is refused, the registers of the privileged architecture among
    them. *)
Theorem user_only_other_refused {tgt : target} {pmp : PmpModule}
  (m : machine) (csrno new_value write_mask : Z) :
  0 <= csrno < csr_ops_len ->
  ~ In csrno (UserOnly.user_csrs tgt) ->
  UserOnly.riscv_csrrw m csrno new_value write_mask
  = Some {| ret := ILLEGAL_CSR; ret_value := None; post := m |}.
Proof.
  intros [Hlo Hhi] Hout.
  unfold UserOnly.riscv_csrrw, UserOnly.csr_ops.
  apply Z.leb_le in Hlo. apply Z.ltb_lt in Hhi. rewrite Hlo, Hhi.
  cbn [andb].
  assert (Hne : forall c, In c (UserOnly.user_csrs tgt) -> c <> csrno).
  { intros c Hc ->. contradiction. }
  unfold UserOnly.user_csrs in Hne.
  destruct tgt; cbn [UserOnly.csr_ops_init app fold_left];
    unfold init_entry;
    rewrite !single_range_false by (apply Hne; cbn; tauto);
    reflexivity.
Qed.

Lemma user_only_other_refused_witness :
  let m := boot (reset_hart PRIV_VERSION_1_10_0 0 0) in
  UserOnly.riscv_csrrw (tgt := RV64) m CSR_MSTATUS 0 0
  = Some {| ret := ILLEGAL_CSR; ret_value := None; post := m |}.
Proof.
  cbv zeta.
  apply (user_only_other_refused (tgt := RV64)).
  - vm_compute. split; [discriminate | reflexivity].
  - vm_compute. intuition discriminate.
Defined.

(** ** The VM field and the hardwired bits of [mstatus] *)

Lemma mstatus_write_value {tgt : target} {pmp : PmpModule}
  (m : machine) (new_value write_mask : Z) :
  PRV_M <= priv (env m) ->
  write_mask <> 0 ->
  let old := mstatus (env m) in
  let w := merge_bits old new_value write_mask in
  exists r,
    riscv_csrrw m CSR_MSTATUS new_value write_mask = Some r
    /\ ret r = 0
    /\ ret_value r = Some old
    /\ mstatus (env (post r))
       = mstatus_finish (merge_bits old w (mstatus_write_mask (env m) w)).
Proof.
  intros Hpriv Hmask. cbv zeta.
  assert (Hops : csr_ops CSR_MSTATUS = Some (ops_rw read_mstatus write_mstatus))
    by table_element.
  assert (Hrw : get_field CSR_MSTATUS 0xC00 <> 3) by discriminate.
  eexists. split.
  - exact (riscv_csrrw_write m CSR_MSTATUS new_value write_mask _ _ _
             (mstatus (env m)) 0 _ Hops eq_refl eq_refl eq_refl Hpriv Hrw
             Hmask eq_refl (write_mstatus_flush_shape m CSR_MSTATUS _)).
  - cbn [Z.ltb Z.compare ret ret_value post].
    split; [reflexivity|]. split; [reflexivity|].
    destruct (truthy _); reflexivity.
Qed.

(** X25.  The VM field of [mstatus].  Under version 1.9.1 a machine-mode
    write stores the VM field of the merged value when [validate_vm] accepts
    it and keeps the old field otherwise; the test looks at the low four
    bits of the five-bit field only, so that a value of 16 or more is
    accepted, and stored whole, when its low four bits name a valid mode.
    Under version 1.10 no write changes these bits. *)
Theorem mstatus_vm_field {tgt : target} {pmp : PmpModule}
  (m : machine) (new_value write_mask : Z) :
  PRV_M <= priv (env m) ->
  write_mask <> 0 ->
  let old := mstatus (env m) in
  let w := merge_bits old new_value write_mask in
  exists r,
    riscv_csrrw m CSR_MSTATUS new_value write_mask = Some r
    /\ ret r = 0
    /\ (priv_ver (env m) <= PRIV_VERSION_1_09_1 ->
        get_field (mstatus (env (post r))) MSTATUS_VM
        = if existsb (Z.eqb (Z.land (get_field w MSTATUS_VM) 0xf))
               (legacy_vm_modes tgt)
          then get_field w MSTATUS_VM
          else get_field old MSTATUS_VM)
    /\ (PRIV_VERSION_1_10_0 <= priv_ver (env m) ->
        get_field (mstatus (env (post r))) MSTATUS_VM
        = get_field old MSTATUS_VM).
Proof.
  intros Hpriv Hmask. cbv zeta.
  destruct (mstatus_write_value m new_value write_mask Hpriv Hmask)
    as (r & Hcall & Hret & _ & Hms).
  exists r. split; [exact Hcall|]. split; [exact Hret|].
  rewrite Hms.
  set (w := merge_bits (mstatus (env m)) new_value write_mask).
  assert (Hfin : forall x,
            Z.land (mstatus_finish x) MSTATUS_VM = Z.land x MSTATUS_VM).
  { intros x. apply mstatus_finish_outside; [reflexivity|].
    destruct tgt; reflexivity. }
  split.
  - intros H9.
    assert (H10 : (priv_ver (env m) >=? PRIV_VERSION_1_10_0) = false).
    { rewrite Z.geb_leb. apply Z.leb_gt.
      unfold PRIV_VERSION_1_09_1, PRIV_VERSION_1_10_0 in *. lia. }
    apply Z.leb_le in H9.
    assert (Hvalid : truthy (validate_vm (env m) (get_field w MSTATUS_VM))
                     = existsb (Z.eqb (Z.land (get_field w MSTATUS_VM) 0xf))
                         (legacy_vm_modes tgt)).
    { unfold validate_vm. rewrite H10.
      unfold valid_vm_1_09, char16_table, legacy_vm_modes.
      destruct tgt; destruct (existsb _ _); reflexivity. }
    destruct (existsb _ _); apply get_field_eq; rewrite Hfin;
      unfold mstatus_write_mask; rewrite H10, H9, Hvalid.
    + apply land_merge_inside. split_ifs; reflexivity.
    + apply land_merge_outside. split_ifs; reflexivity.
  - intros H10. apply Z.leb_le in H10. rewrite <- Z.geb_leb in H10.
    apply get_field_eq. rewrite Hfin.
    unfold mstatus_write_mask. rewrite H10.
    apply land_merge_outside. split_ifs; reflexivity.
Qed.

Lemma mstatus_vm_field_witness :
  let m := boot (reset_hart PRIV_VERSION_1_09_1 0 0) in
  exists r,
    riscv_csrrw (tgt := RV32) m CSR_MSTATUS (Z.shiftl 24 24) (Z.ones 32)
    = Some r
    /\ get_field (mstatus (env (post r))) MSTATUS_VM = 24.
Proof.
  cbv zeta.
  destruct (mstatus_vm_field (tgt := RV32)
              (boot (reset_hart PRIV_VERSION_1_09_1 0 0))
              (Z.shiftl 24 24) (Z.ones 32))
    as (r & Hcall & _ & Hvm & _).
  - discriminate.
  - discriminate.
  - exists r. split; [exact Hcall|].
    exact (Hvm ltac:(discriminate)).
Defined.

(** X26.  No write of [mstatus] changes a bit outside the fields SIE, SPIE,
    MIE, MPIE, SPP, FS, MPRV, SUM, MPP, MXR, VM and SD, under any
    privileged version and for any value: UIE, UPIE, XS and the reserved
    bits are hardwired to what the hart had at reset. *)
Theorem mstatus_hardwired_bits {tgt : target} {pmp : PmpModule}
  (m : machine) (new_value write_mask : Z) :
  PRV_M <= priv (env m) ->
  write_mask <> 0 ->
  exists r,
    riscv_csrrw m CSR_MSTATUS new_value write_mask = Some r
    /\ ret r = 0
    /\ Z.land (mstatus (env (post r))) (Z.lnot (mstatus_writable tgt))
       = Z.land (mstatus (env m)) (Z.lnot (mstatus_writable tgt))
    /\ forall f,
         In f [MSTATUS_UIE; MSTATUS_UPIE; MSTATUS_XS] ->
         get_field (mstatus (env (post r))) f
         = get_field (mstatus (env m)) f.
Proof.
  intros Hpriv Hmask.
  destruct (mstatus_write_value m new_value write_mask Hpriv Hmask)
    as (r & Hcall & Hret & _ & Hms).
  exists r. split; [exact Hcall|]. split; [exact Hret|].
  rewrite Hms.
  set (w := merge_bits (mstatus (env m)) new_value write_mask).
  assert (Hout : Z.land
                   (mstatus_finish
                      (merge_bits (mstatus (env m)) w
                         (mstatus_write_mask (env m) w)))
                   (Z.lnot (mstatus_writable tgt))
                 = Z.land (mstatus (env m)) (Z.lnot (mstatus_writable tgt))).
  { rewrite mstatus_finish_outside by (destruct tgt; reflexivity).
    apply land_merge_outside. unfold mstatus_write_mask.
    destruct tgt; split_ifs; reflexivity. }
  split; [exact Hout|].
  intros f Hf. apply get_field_eq.
  apply (land_sub_land _ _ f (Z.lnot (mstatus_writable tgt))); [|exact Hout].
  cbn [In] in Hf.
  destruct Hf as [<- | [<- | [<- | []]]]; destruct tgt; reflexivity.
Qed.

Lemma mstatus_hardwired_bits_witness :
  let m := boot (reset_hart PRIV_VERSION_1_10_0 0 0) in
  exists r,
    riscv_csrrw (tgt := RV64) m CSR_MSTATUS (Z.ones 64) (Z.ones 64) = Some r
    /\ ret r = 0
    /\ get_field (mstatus (env (post r))) MSTATUS_XS
       = get_field (mstatus (env m)) MSTATUS_XS.
Proof.
  cbv zeta.
  destruct (mstatus_hardwired_bits (tgt := RV64)
              (boot (reset_hart PRIV_VERSION_1_10_0 0 0))
              (Z.ones 64) (Z.ones 64))
    as (r & Hcall & Hret & _ & Hf).
  - discriminate.
  - discriminate.
  - exists r. split; [exact Hcall|]. split; [exact Hret|].
    apply Hf. do 2 right. left. reflexivity.
Defined.
